(** * pdf2pdfocr: the orchestration pipeline of [pdf2pdfocr.py]

    A shallow embedding of the parts of [Pdf2PdfOcr] that decide how pages are
    partitioned over workers, how the per-page OCR overlays are assembled, how
    the final merge falls back, which [convert] preset is used when the PDF is
    rebuilt from images, and how the producer metadata is rewritten.

    Python integers are [Z], and the quotient [a / b] of two of them is the
    binary64 number nearest to the exact quotient; strings and paths are
    [string] (byte strings, whose order is the order Python uses for [str]);
    the file system is a finite map from paths to the contents of regular
    files; every method of the class that touches the file system, prints or
    exits is a computation in the monad [M] defined below. *)

From Stdlib Require Import ZArith List String Ascii Lia.
From stdpp Require Import base option list gmap strings sorting pretty.

Open Scope string_scope.
Open Scope list_scope.
Open Scope Z_scope.

(** ** Exceptions and results *)

(** The Python exceptions the modelled code can raise. *)
Inductive exn : Type :=
| ArithmeticError
| ZeroDivisionError
| TypeError
| PdfReadError
| FileNotFoundError
| SameFileError
| IndexError
| ValueError
| OverflowError
| OSError
| KeyError.

(** How a call ends: it returns a value, raises, or leaves the process through
    [exit(code)]. *)
Inductive outcome (A : Type) : Type :=
| Return (a : A)
| Raise (e : exn)
| Exit (code : Z).

Arguments Return {A} a.
Arguments Raise {A} e.
Arguments Exit {A} code.

(** ** Page ranges: [Pdf2PdfOcr.calculate_ranges] *)

Module Ranges.

(** A finite binary64 number, [(-1)^negative * mantissa * 2^exponent]. *)
Record float : Type := mk_float {
  negative : bool;
  mantissa : Z;
  exponent : Z
}.

(** The integer nearest to [n / d], a tie going to the even one (for
    [0 <= n] and [0 < d]). *)
Definition round_half_even (n d : Z) : Z :=
  let q := n / d in
  let r := n mod d in
  if 2 * r <? d then q
  else if d <? 2 * r then q + 1
  else if Z.even q then q else q + 1.

(** The exponent of the binary64 number nearest to [a / b], for positive [a]
    and [b]: the quotient lies between [2^k] and [2^(k+1)], its 53-bit
    mantissa has the weight [2^(k-52)], and no weight is below [2^-1074]. *)
Definition float_exponent (a b : Z) : Z :=
  let k := Z.log2 a - Z.log2 b in
  let k := if a * 2 ^ Z.max 0 (- k) <? b * 2 ^ Z.max 0 k then k - 1 else k in
  Z.max (-1074) (k - 52).

(** [a / b] on two Python integers: the binary64 number nearest to the exact
    quotient. A zero divisor raises [ZeroDivisionError], a quotient beyond the
    largest float raises [OverflowError]. *)
Definition truediv (a b : Z) : outcome float :=
  if b =? 0 then Raise ZeroDivisionError
  else if a =? 0 then Return (mk_float false 0 0)
  else
    let n := Z.abs a in
    let d := Z.abs b in
    let e := float_exponent n d in
    let m := round_half_even (n * 2 ^ Z.max 0 (- e)) (d * 2 ^ Z.max 0 e) in
    if (0 <=? e) && (2 ^ 1024 <=? m * 2 ^ e) then Raise OverflowError
    else Return (mk_float (xorb (a <? 0) (b <? 0)) m e).

(** [math.ceil] on a float: the least integer that is not below it. *)
Definition ceil (x : float) : Z :=
  let m := if negative x then - mantissa x else mantissa x in
  if 0 <=? exponent x then m * 2 ^ exponent x
  else - ((- m) / 2 ^ (- exponent x)).

(** [math.ceil(a / b)] *)
Definition ceil_div (a b : Z) : outcome Z :=
  match truediv a b with
  | Return x => Return (ceil x)
  | Raise e => Raise e
  | Exit c => Exit c
  end.

(** A page range [(range_start, range_end)], 1-indexed and inclusive. *)
Definition page_range : Type := Z * Z.

(** The body of [for i in range(0, number_of_ranges)]. *)
Definition make_range (pages range_size i : Z) : page_range :=
  let range_start := range_size * i + 1 in
  let range_end := range_size * i + range_size in
  let range_end := if range_end >? pages then pages else range_end in
  (range_start, range_end).

Definition build_ranges (pages range_size number_of_ranges : Z) : list page_range :=
  make_range pages range_size <$> seqZ 0 number_of_ranges.

(** The loop that sums the lengths of the created ranges. *)
Definition check_pages (result : list page_range) : Z :=
  fold_left (fun acc created_range => acc + (created_range.2 - created_range.1) + 1)
            result 0.

(** [calculate_ranges]: [input_file_number_of_pages] is [None] when the page
    count could not be read, [cpu_to_use] is the worker budget. *)
Definition calculate_ranges (input_file_number_of_pages : option Z) (cpu_to_use : Z)
  : outcome (option (list page_range)) :=
  match input_file_number_of_pages with
  | None => Return None
  | Some pages =>
      match ceil_div pages cpu_to_use with
      | Return range_size =>
          match ceil_div pages range_size with
          | Return number_of_ranges =>
              let result := build_ranges pages range_size number_of_ranges in
              if negb (check_pages result =? pages)
              then Raise ArithmeticError
              else Return (Some result)
          | Raise e => Raise e
          | Exit c => Exit c
          end
      | Raise e => Raise e
      | Exit c => Exit c
      end
  end.

(** Length of one range. *)
Definition range_length (r : page_range) : Z := r.2 - r.1 + 1.

(** Consecutive ranges touch: each one starts on the page after its
    predecessor's last page. *)
Definition contiguous (l : list page_range) : Prop :=
  forall (i : nat) (r r' : page_range),
    l !! i = Some r -> l !! S i = Some r' -> r'.1 = r.2 + 1.

(** No page belongs to two ranges. *)
Definition non_overlapping (l : list page_range) : Prop :=
  forall (i j : nat) (r r' : page_range),
    (i < j)%nat -> l !! i = Some r -> l !! j = Some r' -> r.2 < r'.1.

(** The number of pages a list of ranges holds. *)
Definition total_pages (l : list page_range) : Z :=
  foldr (fun r acc => range_length r + acc) 0 l.

End Ranges.

(** ** Values, documents and the temporary directory *)

(** The Python values a PDF information dictionary can hold, as far as the
    modelled code tells them apart: text strings ([str], which
    [TextStringObject] and [NameObject] are), byte strings
    ([ByteStringObject], produced when a string of the file cannot be
    decoded), arrays and numbers. *)
Inductive pyval : Type :=
| PStr (s : string)
| PBytes (b : string)
| PArray (items : list string)
| PNumber (n : Z).

#[global] Instance pyval_eq_dec : EqDecision pyval.
Proof. solve_decision. Defined.

(** One page of a PDF document, standing for its content. *)
Definition page : Type := string.

(** What a file holds: a PDF document that PyPDF2 can read (its pages and its
    information dictionary), or anything else. *)
Inductive content : Type :=
| Pdf (pages : list page) (info : gmap string pyval)
| Blob (data : string).

#[global] Instance content_eq_dec : EqDecision content.
Proof. solve_decision. Defined.

(** What the program does that can be observed from outside. [Log] and
    [Debug] are the lines [log] and [debug] print on standard output (without
    their time stamp), [Eprint] the lines on the error stream, [Popen] an
    external process run to completion with the file that receives its error
    stream, [WritePdf] a PDF document written by a PyPDF2 writer or merger,
    [CopyFile] a [shutil.copyfile]. *)
Inductive event : Type :=
| Log (msg : string)
| Debug (msg : string)
| Eprint (msg : string)
| Popen (argv : list string) (stderr_log : option string)
| WritePdf (path : string)
| CopyFile (src dst : string).

#[global] Instance event_eq_dec : EqDecision event.
Proof. solve_decision. Defined.

(** The state a run threads through its stages: the files (path to content)
    and the events so far, oldest first. *)
Record state : Type := mk_state {
  files : gmap string content;
  trace : list event
}.

(** The fields of the [Pdf2PdfOcr] object the modelled methods read. The two
    ghostscript paths are [None] when [shutil.which] did not find the tool
    ([check_external_tools] only warns in that case). *)
Record config : Type := mk_config {
  tmp_dir : string;
  prefix : string;
  extension_images : string;
  path_this_python : string;
  script_dir : string;
  path_pdftk : string;
  path_convert : string;
  path_pdf2ps : option string;
  path_ps2pdf : option string;
  input_file : string;
  output_file : string;
  input_file_type : string;
  input_file_is_encrypted : bool;
  input_file_metadata : option (list (string * pyval));
  use_deskew_mode : bool;
  force_rebuild_mode : bool;
  use_pdftk : bool;
  user_convert_params : string;
  verbose_mode : bool;
  delete_temps : bool
}.

(** ** The monad of the pipeline *)

Definition M (A : Type) : Type := state -> outcome A * state.

#[global] Instance M_ret : MRet M := fun A a s => (Return a, s).

#[global] Instance M_bind : MBind M := fun A B k m s =>
  match m s with
  | (Return a, s') => k a s'
  | (Raise e, s') => (Raise e, s')
  | (Exit c, s') => (Exit c, s')
  end.

Definition raise {A : Type} (e : exn) : M A := fun s => (Raise e, s).

(** [exit(code)] *)
Definition exit {A : Type} (code : Z) : M A := fun s => (Exit code, s).

Definition emit (e : event) : M unit :=
  fun s => (Return tt, mk_state (files s) (trace s ++ [e])).

Definition get_files : M (gmap string content) := fun s => (Return (files s), s).

Definition put_files (fs : gmap string content) : M unit :=
  fun s => (Return tt, mk_state fs (trace s)).

(** The exit status the operating system sees: 0 after a normal return (the
    script ends with [exit(0)]), 1 after an uncaught exception. *)
Definition exit_status {A : Type} (r : outcome A) : Z :=
  match r with
  | Return _ => 0
  | Raise _ => 1
  | Exit code => code
  end.

(** ** Strings, sorting and [glob] *)

(** The order of [sorted] on strings. *)
Definition str_le : relation string := fun s1 s2 => String.leb s1 s2 = true.

#[global] Instance str_le_dec : RelDecision str_le.
Proof. intros s1 s2. unfold str_le. apply _. Defined.

(** [sorted(l)] for a list of strings. *)
Definition sorted (l : list string) : list string := merge_sort str_le l.

Definition ends_with (suf name : string) : bool :=
  (String.length suf <=? String.length name)%nat &&
  String.eqb (substring (String.length name - String.length suf) (String.length suf) name) suf.

Definition contains (sub s : string) : bool :=
  bool_decide (is_Some (index 0 sub s)).

(** The name of [p] inside the directory [dir] ([dir] ends with the path
    separator), when [p] lies directly in it. *)
Definition name_in_dir (dir p : string) : option string :=
  if String.prefix dir p then
    let name := substring (String.length dir) (String.length p - String.length dir) p in
    if contains "/" name then None else Some name
  else None.

(** [fnmatch] of a name against the pattern [pre + "*" + suf]; as in [glob], a
    name that starts with a dot is matched only by a pattern that does. *)
Definition match_star (pre suf name : string) : bool :=
  String.prefix pre name && ends_with suf name &&
  (String.length pre + String.length suf <=? String.length name)%nat &&
  (negb (String.prefix "." name) || String.prefix "." pre).

(** [glob.glob(dir + pre + "*" + suf)]: the paths of the files of [dir] whose
    name matches, in the order the directory lists them. [dir], [pre] and
    [suf] hold no pattern characters. *)
Definition glob_match (dir pre suf p : string) : bool :=
  match name_in_dir dir p with
  | Some name => match_star pre suf name
  | None => false
  end.

Definition glob (dir pre suf : string) (fs : gmap string content) : list string :=
  filter (fun p => glob_match dir pre suf p = true) (map_to_list fs).*1.

(** [fnmatch] of a name against ["*" + mid + "*.*"]: [mid] occurs in the name
    and a dot follows that occurrence. *)
Definition match_star_mid_dot (mid name : string) : bool :=
  match index 0 mid name with
  | Some i => contains "." (substring (i + String.length mid)
                                       (String.length name - (i + String.length mid)) name)
              && negb (String.prefix "." name)
  | None => false
  end.

Definition glob_mid_dot_match (dir mid p : string) : bool :=
  match name_in_dir dir p with
  | Some name => match_star_mid_dot mid name
  | None => false
  end.

(** [glob.glob(dir + "*" + mid + "*.*")] *)
Definition glob_mid_dot (dir mid : string) (fs : gmap string content) : list string :=
  filter (fun p => glob_mid_dot_match dir mid p = true) (map_to_list fs).*1.

(** [glob.has_magic]: the path holds one of the pattern characters of
    [glob]. *)
Definition has_magic (path : string) : bool :=
  contains "*" path || contains "?" path || contains "[" path.

(** ** The [convert] presets of [rebuild_and_merge] *)

Definition preset_fast : string := "-threshold 60% -compress Group4".
Definition preset_best : string :=
  "-colors 2 -colorspace gray -normalize -threshold 60% -compress Group4".
Definition preset_grayscale : string :=
  "-threshold 85% -morphology Dilate Diamond -compress Group4".
Definition preset_jpeg : string :=
  "-strip -interlace Plane -gaussian-blur 0.05 -quality 50% -compress JPEG".
Definition preset_jpeg2000 : string := "-quality 32% -compress JPEG2000".

(** The value of [convert_params] after the chain of comparisons and the
    default case, as a function of [user_convert_params]. *)
Definition select_convert_params (user_convert_params : string) : string :=
  let convert_params :=
    if String.eqb user_convert_params "fast" then preset_fast
    else if String.eqb user_convert_params "best" then preset_best
    else if String.eqb user_convert_params "grasyscale" then preset_grayscale
    else if String.eqb user_convert_params "jpeg" then preset_jpeg
    else if String.eqb user_convert_params "jpeg2000" then preset_jpeg2000
    else user_convert_params in
  if String.eqb convert_params "" then preset_best else convert_params.

(** What the help text of option [-g] documents for each selector. *)
Definition documented_preset (selector : string) : option string :=
  if String.eqb selector "fast" then Some preset_fast
  else if String.eqb selector "best" then Some preset_best
  else if String.eqb selector "grayscale" then Some preset_grayscale
  else if String.eqb selector "jpeg" then Some preset_jpeg
  else if String.eqb selector "jpeg2000" then Some preset_jpeg2000
  else None.

(** ** Producer metadata: the pure parts of [edit_producer] *)

Definition our_name : string := "PDF2PDFOCR(github.com/LeoFCardoso/pdf2pdfocr)".
Definition producer_key : string := "/Producer".

(** [value + s] for a string [s]: only a [str] can be extended. *)
Definition py_add_str (value : pyval) (s : string) : outcome pyval :=
  match value with
  | PStr v => Return (PStr (v +:+ s))
  | _ => Raise TypeError
  end.

(** [PyPDF2.generic.createStringObject]: text and byte strings are accepted,
    anything else raises [TypeError]. *)
Definition createStringObject (value : pyval) : outcome pyval :=
  match value with
  | PStr _ | PBytes _ => Return value
  | _ => Raise TypeError
  end.

(** The information dictionary of a fresh [PdfFileWriter]. *)
Definition pypdf2_info : gmap string pyval := {[ "/Producer" := PStr "PyPDF2" ]}.

(** ** The methods of [Pdf2PdfOcr] *)

Section Pdf2PdfOcr.

(** The effect on the files of an external process run to completion with the
    given argument vector. *)
Variable run : list string -> gmap string content -> gmap string content.

(** [shlex.split]; [None] when it raises [ValueError]. *)
Variable shlex_split : string -> option (list string).

Variable self : config.

Definition debug (param : string) : M unit :=
  if verbose_mode self then emit (Debug param) else mret tt.

Definition log (param : string) : M unit := emit (Log param).

Definition eprint (msg : string) : M unit := emit (Eprint msg).

(** [os.path.isfile] *)
Definition isfile (path : string) : M bool :=
  fs ← get_files; mret (bool_decide (is_Some (fs !! path))).

(** [open(path, "wb")] for the file that receives a process's error stream. *)
Definition open_log (stderr_log : option string) : M unit :=
  match stderr_log with
  | Some path => fs ← get_files; put_files (<[path := Blob ""]> fs)
  | None => mret tt
  end.

(** [subprocess.Popen(argv, ..., stderr=...)] followed by [wait()]. An
    executable that is [None] makes [Popen] raise [TypeError], after the
    arguments (the error-stream file among them) were evaluated. *)
Definition popen_wait (exe : option string) (args : list string)
    (stderr_log : option string) : M unit :=
  open_log stderr_log;;
  match exe with
  | Some path =>
      fs ← get_files;
      put_files (run (path :: args) fs);;
      emit (Popen (path :: args) stderr_log)
  | None => raise TypeError
  end.

(** [cleanup]. The paths of the model are regular files, which [os.remove]
    removes; a directory that matched the pattern would make it raise. *)
Definition cleanup : M unit :=
  if delete_temps self then
    fs ← get_files;
    put_files (foldr delete fs (glob_mid_dot (tmp_dir self) (prefix self) fs))
  else
    eprint ("Temporary files kept in " +:+ tmp_dir self).

(** The assembled overlay document and the merged candidate. *)
Definition ocr_pdf : string := tmp_dir self +:+ prefix self +:+ "-ocr.pdf".
Definition OUTPUT_pdf : string := tmp_dir self +:+ prefix self +:+ "-OUTPUT.pdf".

(** [PyPDF2.PdfFileReader(path, strict=False)], for its pages. *)
Definition read_pdf (path : string) : M (list page) :=
  fs ← get_files;
  match fs !! path with
  | Some (Pdf pages _) => mret pages
  | Some (Blob _) => raise PdfReadError
  | None => raise FileNotFoundError
  end.

(** A PyPDF2 writer or merger writing its document, the directory of [path]
    being there. *)
Definition write_pdf (path : string) (doc : content) : M unit :=
  fs ← get_files; put_files (<[path := doc]> fs);; emit (WritePdf path).

(** [shutil.copyfile] *)
Definition copyfile (src dst : string) : M unit :=
  if String.eqb src dst then raise SameFileError
  else
    fs ← get_files;
    match fs !! src with
    | Some c => put_files (<[dst := c]> fs);; emit (CopyFile src dst)
    | None => raise FileNotFoundError
    end.

Definition join_ocred_pdf : M unit :=
  fs ← get_files;
  let text_pdf_file_list := sorted (glob (tmp_dir self) (prefix self) ".pdf" fs) in
  debug ("We have " +:+ pretty (length text_pdf_file_list) +:+ " ocr'ed files");;
  (if bool_decide (1 < length text_pdf_file_list)%nat then
     merged ← mapM read_pdf text_pdf_file_list;
     write_pdf ocr_pdf (Pdf (concat merged) pypdf2_info)
   else if bool_decide (length text_pdf_file_list = 1%nat) then
     match text_pdf_file_list !! 0%nat with
     | Some text_pdf_file => copyfile text_pdf_file ocr_pdf
     | None => raise IndexError
     end
   else
     eprint "No PDF files generated after OCR. This is not expected. Aborting.";;
     cleanup;;
     exit 1);;
  debug "Joined ocr'ed PDF files".

Definition multibackground_py : string := script_dir self +:+ "pdf2pdfocr_multibackground.py".

(** The [pdftk] branch of the direct merge. *)
Definition merge_with_pdftk : M unit :=
  debug "Merging with OCR with pdftk";;
  popen_wait (Some (path_pdftk self))
    [input_file self; "multibackground"; ocr_pdf; "output"; OUTPUT_pdf]
    (Some (tmp_dir self +:+ "err_multiback-" +:+ prefix self +:+ "-merge-pdftk.log")).

(** The script branch of the direct merge, before the test of its result. *)
Definition merge_with_script : M unit :=
  debug "Merging with OCR";;
  popen_wait (Some (path_this_python self))
    [multibackground_py; input_file self; ocr_pdf; OUTPUT_pdf]
    (Some (tmp_dir self +:+ "err_multiback-" +:+ prefix self +:+ "-merge.log")).

Definition try_repair_input_and_merge : M unit :=
  debug "Fail to merge source PDF with extracted OCR text. Trying to fix source PDF to build final file...";;
  popen_wait (path_pdf2ps self)
    [input_file self; tmp_dir self +:+ prefix self +:+ "-fixPDF.ps"]
    (Some (tmp_dir self +:+ "err_pdf2ps-" +:+ prefix self +:+ ".log"));;
  popen_wait (path_ps2pdf self)
    [tmp_dir self +:+ prefix self +:+ "-fixPDF.ps"; tmp_dir self +:+ prefix self +:+ "-fixPDF.pdf"]
    (Some (tmp_dir self +:+ "err_ps2pdf-" +:+ prefix self +:+ ".log"));;
  popen_wait (Some (path_this_python self))
    [multibackground_py; tmp_dir self +:+ prefix self +:+ "-fixPDF.pdf"; ocr_pdf; OUTPUT_pdf]
    (Some (tmp_dir self +:+ "err_multiback-" +:+ prefix self +:+ "-merge-fixed.log")).

Definition rebuild_warning : string :=
  "Warning: metadata wiped from final PDF file (original file is not an unprotected PDF / forcing rebuild from extracted images / using deskew)".

Definition rebuild_and_merge : M unit :=
  eprint rebuild_warning;;
  let convert_params := select_convert_params (user_convert_params self) in
  log "Rebuilding PDF from images";;
  match shlex_split convert_params with
  | None => raise ValueError
  | Some convert_params_list =>
      fs ← get_files;
      popen_wait (Some (path_convert self))
        (sorted (glob (tmp_dir self) (prefix self) ("." +:+ extension_images self) fs)
         ++ convert_params_list
         ++ [tmp_dir self +:+ prefix self +:+ "-input_unprotected.pdf"])
        None;;
      debug "Merging with OCR";;
      popen_wait (Some (path_this_python self))
        [multibackground_py; tmp_dir self +:+ prefix self +:+ "-input_unprotected.pdf";
         ocr_pdf; OUTPUT_pdf]
        (Some (tmp_dir self +:+ "err_multiback-" +:+ prefix self +:+ "-rebuild.log"))
  end.

(** The local variable [rebuild_pdf_from_images] of [build_final_output]. *)
Definition rebuild_pdf_from_images : bool :=
  input_file_is_encrypted self
  || negb (String.eqb (input_file_type self) "application/pdf")
  || use_deskew_mode self.

Definition fatal_message : string :=
  "Output file could not be created :( Exiting with error code.".

(** The last test of [build_final_output]: without a merged candidate the run
    ends. *)
Definition output_check : M unit :=
  created ← isfile OUTPUT_pdf;
  if negb created then
    eprint fatal_message;;
    cleanup;;
    exit 1
  else mret tt.

Definition build_final_output : M unit :=
  (if negb rebuild_pdf_from_images && negb (force_rebuild_mode self) then
     if use_pdftk self then
       merge_with_pdftk
     else
       merge_with_script;;
       created ← isfile OUTPUT_pdf;
       if negb created then try_repair_input_and_merge else mret tt
   else
     rebuild_and_merge);;
  output_check.

(** One turn of the loop of [edit_producer] over the source metadata: the
    state is [(info_dict_output, read_producer)]. *)
Definition copy_property (acc : gmap string pyval * bool) (entry : string * pyval)
  : M (gmap string pyval * bool) :=
  let '(info_dict_output, read_producer) := acc in
  let '(key, value) := entry in
  '(value, read_producer) ←
    (if String.eqb key producer_key then
       match py_add_str value ("; " +:+ our_name) with
       | Return value => mret (value, true)
       | Raise e => raise e
       | Exit c => exit c
       end
     else mret (value, read_producer));
  match createStringObject value with
  | Return _ => mret (<[key := value]> info_dict_output, read_producer)
  | Raise TypeError =>
      eprint ("Warning: property " +:+ key +:+ " not copied to final PDF");;
      mret (info_dict_output, read_producer)
  | Raise e => raise e
  | Exit c => exit c
  end.

(** [for key in self.input_file_metadata: ...] *)
Fixpoint copy_properties (acc : gmap string pyval * bool) (entries : list (string * pyval))
  : M (gmap string pyval * bool) :=
  match entries with
  | [] => mret acc
  | entry :: entries => acc ← copy_property acc entry; copy_properties acc entries
  end.

Definition edit_producer : M unit :=
  debug "Editing producer";;
  fs ← get_files;
  match fs !! OUTPUT_pdf with
  | None => raise FileNotFoundError
  | Some (Blob _) => raise PdfReadError
  | Some (Pdf pages _) =>
      '(info_dict_output, read_producer) ←
        match input_file_metadata self with
        | Some metadata => copy_properties (∅, false) metadata
        | None => mret (∅, false)
        end;
      let info_dict_output :=
        if negb read_producer then <[producer_key := PStr our_name]> info_dict_output
        else info_dict_output in
      write_pdf (output_file self) (Pdf pages (info_dict_output ∪ pypdf2_info))
  end.

(** The last stages of [ocr], from the assembly of the overlays to the final
    document (the optional text output between them does not touch the PDF
    files). *)
Definition ocr_from_merge : M unit :=
  build_final_output;;
  edit_producer;;
  debug "Output file created";;
  cleanup.

Definition ocr_from_join : M unit :=
  join_ocred_pdf;;
  ocr_from_merge.

End Pdf2PdfOcr.

(** ** Vocabulary of the statements *)

(** The events a step added, given the states before and after it. *)
Definition new_events (s s' : state) : list event :=
  drop (length (trace s)) (trace s').

(** What [debug] prints. *)
Definition debug_events (self : config) (msg : string) : list event :=
  if verbose_mode self then [Debug msg] else [].

(** What [cleanup] prints. *)
Definition cleanup_events (self : config) : list event :=
  if delete_temps self then []
  else [Eprint ("Temporary files kept in " +:+ tmp_dir self)].

(** A line printed for the user, on either stream. *)
Definition is_message (e : event) : bool :=
  match e with
  | Log _ | Debug _ | Eprint _ => true
  | _ => false
  end.

(** The pages of the document stored at [path]. *)
Definition pages_of (fs : gmap string content) (path : string) : list page :=
  match fs !! path with
  | Some (Pdf pages _) => pages
  | _ => []
  end.

(** The pages of the documents of a list of paths, one document after the
    other. *)
Definition overlay_pages (fs : gmap string content) (paths : list string) : list page :=
  concat (pages_of fs <$> paths).

Definition is_pdf (c : content) : Prop :=
  match c with
  | Pdf _ _ => True
  | Blob _ => False
  end.

(** The overlays [join_ocred_pdf] works on, as [glob] lists them. *)
Definition overlay_listing (self : config) (fs : gmap string content) : list string :=
  glob (tmp_dir self) (prefix self) ".pdf" fs.

Definition no_overlay_message : string :=
  "No PDF files generated after OCR. This is not expected. Aborting.".

Definition count_message (n : nat) : string :=
  "We have " +:+ pretty n +:+ " ocr'ed files".

(** The files after an external process has run: the file for its error
    stream was created first. *)
Definition after_popen (run : list string -> gmap string content -> gmap string content)
    (argv : list string) (stderr_log : option string) (fs : gmap string content)
  : gmap string content :=
  run argv (match stderr_log with
            | Some path => <[path := Blob ""]> fs
            | None => fs
            end).

Definition after_event (run : list string -> gmap string content -> gmap string content)
    (e : event) (fs : gmap string content) : gmap string content :=
  match e with
  | Popen argv stderr_log => after_popen run argv stderr_log fs
  | _ => fs
  end.

(** The files [cleanup] leaves. *)
Definition cleanup_files (self : config) (fs : gmap string content) : gmap string content :=
  if delete_temps self
  then foldr delete fs (glob_mid_dot (tmp_dir self) (prefix self) fs)
  else fs.

(** The process of the direct merge, by the script and by [pdftk]. *)
Definition script_merge_event (self : config) : event :=
  Popen [path_this_python self; multibackground_py self; input_file self;
         ocr_pdf self; OUTPUT_pdf self]
        (Some (tmp_dir self +:+ "err_multiback-" +:+ prefix self +:+ "-merge.log")).

Definition pdftk_merge_event (self : config) : event :=
  Popen [path_pdftk self; input_file self; "multibackground"; ocr_pdf self;
         "output"; OUTPUT_pdf self]
        (Some (tmp_dir self +:+ "err_multiback-" +:+ prefix self +:+ "-merge-pdftk.log")).

Definition repair_message : string :=
  "Fail to merge source PDF with extracted OCR text. Trying to fix source PDF to build final file...".

(** The processes of the rebuild: [convert] on the sorted page images with the
    split parameters, then the merge on the rebuilt document. *)
Definition convert_event (self : config) (convert_params_list : list string)
    (fs : gmap string content) : event :=
  Popen (path_convert self ::
         sorted (glob (tmp_dir self) (prefix self) ("." +:+ extension_images self) fs)
         ++ convert_params_list
         ++ [tmp_dir self +:+ prefix self +:+ "-input_unprotected.pdf"])
        None.

Definition rebuild_merge_event (self : config) : event :=
  Popen [path_this_python self; multibackground_py self;
         tmp_dir self +:+ prefix self +:+ "-input_unprotected.pdf";
         ocr_pdf self; OUTPUT_pdf self]
        (Some (tmp_dir self +:+ "err_multiback-" +:+ prefix self +:+ "-rebuild.log")).

(** A computation only adds events, and every event it adds satisfies [P]. *)
Definition emits {A : Type} (P : event -> Prop) (m : M A) : Prop :=
  forall s, exists events, trace (m s).2 = trace s ++ events /\ Forall P events.

(** A value [createStringObject] accepts. *)
Definition representable (value : pyval) : bool :=
  match value with
  | PStr _ | PBytes _ => true
  | _ => false
  end.

(** The warning for a property that is dropped. *)
Definition not_copied_warning (key : string) : event :=
  Eprint ("Warning: property " +:+ key +:+ " not copied to final PDF").

(** The three processes of the repair-retry: the PostScript round trip of the
    input and the retry of the merge on the repaired document. *)
Definition pdf2ps_event (self : config) (pdf2ps : string) : event :=
  Popen [pdf2ps; input_file self; tmp_dir self +:+ prefix self +:+ "-fixPDF.ps"]
        (Some (tmp_dir self +:+ "err_pdf2ps-" +:+ prefix self +:+ ".log")).

Definition ps2pdf_event (self : config) (ps2pdf : string) : event :=
  Popen [ps2pdf; tmp_dir self +:+ prefix self +:+ "-fixPDF.ps";
         tmp_dir self +:+ prefix self +:+ "-fixPDF.pdf"]
        (Some (tmp_dir self +:+ "err_ps2pdf-" +:+ prefix self +:+ ".log")).

Definition retry_merge_event (self : config) : event :=
  Popen [path_this_python self; multibackground_py self;
         tmp_dir self +:+ prefix self +:+ "-fixPDF.pdf"; ocr_pdf self; OUTPUT_pdf self]
        (Some (tmp_dir self +:+ "err_multiback-" +:+ prefix self +:+ "-merge-fixed.log")).

(** How many times the merge was retried on a repaired input. *)
Definition repair_retry_count (self : config) (events : list event) : nat :=
  length (filter (fun e => e = retry_merge_event self) events).

(** What the specification asks of the assembly when some of the expected
    overlays are missing, in its weakest reading: the call does not return
    normally, or it prints at least one line. *)
Definition holes_reported (self : config) (s : state) : Prop :=
  (join_ocred_pdf self s).1 <> Return tt \/
  exists e, e ∈ new_events s (join_ocred_pdf self s).2 /\ is_message e = true.

(** ** Concrete runs *)

(** An external process that fails: it leaves the files as they are. *)
Definition run_nothing (argv : list string) (fs : gmap string content)
  : gmap string content := fs.

(** [shlex.split] on a string without quotes or backslashes: the words
    between spaces. *)
Fixpoint split_on_spaces_aux (word : string) (s : string) : list string :=
  match s with
  | EmptyString => if String.eqb word "" then [] else [word]
  | String c s' =>
      if Ascii.eqb c " "%char
      then (if String.eqb word "" then [] else [word]) ++ split_on_spaces_aux "" s'
      else split_on_spaces_aux (word +:+ String c EmptyString) s'
  end.

Definition split_on_spaces (s : string) : option (list string) :=
  Some (split_on_spaces_aux "" s).

(** A run on an unencrypted PDF, merging with the built-in script. *)
Definition example_config : config := {|
  tmp_dir := "/tmp/"; prefix := "pfx"; extension_images := "jpg";
  path_this_python := "/usr/bin/python3"; script_dir := "/opt/pdf2pdfocr/";
  path_pdftk := "/usr/bin/pdftk"; path_convert := "/usr/bin/convert";
  path_pdf2ps := Some "/usr/bin/pdf2ps"; path_ps2pdf := Some "/usr/bin/ps2pdf";
  input_file := "/home/user/scan.pdf"; output_file := "/home/user/scan-OCR.pdf";
  input_file_type := "application/pdf"; input_file_is_encrypted := false;
  input_file_metadata := Some [("/Producer", PStr "Scanner 1.0")];
  use_deskew_mode := false; force_rebuild_mode := false; use_pdftk := false;
  user_convert_params := ""; verbose_mode := false; delete_temps := true
|}.

(** The same run with option [-p]: the merge is done by [pdftk]. *)
Definition example_config_pdftk : config := {|
  tmp_dir := "/tmp/"; prefix := "pfx"; extension_images := "jpg";
  path_this_python := "/usr/bin/python3"; script_dir := "/opt/pdf2pdfocr/";
  path_pdftk := "/usr/bin/pdftk"; path_convert := "/usr/bin/convert";
  path_pdf2ps := Some "/usr/bin/pdf2ps"; path_ps2pdf := Some "/usr/bin/ps2pdf";
  input_file := "/home/user/scan.pdf"; output_file := "/home/user/scan-OCR.pdf";
  input_file_type := "application/pdf"; input_file_is_encrypted := false;
  input_file_metadata := Some [("/Producer", PStr "Scanner 1.0")];
  use_deskew_mode := false; force_rebuild_mode := false; use_pdftk := true;
  user_convert_params := ""; verbose_mode := false; delete_temps := true
|}.

(** The same run on an encrypted input of three pages: no metadata was read. *)
Definition example_config_encrypted : config := {|
  tmp_dir := "/tmp/"; prefix := "pfx"; extension_images := "jpg";
  path_this_python := "/usr/bin/python3"; script_dir := "/opt/pdf2pdfocr/";
  path_pdftk := "/usr/bin/pdftk"; path_convert := "/usr/bin/convert";
  path_pdf2ps := Some "/usr/bin/pdf2ps"; path_ps2pdf := Some "/usr/bin/ps2pdf";
  input_file := "/home/user/scan.pdf"; output_file := "/home/user/scan-OCR.pdf";
  input_file_type := "application/pdf"; input_file_is_encrypted := true;
  input_file_metadata := Some [];
  use_deskew_mode := false; force_rebuild_mode := false; use_pdftk := false;
  user_convert_params := ""; verbose_mode := false; delete_temps := true
|}.

(** A run whose source producer could not be decoded as text. *)
Definition example_config_bytes_producer : config := {|
  tmp_dir := "/tmp/"; prefix := "pfx"; extension_images := "jpg";
  path_this_python := "/usr/bin/python3"; script_dir := "/opt/pdf2pdfocr/";
  path_pdftk := "/usr/bin/pdftk"; path_convert := "/usr/bin/convert";
  path_pdf2ps := Some "/usr/bin/pdf2ps"; path_ps2pdf := Some "/usr/bin/ps2pdf";
  input_file := "/home/user/scan.pdf"; output_file := "/home/user/scan-OCR.pdf";
  input_file_type := "application/pdf"; input_file_is_encrypted := false;
  input_file_metadata := Some [("/Title", PStr "Report"); ("/Producer", PBytes (String "127"%char "scan"))];
  use_deskew_mode := false; force_rebuild_mode := false; use_pdftk := false;
  user_convert_params := ""; verbose_mode := false; delete_temps := true
|}.

(** A forced rebuild with option [-g grayscale]. *)
Definition example_config_grayscale : config := {|
  tmp_dir := "/tmp/"; prefix := "pfx"; extension_images := "jpg";
  path_this_python := "/usr/bin/python3"; script_dir := "/opt/pdf2pdfocr/";
  path_pdftk := "/usr/bin/pdftk"; path_convert := "/usr/bin/convert";
  path_pdf2ps := Some "/usr/bin/pdf2ps"; path_ps2pdf := Some "/usr/bin/ps2pdf";
  input_file := "/home/user/scan.pdf"; output_file := "/home/user/scan-OCR.pdf";
  input_file_type := "application/pdf"; input_file_is_encrypted := false;
  input_file_metadata := Some [("/Producer", PStr "Scanner 1.0")];
  use_deskew_mode := false; force_rebuild_mode := true; use_pdftk := false;
  user_convert_params := "grayscale"; verbose_mode := false; delete_temps := true
|}.

(** A forced rebuild without option [-g]. *)
Definition example_config_rebuild : config := {|
  tmp_dir := "/tmp/"; prefix := "pfx"; extension_images := "jpg";
  path_this_python := "/usr/bin/python3"; script_dir := "/opt/pdf2pdfocr/";
  path_pdftk := "/usr/bin/pdftk"; path_convert := "/usr/bin/convert";
  path_pdf2ps := Some "/usr/bin/pdf2ps"; path_ps2pdf := Some "/usr/bin/ps2pdf";
  input_file := "/home/user/scan.pdf"; output_file := "/home/user/scan-OCR.pdf";
  input_file_type := "application/pdf"; input_file_is_encrypted := false;
  input_file_metadata := Some [("/Producer", PStr "Scanner 1.0")];
  use_deskew_mode := false; force_rebuild_mode := true; use_pdftk := false;
  user_convert_params := ""; verbose_mode := false; delete_temps := true
|}.

(** The three page images of a run. *)
Definition example_images : gmap string content :=
  <["/tmp/pfx-001.jpg" := Blob "image 1"]>
    (<["/tmp/pfx-002.jpg" := Blob "image 2"]>
       (<["/tmp/pfx-003.jpg" := Blob "image 3"]> ∅)).

(** The overlays of the three pages, produced in the order 3, 1, 2. *)
Definition example_overlays : gmap string content :=
  <["/tmp/pfx-002.pdf" := Pdf ["page 2"] pypdf2_info]>
    (<["/tmp/pfx-001.pdf" := Pdf ["page 1"] pypdf2_info]>
       (<["/tmp/pfx-003.pdf" := Pdf ["page 3"] pypdf2_info]> example_images)).

(** OCR failed on page 2: its overlay is missing. *)
Definition example_overlays_hole : gmap string content :=
  <["/tmp/pfx-001.pdf" := Pdf ["page 1"] pypdf2_info]>
    (<["/tmp/pfx-003.pdf" := Pdf ["page 3"] pypdf2_info]> example_images).

(** The overlays are assembled and the merge is about to start. *)
Definition example_before_merge : gmap string content :=
  <["/tmp/pfx-ocr.pdf" := Pdf ["page 1"; "page 2"; "page 3"] pypdf2_info]> example_overlays.

(** The merged candidate exists. *)
Definition example_merged : gmap string content :=
  <["/tmp/pfx-OUTPUT.pdf" := Pdf ["page 1"; "page 2"; "page 3"] pypdf2_info]>
    example_before_merge.

(** ** Path names: the functions of [os.path] the program uses *)

(** [s.rfind(c)] for one character: the last position of [c], if any. *)
Fixpoint rfind (c : ascii) (s : string) : option nat :=
  match s with
  | EmptyString => None
  | String a s' =>
      match rfind c s' with
      | Some i => Some (S i)
      | None => if Ascii.eqb a c then Some 0%nat else None
      end
  end.

(** Every character of [s] is [c]. *)
Fixpoint all_char (c : ascii) (s : string) : bool :=
  match s with
  | EmptyString => true
  | String a s' => Ascii.eqb a c && all_char c s'
  end.

(** [s.rstrip(c)] for one character. *)
Fixpoint rstrip (c : ascii) (s : string) : string :=
  match s with
  | EmptyString => EmptyString
  | String a s' =>
      match rstrip c s' with
      | EmptyString => if Ascii.eqb a c then EmptyString else String a EmptyString
      | r => String a r
      end
  end.

(** [posixpath.basename]: what follows the last separator. *)
Definition basename (p : string) : string :=
  match rfind "/" p with
  | Some i => substring (S i) (String.length p - S i) p
  | None => p
  end.

(** [posixpath.dirname]: what precedes the last separator, without trailing
    separators unless it consists of separators only. *)
Definition dirname (p : string) : string :=
  let head := match rfind "/" p with
              | Some i => substring 0 (S i) p
              | None => EmptyString
              end in
  if negb (String.eqb head "") && negb (all_char "/" head)
  then rstrip "/" head
  else head.

(** [posixpath.splitext]: the extension starts at the last dot of the last
    component, unless only dots precede it there. *)
Definition splitext (p : string) : string * string :=
  match rfind "." p with
  | None => (p, EmptyString)
  | Some dotIndex =>
      let filenameIndex := match rfind "/" p with
                           | Some sepIndex => S sepIndex
                           | None => 0%nat
                           end in
      if (filenameIndex <=? dotIndex)%nat then
        if all_char "." (substring filenameIndex (dotIndex - filenameIndex) p)
        then (p, EmptyString)
        else (substring 0 dotIndex p,
              substring dotIndex (String.length p - dotIndex) p)
      else (p, EmptyString)
  end.

(** ** The worker functions and the stages before and between the claims *)

(** The command-line options the modelled stages read besides [config]:
    [force_out_file] is [args.output_file] ([None] without option [-o]). *)
Record options : Type := mk_options {
  safe_mode : bool;
  create_text_mode : bool;
  force_out_file : option string
}.

Section Stages.

Variable run : list string -> gmap string content -> gmap string content.

(** What [PdfFileWriter.removeImages] makes of a page, and what clearing the
    [/XObject] entry of its resources and compressing its content stream
    makes of the first page of a document tesseract wrote. Both look an entry
    up in the page ([/Contents], [/Resources]) and raise [KeyError] when the
    page has none: the result is then [None]. *)
Variable remove_images : page -> option page.
Variable strip_xobject : page -> option page.

(** The bytes of a PDF document, as [open(fname, 'rb').read()] returns them. *)
Variable pdf_bytes : list page -> gmap string pyval -> string.

Variable self : config.

(** [do_pdftoimage]: one [pdftoppm] process for a page range, or for the
    whole document. *)
Definition do_pdftoimage (param_path_pdftoppm : string)
    (param_page_range : option Ranges.page_range)
    (param_input_file param_tmp_dir param_prefix : string) : M unit :=
  let command_line_list := [param_path_pdftoppm] in
  let '(first_page, last_page, command_line_list) :=
    match param_page_range with
    | Some (first_page, last_page) =>
        (first_page, last_page,
         command_line_list ++ ["-f"; pretty first_page; "-l"; pretty last_page])
    | None => (0, 0, command_line_list)
    end in
  let command_line_list :=
    command_line_list ++ ["-r"; "300"; "-jpeg"; param_input_file;
                          param_tmp_dir +:+ param_prefix] in
  popen_wait run (head command_line_list) (tail command_line_list)
    (Some (param_tmp_dir +:+ "pdftoppm_err_" +:+ param_prefix +:+ "-"
           +:+ pretty first_page +:+ "-" +:+ pretty last_page +:+ ".log")).

(** [do_deskew]: one [mogrify -deskew] process on an image. *)
Definition do_deskew (param_image_file param_threshold param_path_mogrify : string)
  : M unit :=
  popen_wait run (Some param_path_mogrify) ["-deskew"; param_threshold; param_image_file]
    None.

(** [os.rename] *)
Definition rename (src dst : string) : M unit :=
  fs ← get_files;
  match fs !! src with
  | Some c => put_files (<[dst := c]> (delete src fs))
  | None => raise FileNotFoundError
  end.

(** [do_ocr]: tesseract on one image, then the post-processing of the PDF it
    wrote into an overlay without image. *)
Definition do_ocr (param_image_file param_tess_lang param_tess_psm param_temp_dir
    param_path_tesseract : string) : M unit :=
  let param_image_no_ext := (splitext (basename param_image_file)).1 in
  popen_wait run (Some param_path_tesseract)
    ["-l"; param_tess_lang;
     "-c"; "tessedit_create_pdf=1";
     "-c"; "tessedit_create_txt=1";
     "-c"; "tessedit_pageseg_mode=" +:+ param_tess_psm;
     param_image_file;
     param_temp_dir +:+ param_image_no_ext]
    (Some (param_temp_dir +:+ "tess_err_" +:+ param_image_no_ext +:+ ".log"));;
  let pdf_file := param_temp_dir +:+ param_image_no_ext +:+ ".pdf" in
  let pdf_file_tmp := param_temp_dir +:+ param_image_no_ext +:+ ".tmp" in
  rename pdf_file pdf_file_tmp;;
  fs ← get_files;
  match fs !! pdf_file_tmp with
  | None => raise FileNotFoundError
  | Some (Blob data) =>
      (* the reader seeks to the last byte first, which an empty file has not *)
      if String.eqb data "" then raise OSError else raise PdfReadError
  | Some (Pdf pages _) =>
      match mapM remove_images pages with
      | None => raise KeyError
      | Some [] => raise IndexError
      | Some (out_page :: output_pages) =>
          match strip_xobject out_page with
          | None => raise KeyError
          | Some out_page =>
              write_pdf pdf_file (Pdf (out_page :: output_pages) pypdf2_info)
          end
      end
  end.

(** [Pool.starmap]: the function on every item. The workers of the pool run
    the items side by side; here they run one after the other, in the order of
    the list. *)
Fixpoint starmap {A : Type} (f : A -> M unit) (items : list A) : M unit :=
  match items with
  | [] => mret tt
  | item :: items => f item;; starmap f items
  end.

(** [convert_input_to_images], for the page count read at validation and the
    worker budget [cpu_to_use]. *)
Definition convert_input_to_images (path_pdftoppm : string)
    (input_file_number_of_pages : option Z) (cpu_to_use : Z) : M unit :=
  log "Converting input file to images...";;
  if String.eqb (input_file_type self) "application/pdf" then
    match Ranges.calculate_ranges input_file_number_of_pages cpu_to_use with
    | Return (Some parallel_page_ranges) =>
        starmap (fun page_range =>
                   do_pdftoimage path_pdftoppm (Some page_range) (input_file self)
                     (tmp_dir self) (prefix self))
                parallel_page_ranges
    | Return None =>
        do_pdftoimage path_pdftoppm None (input_file self) (tmp_dir self) (prefix self)
    | Raise e => raise e
    | Exit c => exit c
    end
  else if bool_decide (input_file_type self ∈ ["image/tiff"; "image/jpeg"; "image/png"]) then
    popen_wait run (Some (path_convert self))
      [input_file self; "-quality"; "100"; "-scene"; "1";
       tmp_dir self +:+ prefix self +:+ "-%09d." +:+ extension_images self]
      None
  else
    eprint (input_file_type self +:+ " is not supported in this script. Exiting.");;
    cleanup self;;
    exit 1.

(** [deskew], for the threshold of option [-d]. *)
Definition deskew (path_mogrify deskew_threshold : string)
    (image_file_list : list string) : M unit :=
  if use_deskew_mode self then
    debug self "Applying deskew (will rebuild final PDF file)";;
    starmap (fun image_file => do_deskew image_file deskew_threshold path_mogrify)
            image_file_list
  else mret tt.

(** [Pdf2PdfOcr.best_effort_remove]: a missing file is not an error. *)
Definition best_effort_remove (filename : string) : M unit :=
  fs ← get_files; put_files (delete filename fs).

(** [self.output_file_text] *)
Definition output_file_text : string := output_file self +:+ ".txt".

Definition initial_cleanup (opts : options) : M unit :=
  best_effort_remove (output_file self);;
  if create_text_mode opts then best_effort_remove output_file_text else mret tt.

(** [define_output_files]: the two paths it assigns to [self.output_file] and
    [self.output_file_text] are returned. *)
Definition define_output_files (opts : options) : M (string * string) :=
  let output_file :=
    match force_out_file opts with
    | Some force_out_file => force_out_file
    | None =>
        let output_name_no_ext := (splitext (basename (input_file self))).1 in
        let output_dir := dirname (input_file self) in
        output_dir +:+ "/" +:+ output_name_no_ext +:+ "-OCR.pdf"
    end in
  let output_file_text := output_file +:+ ".txt" in
  debug self ("Output file: " +:+ output_file +:+ " for PDF and " +:+ output_file_text
              +:+ " for TXT");;
  pdf_exists ← isfile output_file;
  txt_exists ← isfile output_file_text;
  if (safe_mode opts && pdf_exists)
     || (safe_mode opts && create_text_mode opts && txt_exists) then
    (if pdf_exists
     then eprint (output_file +:+ " already exists and safe mode is enabled. Exiting.")
     else mret tt);;
    (if create_text_mode opts && txt_exists
     then eprint (output_file_text +:+ " already exists and safe mode is enabled. Exiting.")
     else mret tt);;
    cleanup self;;
    exit 1
  else mret (output_file, output_file_text).

(** [open(fname, 'rb').read()] *)
Definition read_bytes (fname : string) : M string :=
  fs ← get_files;
  match fs !! fname with
  | Some (Blob data) => mret data
  | Some (Pdf pages info) => mret (pdf_bytes pages info)
  | None => raise FileNotFoundError
  end.

(** The bytes of the files of a list, one after the other. *)
Definition concat_bytes (parts : list string) : string :=
  foldr String.append EmptyString parts.

(** [create_text_output]: the output is opened (and emptied) first, then every
    text file is read and written to it. *)
Definition create_text_output (opts : options) : M unit :=
  if create_text_mode opts then
    fs ← get_files;
    let text_files := sorted (glob (tmp_dir self) (prefix self) ".txt" fs) in
    put_files (<[output_file_text := Blob ""]> fs);;
    parts ← mapM read_bytes text_files;
    fs ← get_files;
    put_files (<[output_file_text := Blob (concat_bytes parts)]> fs);;
    log "Created final text file"
  else mret tt.

End Stages.

(** The process [do_pdftoimage] starts for a page range. *)
Definition pdftoimage_event (self : config) (path_pdftoppm : string)
    (page_range : Ranges.page_range) : event :=
  Popen ([path_pdftoppm; "-f"; pretty page_range.1; "-l"; pretty page_range.2]
         ++ ["-r"; "300"; "-jpeg"; input_file self; tmp_dir self +:+ prefix self])
        (Some (tmp_dir self +:+ "pdftoppm_err_" +:+ prefix self +:+ "-"
               +:+ pretty page_range.1 +:+ "-" +:+ pretty page_range.2 +:+ ".log")).

(** The process it starts for the whole document. *)
Definition pdftoimage_all_event (self : config) (path_pdftoppm : string) : event :=
  Popen [path_pdftoppm; "-r"; "300"; "-jpeg"; input_file self; tmp_dir self +:+ prefix self]
        (Some (tmp_dir self +:+ "pdftoppm_err_" +:+ prefix self +:+ "-0-0.log")).

(** The process [do_deskew] starts for an image. *)
Definition deskew_event (path_mogrify deskew_threshold image_file : string) : event :=
  Popen [path_mogrify; "-deskew"; deskew_threshold; image_file] None.

(** The files after a list of processes has run, one after the other. *)
Definition after_events (run : list string -> gmap string content -> gmap string content)
    (events : list event) (fs : gmap string content) : gmap string content :=
  fold_left (fun fs e => after_event run e fs) events fs.

(** A source dictionary with a text producer, a title, and a keyword array
    that the output cannot hold. *)
Definition example_config_metadata : config := {|
  tmp_dir := "/tmp/"; prefix := "pfx"; extension_images := "jpg";
  path_this_python := "/usr/bin/python3"; script_dir := "/opt/pdf2pdfocr/";
  path_pdftk := "/usr/bin/pdftk"; path_convert := "/usr/bin/convert";
  path_pdf2ps := Some "/usr/bin/pdf2ps"; path_ps2pdf := Some "/usr/bin/ps2pdf";
  input_file := "/home/user/scan.pdf"; output_file := "/home/user/scan-OCR.pdf";
  input_file_type := "application/pdf"; input_file_is_encrypted := false;
  input_file_metadata :=
    Some [("/Title", PStr "Report"); ("/Producer", PStr "Scanner 1.0");
          ("/Keywords", PArray ["a"; "b"])];
  use_deskew_mode := false; force_rebuild_mode := false; use_pdftk := false;
  user_convert_params := ""; verbose_mode := false; delete_temps := true
|}.

(** A run on a file that is neither a PDF nor an image. *)
Definition example_config_text_input : config := {|
  tmp_dir := "/tmp/"; prefix := "pfx"; extension_images := "jpg";
  path_this_python := "/usr/bin/python3"; script_dir := "/opt/pdf2pdfocr/";
  path_pdftk := "/usr/bin/pdftk"; path_convert := "/usr/bin/convert";
  path_pdf2ps := Some "/usr/bin/pdf2ps"; path_ps2pdf := Some "/usr/bin/ps2pdf";
  input_file := "/home/user/notes.txt"; output_file := "/home/user/notes-OCR.pdf";
  input_file_type := "text/plain"; input_file_is_encrypted := false;
  input_file_metadata := Some [];
  use_deskew_mode := false; force_rebuild_mode := false; use_pdftk := false;
  user_convert_params := ""; verbose_mode := false; delete_temps := true
|}.

(** A run with deskew. *)
Definition example_config_deskew : config := {|
  tmp_dir := "/tmp/"; prefix := "pfx"; extension_images := "jpg";
  path_this_python := "/usr/bin/python3"; script_dir := "/opt/pdf2pdfocr/";
  path_pdftk := "/usr/bin/pdftk"; path_convert := "/usr/bin/convert";
  path_pdf2ps := Some "/usr/bin/pdf2ps"; path_ps2pdf := Some "/usr/bin/ps2pdf";
  input_file := "/home/user/scan.pdf"; output_file := "/home/user/scan-OCR.pdf";
  input_file_type := "application/pdf"; input_file_is_encrypted := false;
  input_file_metadata := Some [];
  use_deskew_mode := true; force_rebuild_mode := false; use_pdftk := false;
  user_convert_params := ""; verbose_mode := false; delete_temps := true
|}.

(** A tesseract that writes a one-page PDF and a text file beside the image
    it is given, and fails on page 2; every other process does nothing. *)
Definition run_tesseract (argv : list string) (fs : gmap string content)
  : gmap string content :=
  match argv with
  | ["/usr/bin/tesseract"; _; _; _; _; _; _; _; _; image; out] =>
      if String.eqb image "/tmp/pfx-002.jpg" then fs
      else <[out +:+ ".pdf" := Pdf ["scan of " +:+ image] pypdf2_info]>
             (<[out +:+ ".txt" := Blob ("text of " +:+ image)]> fs)
  | _ => fs
  end.

(** The text files of pages 1 and 3 beside the images. *)
Definition example_texts : gmap string content :=
  <["/tmp/pfx-003.txt" := Blob "three"]>
    (<["/tmp/pfx-001.txt" := Blob "one "]> example_images).

(** The three overlays and a fourth file that is not a PDF document. *)
Definition example_overlays_corrupt : gmap string content :=
  <["/tmp/pfx-004.pdf" := Blob "truncated"]> example_overlays.

(** A merge that succeeds: whatever the process, the candidate is there
    afterwards. *)
Definition run_merge_ok (argv : list string) (fs : gmap string content)
  : gmap string content :=
  <["/tmp/pfx-OUTPUT.pdf" := Pdf ["page 1"; "page 2"; "page 3"] pypdf2_info]> fs.

(** A computation never leaves through [exit], and the exceptions it raises
    satisfy [E]. *)
Definition fails_only_with {A : Type} (E : exn -> Prop) (m : M A) : Prop :=
  forall s, match (m s).1 with
            | Return _ => True
            | Raise e => E e
            | Exit _ => False
            end.

(** The exceptions of the final merger: a missing ghostscript, or parameters
    that [shlex.split] rejects. *)
Definition merge_exception (e : exn) : Prop := e = TypeError \/ e = ValueError.

(** The bytes read from the file at [fname], nothing for a missing file. *)
Definition file_bytes (pdf_bytes : list page -> gmap string pyval -> string)
    (fs : gmap string content) (fname : string) : string :=
  match fs !! fname with
  | Some (Blob data) => data
  | Some (Pdf pages info) => pdf_bytes pages info
  | None => EmptyString
  end.

(** The path [define_output_files] gives to [self.output_file]. *)
Definition planned_output_file (self : config) (opts : options) : string :=
  match force_out_file opts with
  | Some force_out_file => force_out_file
  | None =>
      dirname (input_file self) +:+ "/" +:+ (splitext (basename (input_file self))).1
      +:+ "-OCR.pdf"
  end.

(** The tesseract process of [do_ocr] and the names it derives from the
    image. *)
Definition image_no_ext (image_file : string) : string :=
  (splitext (basename image_file)).1.

Definition tesseract_event (image_file tess_lang tess_psm temp_dir path_tesseract : string)
  : event :=
  Popen [path_tesseract; "-l"; tess_lang;
         "-c"; "tessedit_create_pdf=1";
         "-c"; "tessedit_create_txt=1";
         "-c"; "tessedit_pageseg_mode=" +:+ tess_psm;
         image_file;
         temp_dir +:+ image_no_ext image_file]
        (Some (temp_dir +:+ "tess_err_" +:+ image_no_ext image_file +:+ ".log")).

(** The overlay [do_ocr] writes for an image, and the file under which it
    keeps the PDF tesseract wrote. *)
Definition pdf_file (temp_dir image_file : string) : string :=
  temp_dir +:+ image_no_ext image_file +:+ ".pdf".

Definition pdf_file_tmp (temp_dir image_file : string) : string :=
  temp_dir +:+ image_no_ext image_file +:+ ".tmp".

(** Options of a run: safe mode with a text output, and neither. *)
Definition example_options_safe : options :=
  {| safe_mode := true; create_text_mode := true; force_out_file := None |}.

Definition example_options_text : options :=
  {| safe_mode := false; create_text_mode := true; force_out_file := None |}.

(** The output of an earlier run is still there. *)
Definition example_stale_output : gmap string content :=
  <["/home/user/scan-OCR.pdf" := Blob "earlier output"]> example_images.

(** Stand-ins for the page operations of PyPDF2; a page without content
    stream is written as the empty string. *)
Definition example_remove_images (p : page) : option page :=
  if String.eqb p "" then None else Some ("no image: " +:+ p).
Definition example_strip_xobject (p : page) : option page :=
  if String.eqb p "" then None else Some ("no xobject: " +:+ p).
Definition example_pdf_bytes (pages : list page) (info : gmap string pyval) : string :=
  "%PDF".

(** * Theorems *)

(** ** The partitioner *)

Section RangesFacts.
Import Ranges.

Lemma ceil_unique (x y c : Z) :
  0 < y -> y * (c - 1) < x <= y * c -> - ((- x) / y) = c.
Proof.
  intros Hy Hc.
  pose proof (Z.div_mod (- x) y ltac:(lia)) as Hdm.
  pose proof (Z.mod_pos_bound (- x) y Hy) as Hr.
  nia.
Qed.

Lemma round_half_even_bounds (n d : Z) :
  n / d <= round_half_even n d <= n / d + 1.
Proof.
  unfold round_half_even.
  destruct (2 * (n mod d) <? d); [lia|].
  destruct (d <? 2 * (n mod d)); [lia|].
  destruct (Z.even (n / d)); lia.
Qed.

(** Scaled by [s] with [b < 2 * s], the quotient [a / b] is rounded to a
    number with the same ceiling. *)
Lemma round_half_even_ceil (a b s : Z) :
  1 <= a -> 1 <= b -> 1 <= s -> b < 2 * s ->
  - ((- round_half_even (a * s) b) / s) = - ((- a) / b).
Proof.
  intros Ha Hb Hs Hbs.
  pose proof (Z.div_mod a b ltac:(lia)) as Hdm.
  pose proof (Z.mod_pos_bound a b ltac:(lia)) as Hr.
  pose proof (Z.div_mod (a * s) b ltac:(lia)) as Hdm'.
  pose proof (Z.mod_pos_bound (a * s) b ltac:(lia)) as Hr'.
  set (n := a / b) in *. set (r := a mod b) in *.
  assert (0 <= n) as Hn by (apply Z.div_pos; lia).
  destruct (Z.eq_dec r 0) as [Hr0|Hr0].
  - rewrite (ceil_unique a b n) by lia.
    assert ((a * s) / b = n * s /\ (a * s) mod b = 0) as [Hq Hm].
    { replace (a * s) with (n * s * b) by nia.
      rewrite Z.div_mul, Z.mod_mul by lia. split; reflexivity. }
    unfold round_half_even. rewrite Hq, Hm.
    destruct (Z.ltb_spec (2 * 0) b); [|lia].
    apply ceil_unique; nia.
  - rewrite (ceil_unique a b (n + 1)) by lia.
    apply ceil_unique; [lia|].
    unfold round_half_even.
    set (q := (a * s) / b) in *. set (r' := (a * s) mod b) in *.
    assert (n * s <= q) as Hq1 by nia.
    assert (q + 1 <= (n + 1) * s) as Hq2 by nia.
    destruct (Z.ltb_spec (2 * r') b) as [H1|H1].
    + split; [|nia].
      destruct (Z.eq_dec q (n * s)) as [Hq|Hq]; [|nia].
      assert (r' = r * s) by nia. nia.
    + destruct (Z.ltb_spec b (2 * r')) as [H2|H2]; [nia|].
      destruct (Z.even q); [|nia].
      split; [|nia].
      destruct (Z.eq_dec q (n * s)) as [Hq|Hq]; [|nia].
      assert (r' = r * s) by nia. nia.
Qed.

Lemma float_exponent_bounds (a b : Z) :
  1 <= a < 2 ^ 53 -> 1 <= b < 2 ^ 53 ->
  -1074 <= float_exponent a b <= 0 /\ b < 2 * 2 ^ (- float_exponent a b).
Proof.
  intros Ha Hb.
  pose proof (Z.log2_nonneg a) as Hla0.
  pose proof (Z.log2_nonneg b) as Hlb0.
  assert (Z.log2 a < 53) as Hla by (apply Z.log2_lt_pow2; lia).
  assert (Z.log2 b < 53) as Hlb by (apply Z.log2_lt_pow2; lia).
  pose proof (Z.log2_spec b ltac:(lia)) as [_ Hspec].
  unfold float_exponent.
  set (k := Z.log2 a - Z.log2 b).
  destruct (a * 2 ^ Z.max 0 (- k) <? b * 2 ^ Z.max 0 k).
  - split; [lia|].
    rewrite <- Z.pow_succ_r by lia.
    eapply Z.lt_le_trans; [exact Hspec|].
    apply Z.pow_le_mono_r; lia.
  - split; [lia|].
    rewrite <- Z.pow_succ_r by lia.
    eapply Z.lt_le_trans; [exact Hspec|].
    apply Z.pow_le_mono_r; lia.
Qed.

(** Below 2^53 the float quotient has the ceiling of the exact quotient. *)
Lemma ceil_div_exact (a b : Z) :
  1 <= a < 2 ^ 53 -> 1 <= b < 2 ^ 53 ->
  ceil_div a b = Return (- ((- a) / b)).
Proof.
  intros Ha Hb.
  destruct (float_exponent_bounds a b Ha Hb) as [He Hs].
  unfold ceil_div, truediv.
  destruct (Z.eqb_spec b 0); [lia|]. destruct (Z.eqb_spec a 0); [lia|].
  cbv zeta. rewrite !Z.abs_eq by lia.
  set (e := float_exponent a b) in *.
  rewrite (Z.max_r 0 (- e)), (Z.max_l 0 e) by lia.
  rewrite Z.pow_0_r, Z.mul_1_r.
  set (s := 2 ^ (- e)) in *.
  assert (1 <= s) as Hs1.
  { unfold s. change 1 with (2 ^ 0). apply Z.pow_le_mono_r; lia. }
  pose proof (round_half_even_ceil a b s ltac:(lia) ltac:(lia) Hs1 Hs) as Hceil.
  set (m := round_half_even (a * s) b) in *.
  destruct (Z.ltb_spec a 0); [lia|]. destruct (Z.ltb_spec b 0); [lia|].
  cbn [xorb].
  destruct (Z.leb_spec 0 e) as [He0|He0].
  - assert (e = 0) as He1 by lia.
    assert (s = 1) as Hs2 by (unfold s; rewrite He1; reflexivity).
    rewrite He1, Z.pow_0_r, Z.mul_1_r.
    rewrite Hs2 in Hceil. rewrite Z.div_1_r in Hceil.
    assert (m < 2 ^ 1024) as Hm.
    { pose proof (round_half_even_bounds (a * s) b) as Hb'. fold m in Hb'.
      assert (a * s / b <= a * s) by (apply Z.div_le_upper_bound; nia).
      nia. }
    destruct (Z.leb_spec (2 ^ 1024) m); [lia|].
    cbn [andb]. unfold ceil. cbn [negative mantissa exponent].
    change (0 <=? 0) with true. cbv iota.
    rewrite Z.pow_0_r, Z.mul_1_r. f_equal. lia.
  - cbn [andb]. unfold ceil. cbn [negative mantissa exponent].
    destruct (Z.leb_spec 0 e); [lia|]. fold s. rewrite Hceil. reflexivity.
Qed.

Lemma ceil_div_pos (a b : Z) :
  1 <= a < 2 ^ 53 -> 1 <= b < 2 ^ 53 ->
  exists q, ceil_div a b = Return q /\ b * (q - 1) < a <= b * q.
Proof.
  intros Ha Hb. rewrite ceil_div_exact by assumption.
  eexists; split; [reflexivity|].
  pose proof (Z.div_mod (- a) b ltac:(lia)) as Hdm.
  pose proof (Z.mod_pos_bound (- a) b ltac:(lia)) as Hr.
  nia.
Qed.

Lemma ceil_div_nonneg (a b q : Z) :
  1 <= a -> 1 <= b -> ceil_div a b = Return q -> 0 <= q.
Proof.
  intros Ha Hb. unfold ceil_div, truediv.
  destruct (Z.eqb_spec b 0); [lia|]. destruct (Z.eqb_spec a 0); [lia|].
  cbv zeta. rewrite !Z.abs_eq by lia.
  set (e := float_exponent a b).
  set (m := round_half_even _ _).
  assert (0 <= m) as Hm.
  { pose proof (round_half_even_bounds (a * 2 ^ Z.max 0 (- e)) (b * 2 ^ Z.max 0 e)) as H.
    fold m in H.
    assert (0 <= a * 2 ^ Z.max 0 (- e) / (b * 2 ^ Z.max 0 e)); [|lia].
    apply Z.div_pos.
    - apply Z.mul_nonneg_nonneg; [lia|]. apply Z.pow_nonneg. lia.
    - apply Z.mul_pos_pos; [lia|]. apply Z.pow_pos_nonneg; lia. }
  destruct ((0 <=? e) && (2 ^ 1024 <=? m * 2 ^ e)); [discriminate|].
  destruct (Z.ltb_spec a 0); [lia|]. destruct (Z.ltb_spec b 0); [lia|].
  cbn [xorb]. unfold ceil. cbn [negative mantissa exponent].
  intros [= <-].
  destruct (Z.leb_spec 0 e).
  - apply Z.mul_nonneg_nonneg; [lia|]. apply Z.pow_nonneg. lia.
  - assert (0 < 2 ^ (- e)) as Hpow by (apply Z.pow_pos_nonneg; lia).
    pose proof (Z.div_mod (- m) (2 ^ (- e)) ltac:(lia)) as Hdm.
    pose proof (Z.mod_pos_bound (- m) (2 ^ (- e)) Hpow) as Hr.
    nia.
Qed.

Lemma build_ranges_lookup (pages rs n : Z) (i : nat) :
  Z.of_nat i < n ->
  build_ranges pages rs n !! i = Some (make_range pages rs (Z.of_nat i)).
Proof.
  intros Hi. unfold build_ranges.
  rewrite list_lookup_fmap, lookup_seqZ_lt by lia. reflexivity.
Qed.

Lemma build_ranges_lookup_Some (pages rs n : Z) (i : nat) (r : page_range) :
  build_ranges pages rs n !! i = Some r ->
  Z.of_nat i < n /\ r = make_range pages rs (Z.of_nat i).
Proof.
  unfold build_ranges. rewrite list_lookup_fmap.
  destruct (seqZ 0 n !! i) as [k|] eqn:Hk; simpl; [|discriminate].
  apply lookup_seqZ in Hk as [-> Hlt]. intros [= <-]. split; [lia|reflexivity].
Qed.

Lemma length_build_ranges (pages rs n : Z) :
  length (build_ranges pages rs n) = Z.to_nat n.
Proof. unfold build_ranges. rewrite length_fmap. apply length_seqZ. Qed.

Lemma check_pages_snoc (l : list page_range) (r : page_range) :
  check_pages (l ++ [r]) = check_pages l + range_length r.
Proof.
  unfold check_pages, range_length. rewrite fold_left_app.
  cbn [fold_left]. symmetry. apply Z.add_assoc.
Qed.

Lemma build_ranges_S (pages rs : Z) (k : nat) :
  build_ranges pages rs (Z.of_nat (S k)) =
  build_ranges pages rs (Z.of_nat k) ++ [make_range pages rs (Z.of_nat k)].
Proof. unfold build_ranges. rewrite seqZ_S, fmap_app. reflexivity. Qed.

(** While the ranges stay below the last page each one is full, so [k] of them
    hold [range_size * k] pages. *)
Lemma check_pages_full (pages rs : Z) (k : nat) :
  0 <= rs -> rs * Z.of_nat k <= pages ->
  check_pages (build_ranges pages rs (Z.of_nat k)) = rs * Z.of_nat k.
Proof.
  intros Hrs. induction k as [|k IH]; intros Hk.
  - simpl. rewrite Z.mul_0_r. reflexivity.
  - rewrite Nat2Z.inj_succ in Hk.
    assert (rs * Z.of_nat k <= pages) as Hk' by nia.
    rewrite build_ranges_S, check_pages_snoc, (IH Hk').
    unfold range_length, make_range. simpl.
    destruct (Z.gtb_spec (rs * Z.of_nat k + rs) pages); nia.
Qed.

Lemma check_pages_build (pages rs n : Z) :
  1 <= pages -> 1 <= rs -> rs * (n - 1) < pages <= rs * n ->
  check_pages (build_ranges pages rs n) = pages.
Proof.
  intros Hp Hrs Hn.
  assert (1 <= n) as Hn1 by nia.
  replace n with (Z.of_nat (S (Z.to_nat (n - 1)))) at 1 by lia.
  rewrite build_ranges_S, check_pages_snoc.
  replace (Z.of_nat (Z.to_nat (n - 1))) with (n - 1) by lia.
  replace (n - 1) with (Z.of_nat (Z.to_nat (n - 1))) at 1 by lia.
  rewrite check_pages_full by lia.
  replace (Z.of_nat (Z.to_nat (n - 1))) with (n - 1) by lia.
  unfold range_length, make_range. simpl.
  destruct (Z.gtb_spec (rs * (n - 1) + rs) pages); nia.
Qed.

(** Past the last page the sum of the ranges stays at the page count for one
    more range and falls below it afterwards. *)
Lemma check_pages_past (pages rs : Z) (k : nat) :
  1 <= pages -> 1 <= rs -> pages < rs * Z.of_nat k ->
  check_pages (build_ranges pages rs (Z.of_nat k)) <= pages /\
  (pages < rs * (Z.of_nat k - 1) ->
   check_pages (build_ranges pages rs (Z.of_nat k)) < pages).
Proof.
  intros Hp Hrs. induction k as [|k IH]; intros Hk; [lia|].
  rewrite build_ranges_S, check_pages_snoc.
  assert (range_length (make_range pages rs (Z.of_nat k)) = pages - rs * Z.of_nat k) as ->.
  { unfold range_length, make_range. simpl.
    destruct (Z.gtb_spec (rs * Z.of_nat k + rs) pages); lia. }
  destruct (Z.le_gt_cases (rs * Z.of_nat k) pages) as [Hle|Hgt].
  - rewrite check_pages_full by lia. lia.
  - destruct (IH ltac:(lia)) as [IH1 _]. lia.
Qed.

(** A sum that equals the page count fixes the number of ranges. *)
Lemma check_pages_build_inv (pages rs n : Z) :
  1 <= pages -> 1 <= rs ->
  check_pages (build_ranges pages rs n) = pages ->
  1 <= n /\ rs * (n - 1) <= pages <= rs * n.
Proof.
  intros Hp Hrs Hsum.
  assert (1 <= n) as Hn.
  { destruct (Z.le_gt_cases 1 n) as [|Hn]; [assumption|].
    unfold build_ranges in Hsum. rewrite seqZ_nil in Hsum by lia.
    change (0 = pages) in Hsum. lia. }
  split; [exact Hn|].
  assert (n = Z.of_nat (Z.to_nat n)) as Hk by lia.
  revert Hsum Hn Hk. generalize (Z.to_nat n). intros k Hsum Hn ->.
  destruct (Z.le_gt_cases (rs * Z.of_nat k) pages) as [Hle|Hgt].
  - rewrite check_pages_full in Hsum by lia. nia.
  - destruct (check_pages_past pages rs k Hp Hrs Hgt) as [_ Hlt].
    split; [|lia].
    destruct (Z.le_gt_cases (rs * (Z.of_nat k - 1)) pages) as [|Hgt'];
      [assumption|].
    specialize (Hlt Hgt'). lia.
Qed.

(** What [calculate_ranges] computes for a known page count and a positive
    worker budget: the two ceilings and the list built from them. *)
Lemma calculate_ranges_known (pages cpus : Z) :
  1 <= pages < 2 ^ 53 -> 1 <= cpus < 2 ^ 53 ->
  exists rs n,
    ceil_div pages cpus = Return rs /\ ceil_div pages rs = Return n /\
    1 <= rs /\ 1 <= n <= cpus /\ rs * (n - 1) < pages <= rs * n /\
    cpus * (rs - 1) < pages <= cpus * rs /\
    calculate_ranges (Some pages) cpus = Return (Some (build_ranges pages rs n)).
Proof.
  intros Hp Hc.
  destruct (ceil_div_pos pages cpus Hp Hc) as (rs & Hrs & Hrsb).
  assert (1 <= rs) as Hrs1 by nia.
  assert (rs <= pages) as Hrs2 by nia.
  destruct (ceil_div_pos pages rs Hp ltac:(lia)) as (n & Hn & Hnb).
  assert (1 <= n) as Hn1 by nia.
  assert (n <= cpus) as Hnc by nia.
  exists rs, n. repeat split; try assumption; try lia.
  unfold calculate_ranges. rewrite Hrs, Hn.
  rewrite check_pages_build by lia. rewrite Z.eqb_refl. reflexivity.
Qed.

Lemma check_pages_total (l : list page_range) :
  check_pages l = total_pages l.
Proof.
  unfold check_pages.
  assert (forall acc, fold_left
            (fun acc created_range => acc + (created_range.2 - created_range.1) + 1)
            l acc = acc + total_pages l) as Hgen.
  { induction l as [|r l IH]; intros acc; simpl.
    - lia.
    - rewrite IH. unfold range_length. lia. }
  rewrite Hgen. lia.
Qed.

Lemma build_ranges_head (pages rs n : Z) :
  1 <= n -> fst <$> head (build_ranges pages rs n) = Some 1.
Proof.
  intros Hn. rewrite head_lookup, build_ranges_lookup by lia.
  simpl. f_equal. lia.
Qed.

Lemma build_ranges_last (pages rs n : Z) :
  1 <= n -> pages <= rs * n ->
  snd <$> last (build_ranges pages rs n) = Some pages.
Proof.
  intros Hn Hle. rewrite last_lookup, length_build_ranges.
  rewrite build_ranges_lookup by lia.
  replace (Z.of_nat (Nat.pred (Z.to_nat n))) with (n - 1) by lia.
  simpl. f_equal.
  destruct (Z.gtb_spec (rs * (n - 1) + rs) pages); nia.
Qed.

Lemma build_ranges_contiguous (pages rs n : Z) :
  1 <= rs -> rs * (n - 1) <= pages -> contiguous (build_ranges pages rs n).
Proof.
  intros Hrs Hlt i r r' Hr Hr'.
  apply build_ranges_lookup_Some in Hr as [Hi ->].
  apply build_ranges_lookup_Some in Hr' as [Hi' ->].
  unfold make_range; simpl.
  destruct (Z.gtb_spec (rs * Z.of_nat i + rs) pages); nia.
Qed.

Lemma build_ranges_non_overlapping (pages rs n : Z) :
  1 <= rs -> rs * (n - 1) <= pages -> non_overlapping (build_ranges pages rs n).
Proof.
  intros Hrs Hlt i j r r' Hij Hr Hr'.
  apply build_ranges_lookup_Some in Hr as [Hi ->].
  apply build_ranges_lookup_Some in Hr' as [Hj ->].
  unfold make_range; simpl.
  destruct (Z.gtb_spec (rs * Z.of_nat i + rs) pages); nia.
Qed.

Lemma build_ranges_nonempty_ranges (pages rs n : Z) :
  1 <= rs -> rs * (n - 1) < pages ->
  Forall (fun r : page_range => r.1 <= r.2) (build_ranges pages rs n).
Proof.
  intros Hrs Hlt. apply Forall_lookup. intros i r Hr.
  apply build_ranges_lookup_Some in Hr as [Hi ->].
  unfold make_range; simpl.
  destruct (Z.gtb_spec (rs * Z.of_nat i + rs) pages); nia.
Qed.

(** The consistency check is live: on a page count no document has, the sum
    of the built ranges differs and the call raises. *)
Example calculate_ranges_check_fires :
  calculate_ranges (Some (-5)) 2 = Raise ArithmeticError.
Proof. vm_compute. reflexivity. Qed.

(** It also fires beyond 2^53, where the float quotient is no longer exact:
    for 2^53 + 1 pages and one worker the quotient is rounded to 2^53, the
    single range [(1, 2^53)] is built and its length is not the page count. *)
Example calculate_ranges_float_rounding :
  ceil_div (2 ^ 53 + 1) 1 = Return (2 ^ 53) /\
  calculate_ranges (Some (2 ^ 53 + 1)) 1 = Raise ArithmeticError.
Proof. split; vm_compute; reflexivity. Qed.

(** C1. For a known page count [pages >= 1] and a worker budget [cpus >= 1],
    both below 2^53 (where the float quotients of the code have the ceiling
    of the exact quotients), [calculate_ranges] returns a list of 1-indexed
    inclusive ranges that starts at page 1, ends at page [pages], is
    contiguous and non-overlapping, and whose lengths sum to [pages].
    Whatever the inputs, a list is returned only when the lengths sum to the
    page count, and for every page count and worker budget from 1 on, with
    no bound, a list that is returned starts at page 1, ends at the last
    page and is contiguous and non-overlapping: when the sum of the built
    ranges differs, the call raises [ArithmeticError] instead of
    returning. *)
Theorem calculate_ranges_partition (pages cpus : Z) :
  1 <= pages < 2 ^ 53 -> 1 <= cpus < 2 ^ 53 ->
  (exists l,
      calculate_ranges (Some pages) cpus = Return (Some l) /\
      fst <$> head l = Some 1 /\
      snd <$> last l = Some pages /\
      contiguous l /\
      non_overlapping l /\
      Forall (fun r : page_range => r.1 <= r.2) l /\
      total_pages l = pages) /\
  (forall pages' cpus' l',
      calculate_ranges (Some pages') cpus' = Return (Some l') ->
      total_pages l' = pages' /\
      (1 <= pages' -> 1 <= cpus' ->
       fst <$> head l' = Some 1 /\
       snd <$> last l' = Some pages' /\
       contiguous l' /\
       non_overlapping l')) /\
  (forall pages' cpus' rs n,
      ceil_div pages' cpus' = Return rs -> ceil_div pages' rs = Return n ->
      total_pages (build_ranges pages' rs n) <> pages' ->
      calculate_ranges (Some pages') cpus' = Raise ArithmeticError).
Proof.
  intros Hp Hc. split; [|split].
  - destruct (calculate_ranges_known pages cpus Hp Hc)
      as (rs & n & _ & _ & Hrs & Hn & Hb & _ & Hcalc).
    exists (build_ranges pages rs n). split; [exact Hcalc|].
    split; [apply build_ranges_head; lia|].
    split; [apply build_ranges_last; lia|].
    split; [apply build_ranges_contiguous; lia|].
    split; [apply build_ranges_non_overlapping; lia|].
    split; [apply build_ranges_nonempty_ranges; lia|].
    rewrite <- check_pages_total. apply check_pages_build; lia.
  - intros pages' cpus' l'. unfold calculate_ranges.
    destruct (ceil_div pages' cpus') as [rs| |] eqn:Hrs; try discriminate.
    destruct (ceil_div pages' rs) as [n| |] eqn:Hn; try discriminate.
    destruct (Z.eqb_spec (check_pages (build_ranges pages' rs n)) pages')
      as [Heq|Hne]; simpl; [|discriminate].
    intros [= <-]. split; [rewrite <- check_pages_total; exact Heq|].
    intros Hp' Hc'.
    pose proof (ceil_div_nonneg pages' cpus' rs Hp' Hc' Hrs) as Hrs0.
    assert (rs <> 0) as Hrs1 by (intros ->; discriminate Hn).
    destruct (check_pages_build_inv pages' rs n Hp' ltac:(lia) Heq) as [Hn1 Hb].
    split; [apply build_ranges_head; lia|].
    split; [apply build_ranges_last; lia|].
    split; [apply build_ranges_contiguous; lia|].
    apply build_ranges_non_overlapping; lia.
  - intros pages' cpus' rs n Hrs Hn Hne. unfold calculate_ranges.
    rewrite Hrs, Hn.
    destruct (Z.eqb_spec (check_pages (build_ranges pages' rs n)) pages')
      as [Heq|_]; simpl; [|reflexivity].
    rewrite check_pages_total in Heq. contradiction.
Qed.

Lemma calculate_ranges_partition_witness :
  exists l,
    calculate_ranges (Some 10) 4 = Return (Some l) /\
    (fst <$> head l) = Some 1 /\ (snd <$> last l) = Some 10 /\ total_pages l = 10.
Proof.
  destruct (calculate_ranges_partition 10 4 ltac:(lia) ltac:(lia))
    as [(l & Hl & Hh & Ht & _ & _ & _ & Hs) _].
  exists l. repeat split; assumption.
Defined.



End RangesFacts.

(** ** Files and traces *)

Lemma foldr_delete_subseteq (l : list string) (fs : gmap string content) :
  foldr delete fs l ⊆ fs.
Proof.
  induction l as [|p l IH]; simpl; [done|].
  etrans; [apply delete_subseteq|exact IH].
Qed.

Lemma new_events_app (fs fs' : gmap string content) (t evs : list event) :
  new_events (mk_state fs t) (mk_state fs' (t ++ evs)) = evs.
Proof. unfold new_events; simpl. apply drop_app_length. Qed.

Lemma glob_is_Some (dir pre suf : string) (fs : gmap string content) (f : string) :
  f ∈ glob dir pre suf fs -> is_Some (fs !! f).
Proof.
  unfold glob. intros [_ Hf]%list_elem_of_filter.
  apply list_elem_of_fmap in Hf as [[f' c] [-> Hfc]].
  apply elem_of_map_to_list in Hfc. simpl. eauto.
Qed.

(** ** The order of [sorted] *)

Lemma string_compare_trans (c : comparison) (s1 s2 s3 : string) :
  String.compare s1 s2 = c -> String.compare s2 s3 = c -> String.compare s1 s3 = c.
Proof.
  revert s2 s3. induction s1 as [|a1 s1 IH]; intros [|a2 s2] [|a3 s3]; simpl;
    try congruence.
  unfold Ascii.compare.
  destruct (N.compare_spec (N_of_ascii a1) (N_of_ascii a2)) as [E12|L12|G12];
    destruct (N.compare_spec (N_of_ascii a2) (N_of_ascii a3)) as [E23|L23|G23];
    intros H1 H2; try congruence.
  - rewrite E12, E23, N.compare_refl. eapply IH; eassumption.
  - rewrite E12. destruct (N.compare_lt_iff (N_of_ascii a2) (N_of_ascii a3)) as [_ ->];
      assumption.
  - rewrite E12. destruct (N.compare_gt_iff (N_of_ascii a2) (N_of_ascii a3)) as [_ ->];
      assumption.
  - rewrite <- E23. destruct (N.compare_lt_iff (N_of_ascii a1) (N_of_ascii a2)) as [_ ->];
      assumption.
  - destruct (N.compare_lt_iff (N_of_ascii a1) (N_of_ascii a3)) as [_ ->];
      [assumption|lia].
  - rewrite <- E23. destruct (N.compare_gt_iff (N_of_ascii a1) (N_of_ascii a2)) as [_ ->];
      assumption.
  - destruct (N.compare_gt_iff (N_of_ascii a1) (N_of_ascii a3)) as [_ ->];
      [assumption|lia].
Qed.

#[global] Instance str_le_total : Total str_le.
Proof. intros s1 s2. apply String.leb_total. Qed.

#[global] Instance str_le_antisymm : AntiSymm (=) str_le.
Proof. intros s1 s2. apply String.leb_antisym. Qed.

#[global] Instance str_le_trans : Transitive str_le.
Proof.
  intros s1 s2 s3. unfold str_le, String.leb.
  destruct (String.compare s1 s2) eqn:H12; try discriminate;
    destruct (String.compare s2 s3) eqn:H23; try discriminate; intros _ _.
  - apply String.compare_eq_iff in H12 as ->. rewrite H23. reflexivity.
  - apply String.compare_eq_iff in H12 as ->. rewrite H23. reflexivity.
  - apply String.compare_eq_iff in H23 as <-. rewrite H12. reflexivity.
  - rewrite (string_compare_trans Lt s1 s2 s3 H12 H23). reflexivity.
Qed.

Lemma sorted_Sorted (l : list string) : Sorted str_le (sorted l).
Proof. apply Sorted_merge_sort. apply _. Qed.

Lemma sorted_Permutation (l : list string) : sorted l ≡ₚ l.
Proof. apply merge_sort_Permutation. Qed.

(** Sorting forgets the order in which the directory listed the files. *)
Lemma sorted_listing_order (l l' : list string) : l' ≡ₚ l -> sorted l' = sorted l.
Proof.
  intros Hp. apply (Sorted_unique str_le); try apply sorted_Sorted.
  rewrite !sorted_Permutation. exact Hp.
Qed.

Lemma sorted_nil_inv (l : list string) : sorted l = [] -> l = [].
Proof.
  intros H. apply Permutation_nil_r. rewrite <- H. symmetry. apply sorted_Permutation.
Qed.

Lemma sorted_length (l : list string) : length (sorted l) = length l.
Proof. apply Permutation_length, sorted_Permutation. Qed.

(** ** The overlay assembler *)

Section JoinFacts.

Variable self : config.

Lemma mapM_read_pdf (l : list string) (s : state) :
  Forall (fun f => exists c, files s !! f = Some c /\ is_pdf c) l ->
  mapM read_pdf l s = (Return (pages_of (files s) <$> l), s).
Proof.
  induction 1 as [|f l (c & Hf & Hc) _ IH]; [reflexivity|].
  simpl. unfold mbind, M_bind at 1. unfold read_pdf at 1.
  unfold mbind, M_bind at 1. unfold get_files at 1.
  rewrite Hf. destruct c as [pages info|]; [|contradiction]. simpl.
  unfold mbind, M_bind at 1. rewrite IH. simpl.
  unfold pages_of at 2. rewrite Hf. reflexivity.
Qed.

(** No overlay: the error line, the cleanup and [exit(1)]. *)
Lemma join_ocred_pdf_zero (fs : gmap string content) (t : list event) :
  overlay_listing self fs = [] ->
  exists fs',
    fs' ⊆ fs /\
    join_ocred_pdf self (mk_state fs t) =
      (Exit 1, mk_state fs' (t ++ debug_events self (count_message 0)
                               ++ [Eprint no_overlay_message] ++ cleanup_events self)).
Proof.
  unfold overlay_listing. intros Hg. unfold join_ocred_pdf.
  unfold mbind, M_bind, get_files. simpl. rewrite Hg.
  unfold debug, debug_events, cleanup_events, eprint, cleanup, emit, exit, mret,
    M_ret, get_files, put_files.
  destruct (verbose_mode self), (delete_temps self); simpl;
    eexists; (split; [|rewrite <- ?app_assoc; reflexivity]);
    try apply foldr_delete_subseteq; reflexivity.
Qed.

(** One overlay: it is copied. *)
Lemma join_ocred_pdf_one (fs : gmap string content) (t : list event) (f : string) :
  sorted (overlay_listing self fs) = [f] -> f <> ocr_pdf self ->
  exists c,
    fs !! f = Some c /\
    join_ocred_pdf self (mk_state fs t) =
      (Return tt, mk_state (<[ocr_pdf self := c]> fs)
                           (t ++ debug_events self (count_message 1)
                              ++ [CopyFile f (ocr_pdf self)]
                              ++ debug_events self "Joined ocr'ed PDF files")).
Proof.
  unfold overlay_listing. intros Hl Hne.
  assert (is_Some (fs !! f)) as [c Hc].
  { apply (glob_is_Some (tmp_dir self) (prefix self) ".pdf").
    rewrite <- (sorted_Permutation _), Hl. apply list_elem_of_here. }
  exists c. split; [exact Hc|].
  unfold join_ocred_pdf. unfold mbind, M_bind, get_files. simpl. rewrite Hl. simpl.
  unfold copyfile. destruct (String.eqb_spec f (ocr_pdf self)) as [|_]; [contradiction|].
  unfold debug, debug_events, emit, mret, M_ret, mbind, M_bind, get_files, put_files.
  destruct (verbose_mode self); simpl; rewrite Hc; simpl;
    rewrite <- ?app_assoc; reflexivity.
Qed.

(** Several overlays: they are merged in sorted order. *)
Lemma join_ocred_pdf_many (fs : gmap string content) (t : list event) :
  (1 < length (overlay_listing self fs))%nat ->
  (forall f c, f ∈ overlay_listing self fs -> fs !! f = Some c -> is_pdf c) ->
  join_ocred_pdf self (mk_state fs t) =
    (Return tt,
     mk_state (<[ocr_pdf self := Pdf (overlay_pages fs (sorted (overlay_listing self fs)))
                                     pypdf2_info]> fs)
              (t ++ debug_events self (count_message (length (overlay_listing self fs)))
                 ++ [WritePdf (ocr_pdf self)]
                 ++ debug_events self "Joined ocr'ed PDF files")).
Proof.
  unfold overlay_listing. intros Hlen Hpdf.
  set (l := glob (tmp_dir self) (prefix self) ".pdf" fs) in *.
  assert (Forall (fun f => exists c, fs !! f = Some c /\ is_pdf c) (sorted l)) as Hall.
  { apply Forall_forall. intros f Hf. rewrite sorted_Permutation in Hf.
    destruct (glob_is_Some _ _ _ _ _ Hf) as [c Hc]. eauto. }
  unfold join_ocred_pdf. unfold mbind at 1, M_bind at 1, get_files at 1. simpl.
  fold l. rewrite sorted_length.
  rewrite bool_decide_true by exact Hlen.
  unfold debug, debug_events, write_pdf, emit, mret, M_ret, mbind, M_bind,
    get_files, put_files.
  destruct (verbose_mode self); simpl;
    rewrite mapM_read_pdf by exact Hall;
    simpl; unfold overlay_pages; rewrite <- ?app_assoc; reflexivity.
Qed.

End JoinFacts.

(** Membership in a list of events that is written out. *)
Ltac invert_elem H :=
  repeat match type of H with
    | _ ∈ [] => apply elem_of_nil in H; contradiction
    | _ ∈ _ :: _ => apply elem_of_cons in H as [H|H]; [try discriminate H|]
    | list_elem_of _ [] => apply elem_of_nil in H; contradiction
    | list_elem_of _ (_ :: _) => apply elem_of_cons in H as [H|H]; [try discriminate H|]
    | _ ∈ _ ++ _ => apply elem_of_app in H as [H|H]
    | _ ∈ debug_events _ _ => unfold debug_events in H; destruct (verbose_mode _)
    | _ ∈ cleanup_events _ => unfold cleanup_events in H; destruct (delete_temps _)
    end.

(** C3. When no per-page overlay document exists, [join_ocred_pdf] prints its
    error line, cleans up and leaves through [exit(1)]: the pipeline stops
    there with a non-zero status, and no overlay document (nor any other file)
    is written. *)
Theorem join_ocred_pdf_no_overlay_fatal
    (run : list string -> gmap string content -> gmap string content)
    (shlex_split : string -> option (list string))
    (self : config) (s : state) :
  overlay_listing self (files s) = [] ->
  exists s',
    join_ocred_pdf self s = (Exit 1, s') /\
    ocr_from_join run shlex_split self s = (Exit 1, s') /\
    exit_status (ocr_from_join run shlex_split self s).1 <> 0 /\
    Eprint no_overlay_message ∈ new_events s s' /\
    files s' ⊆ files s /\
    (forall p, WritePdf p ∉ new_events s s') /\
    (forall src dst, CopyFile src dst ∉ new_events s s').
Proof.
  destruct s as [fs t]. simpl. intros Hg.
  destruct (join_ocred_pdf_zero self fs t Hg) as (fs' & Hsub & Hjoin).
  eexists. split; [exact Hjoin|].
  assert (ocr_from_join run shlex_split self (mk_state fs t) = (Exit 1,
            mk_state fs' (t ++ debug_events self (count_message 0)
                            ++ [Eprint no_overlay_message] ++ cleanup_events self)))
    as Hocr.
  { unfold ocr_from_join. unfold mbind at 1, M_bind at 1. rewrite Hjoin. reflexivity. }
  split; [exact Hocr|]. rewrite Hocr. simpl.
  split; [lia|]. rewrite new_events_app.
  split; [|split; [exact Hsub|split]].
  - apply elem_of_app. right. apply list_elem_of_here.
  - intros p H. invert_elem H.
  - intros src dst H. invert_elem H.
Qed.

Lemma join_ocred_pdf_no_overlay_fatal_witness :
  exists s',
    ocr_from_join run_nothing split_on_spaces example_config
      (mk_state example_images []) = (Exit 1, s').
Proof.
  destruct (join_ocred_pdf_no_overlay_fatal run_nothing split_on_spaces example_config
              (mk_state example_images []) ltac:(vm_compute; reflexivity))
    as (s' & _ & Hocr & _).
  exists s'. exact Hocr.
Defined.

(** With at least one overlay the assembly returns normally: what it writes
    and what it prints. *)
Lemma join_ocred_pdf_some (self : config) (fs : gmap string content) (t : list event) :
  overlay_listing self fs <> [] ->
  (forall f c, f ∈ overlay_listing self fs -> fs !! f = Some c -> is_pdf c) ->
  ocr_pdf self ∉ overlay_listing self fs ->
  exists info (action : event),
    join_ocred_pdf self (mk_state fs t) =
      (Return tt,
       mk_state (<[ocr_pdf self := Pdf (overlay_pages fs (sorted (overlay_listing self fs)))
                                       info]> fs)
                (t ++ debug_events self (count_message (length (overlay_listing self fs)))
                   ++ [action]
                   ++ debug_events self "Joined ocr'ed PDF files")) /\
    ((1 < length (overlay_listing self fs))%nat ->
       action = WritePdf (ocr_pdf self) /\ info = pypdf2_info) /\
    (forall f, sorted (overlay_listing self fs) = [f] ->
       action = CopyFile f (ocr_pdf self) /\
       fs !! f = Some (Pdf (overlay_pages fs [f]) info)).
Proof.
  intros Hne Hpdf Hdst.
  destruct (decide (1 < length (overlay_listing self fs))%nat) as [Hmany|Hfew].
  - exists pypdf2_info, (WritePdf (ocr_pdf self)).
    split; [apply join_ocred_pdf_many; assumption|].
    split; [intros _; split; reflexivity|].
    intros f Hf. apply (f_equal length) in Hf. rewrite sorted_length in Hf.
    simpl in Hf. lia.
  - assert (length (overlay_listing self fs) = 1%nat) as Hone.
    { destruct (overlay_listing self fs); [contradiction|simpl in *; lia]. }
    assert (exists f, sorted (overlay_listing self fs) = [f]) as [f Hf].
    { rewrite <- sorted_length in Hone.
      destruct (sorted (overlay_listing self fs)) as [|f [|g l]]; try discriminate.
      eauto. }
    assert (f ∈ overlay_listing self fs) as Hin.
    { rewrite <- (sorted_Permutation _), Hf. apply list_elem_of_here. }
    assert (f <> ocr_pdf self) as Hfne by (intros ->; contradiction).
    destruct (join_ocred_pdf_one self fs t f Hf Hfne) as (c & Hc & Hjoin).
    pose proof (Hpdf f c Hin Hc) as Hispdf.
    destruct c as [pages info|]; [|contradiction].
    assert (overlay_pages fs [f] = pages) as Hpages.
    { unfold overlay_pages, pages_of. simpl. rewrite Hc. apply app_nil_r. }
    exists info, (CopyFile f (ocr_pdf self)).
    split; [|split].
    + rewrite Hjoin, Hf, Hpages, Hone. reflexivity.
    + intros Hlt. lia.
    + intros f' Hf'. rewrite Hf in Hf'. injection Hf' as <-.
      rewrite Hpages. split; [reflexivity|exact Hc].
Qed.

(** C6. With at least one per-page overlay document, [join_ocred_pdf]
    assembles the overlays in the sorted order of their file names, whatever
    the order in which the directory lists them: the assembled document holds
    the pages of the overlays in that order. Several overlays are merged and
    written; exactly one is copied with [shutil.copyfile], no document being
    written by a merger. Overlays named pfx-003, pfx-001, pfx-002 give the
    page order 1, 2, 3. *)
Theorem join_ocred_pdf_sorted_order (self : config) (s : state) :
  overlay_listing self (files s) <> [] ->
  (forall f c, f ∈ overlay_listing self (files s) -> files s !! f = Some c -> is_pdf c) ->
  ocr_pdf self ∉ overlay_listing self (files s) ->
  (exists names s' info,
      join_ocred_pdf self s = (Return tt, s') /\
      names ≡ₚ overlay_listing self (files s) /\
      Sorted str_le names /\
      (forall listing, listing ≡ₚ overlay_listing self (files s) -> sorted listing = names) /\
      files s' !! ocr_pdf self = Some (Pdf (overlay_pages (files s) names) info) /\
      ((1 < length names)%nat -> WritePdf (ocr_pdf self) ∈ new_events s s') /\
      (forall f, names = [f] ->
         files s' !! ocr_pdf self = files s !! f /\
         CopyFile f (ocr_pdf self) ∈ new_events s s' /\
         (forall p, WritePdf p ∉ new_events s s'))) /\
  sorted ["/tmp/pfx-003.pdf"; "/tmp/pfx-001.pdf"; "/tmp/pfx-002.pdf"] =
    ["/tmp/pfx-001.pdf"; "/tmp/pfx-002.pdf"; "/tmp/pfx-003.pdf"] /\
  files (join_ocred_pdf example_config (mk_state example_overlays [])).2
    !! "/tmp/pfx-ocr.pdf" = Some (Pdf ["page 1"; "page 2"; "page 3"] pypdf2_info).
Proof.
  intros Hne Hpdf Hdst. split; [|split; vm_compute; reflexivity].
  destruct s as [fs t]. simpl in *.
  destruct (join_ocred_pdf_some self fs t Hne Hpdf Hdst)
    as (info & action & Hjoin & Hmany & Hone).
  eexists (sorted (overlay_listing self fs)), _, info.
  split; [exact Hjoin|]. rewrite new_events_app. simpl.
  split; [apply sorted_Permutation|].
  split; [apply sorted_Sorted|].
  split; [intros listing Hl; apply sorted_listing_order; exact Hl|].
  split; [apply lookup_insert_eq|].
  split.
  - rewrite sorted_length. intros Hlt. destruct (Hmany Hlt) as [-> _].
    apply elem_of_app. right. apply list_elem_of_here.
  - intros f Hf. destruct (Hone f Hf) as [-> Hc].
    split; [rewrite lookup_insert_eq, Hf, Hc; reflexivity|].
    split; [apply elem_of_app; right; apply list_elem_of_here|].
    intros p H. invert_elem H.
Qed.

Lemma join_ocred_pdf_sorted_order_witness :
  exists names s',
    join_ocred_pdf example_config (mk_state example_overlays []) = (Return tt, s') /\
    Sorted str_le names /\
    exists info,
      files s' !! ocr_pdf example_config =
        Some (Pdf (overlay_pages example_overlays names) info).
Proof.
  destruct (join_ocred_pdf_sorted_order example_config (mk_state example_overlays []))
    as [(names & s' & info & Hjoin & _ & Hsorted & _ & Hdoc & _) _].
  - vm_compute. discriminate.
  - intros f c Hf Hc. vm_compute in Hf.
    invert_elem Hf; subst f; vm_compute in Hc; injection Hc as <-; exact I.
  - intros H. vm_compute in H. invert_elem H.
  - exists names, s'. split; [exact Hjoin|]. split; [exact Hsorted|].
    exists info. exact Hdoc.
Defined.

(** The assembly of the overlays of pages 1 and 3, the overlay of page 2
    missing: the call returns normally, prints nothing, and the assembled
    document holds pages 1 and 3 only. The property asked of the assembly
    fails on this run. *)
Lemma join_ocred_pdf_skips_missing_overlay :
  example_overlays_hole !! "/tmp/pfx-002.pdf" = None /\
  overlay_listing example_config example_overlays_hole <> [] /\
  join_ocred_pdf example_config (mk_state example_overlays_hole []) =
    (Return tt,
     mk_state (<["/tmp/pfx-ocr.pdf" := Pdf ["page 1"; "page 3"] pypdf2_info]>
                 example_overlays_hole)
              [WritePdf "/tmp/pfx-ocr.pdf"]) /\
  ~ holes_reported example_config (mk_state example_overlays_hole []).
Proof.
  assert (join_ocred_pdf example_config (mk_state example_overlays_hole []) =
          (Return tt,
           mk_state (<["/tmp/pfx-ocr.pdf" := Pdf ["page 1"; "page 3"] pypdf2_info]>
                       example_overlays_hole)
                    [WritePdf "/tmp/pfx-ocr.pdf"])) as Hjoin
    by (vm_compute; reflexivity).
  split; [vm_compute; reflexivity|].
  split; [vm_compute; discriminate|].
  split; [exact Hjoin|].
  unfold holes_reported. rewrite Hjoin. simpl.
  intros [Hr|(e & He & Hmsg)]; [contradiction|].
  unfold new_events in He. simpl in He.
  invert_elem He. subst e. discriminate Hmsg.
Qed.

(** C7 (as the code behaves). With at least one overlay present,
    [join_ocred_pdf] does not look for missing overlays: it returns normally,
    prints nothing on the error stream and nothing through [log] (its only
    lines are the two [debug] lines, the count of the overlays found and the
    final one), and assembles exactly the overlays that exist, in sorted
    order; an expected overlay that is missing is not among them, so its page
    is left out of the assembled document without any report. *)
Theorem join_ocred_pdf_ignores_holes (self : config) (s : state) (expected : list string) :
  overlay_listing self (files s) <> [] ->
  (forall f c, f ∈ overlay_listing self (files s) -> files s !! f = Some c -> is_pdf c) ->
  ocr_pdf self ∉ overlay_listing self (files s) ->
  exists s' info,
    join_ocred_pdf self s = (Return tt, s') /\
    filter (fun e => is_message e = true) (new_events s s') =
      debug_events self (count_message (length (overlay_listing self (files s))))
      ++ debug_events self "Joined ocr'ed PDF files" /\
    (forall msg, (Eprint msg ∉ new_events s s') /\ (Log msg ∉ new_events s s')) /\
    files s' !! ocr_pdf self =
      Some (Pdf (overlay_pages (files s) (sorted (overlay_listing self (files s)))) info) /\
    (forall f, f ∈ expected -> files s !! f = None ->
       f ∉ sorted (overlay_listing self (files s))).
Proof.
  intros Hne Hpdf Hdst. destruct s as [fs t]. simpl in *.
  destruct (join_ocred_pdf_some self fs t Hne Hpdf Hdst)
    as (info & action & Hjoin & Hmany & Hone).
  assert (is_message action = false) as Haction.
  { destruct (decide (1 < length (overlay_listing self fs))%nat) as [Hlt|Hfew].
    - destruct (Hmany Hlt) as [-> _]. reflexivity.
    - assert (exists f, sorted (overlay_listing self fs) = [f]) as [f Hf].
      { pose proof (sorted_length (overlay_listing self fs)) as Hlen.
        destruct (overlay_listing self fs) as [|x l]; [contradiction|].
        destruct (sorted (x :: l)) as [|f [|g l']]; simpl in *; try lia. eauto. }
      destruct (Hone f Hf) as [-> _]. reflexivity. }
  eexists _, info. split; [exact Hjoin|]. rewrite new_events_app. simpl.
  split; [|split; [|split]].
  - unfold debug_events. destruct (verbose_mode self); simpl;
      rewrite ?filter_cons, Haction; simpl; reflexivity.
  - intros msg. split; intros H; invert_elem H; subst action; discriminate Haction.
  - apply lookup_insert_eq.
  - intros f _ Hnone Hin. rewrite sorted_Permutation in Hin.
    apply glob_is_Some in Hin as [c Hc]. congruence.
Qed.

Lemma join_ocred_pdf_ignores_holes_witness :
  exists s',
    join_ocred_pdf example_config (mk_state example_overlays_hole []) = (Return tt, s') /\
    "/tmp/pfx-002.pdf" ∉ sorted (overlay_listing example_config example_overlays_hole).
Proof.
  destruct (join_ocred_pdf_ignores_holes example_config (mk_state example_overlays_hole [])
              ["/tmp/pfx-001.pdf"; "/tmp/pfx-002.pdf"; "/tmp/pfx-003.pdf"])
    as (s' & info & Hjoin & _ & _ & _ & Hskip).
  - vm_compute. discriminate.
  - intros f c Hf Hc. vm_compute in Hf.
    invert_elem Hf; subst f; vm_compute in Hc; injection Hc as <-; exact I.
  - intros H. vm_compute in H. invert_elem H.
  - exists s'. split; [exact Hjoin|].
    apply Hskip; [|vm_compute; reflexivity].
    apply list_elem_of_further, list_elem_of_here.
Defined.

(** ** The final merger *)

Lemma string_app_inv_head (a x y : string) : a +:+ x = a +:+ y -> x = y.
Proof. induction a as [|c a IH]; simpl; [tauto|]. intros [= H]. exact (IH H). Qed.

Section MergeFacts.

Variable run : list string -> gmap string content -> gmap string content.
Variable shlex_split : string -> option (list string).
Variable self : config.

Lemma popen_wait_Some (exe : string) (args : list string) (stderr_log : option string)
    (fs : gmap string content) (t : list event) :
  popen_wait run (Some exe) args stderr_log (mk_state fs t) =
    (Return tt, mk_state (after_popen run (exe :: args) stderr_log fs)
                         (t ++ [Popen (exe :: args) stderr_log])).
Proof. destruct stderr_log; reflexivity. Qed.

Lemma debug_run (msg : string) (fs : gmap string content) (t : list event) :
  debug self msg (mk_state fs t) = (Return tt, mk_state fs (t ++ debug_events self msg)).
Proof.
  unfold debug, debug_events. destruct (verbose_mode self); [reflexivity|].
  rewrite app_nil_r. reflexivity.
Qed.

Lemma cleanup_run (fs : gmap string content) (t : list event) :
  cleanup self (mk_state fs t) =
    (Return tt, mk_state (cleanup_files self fs) (t ++ cleanup_events self)).
Proof.
  unfold cleanup, cleanup_files, cleanup_events.
  destruct (delete_temps self); [|reflexivity].
  rewrite app_nil_r. reflexivity.
Qed.

Lemma isfile_run (path : string) (fs : gmap string content) (t : list event) :
  isfile path (mk_state fs t) =
    (Return (bool_decide (is_Some (fs !! path))), mk_state fs t).
Proof. reflexivity. Qed.

Lemma output_check_absent (fs : gmap string content) (t : list event) :
  fs !! OUTPUT_pdf self = None ->
  output_check self (mk_state fs t) =
    (Exit 1, mk_state (cleanup_files self fs)
                      (t ++ [Eprint fatal_message] ++ cleanup_events self)).
Proof.
  intros Hnone. unfold output_check.
  unfold mbind at 1, M_bind at 1. rewrite isfile_run, Hnone.
  rewrite bool_decide_false by (intros [c Hc]; discriminate). simpl.
  unfold mbind at 1, M_bind at 1. unfold eprint, emit at 1. simpl.
  unfold mbind at 1, M_bind at 1. rewrite cleanup_run. simpl.
  rewrite <- app_assoc. reflexivity.
Qed.

Lemma output_check_present (fs : gmap string content) (t : list event) :
  is_Some (fs !! OUTPUT_pdf self) ->
  output_check self (mk_state fs t) = (Return tt, mk_state fs t).
Proof.
  intros Hsome. unfold output_check.
  unfold mbind at 1, M_bind at 1. rewrite isfile_run.
  rewrite bool_decide_true by exact Hsome. reflexivity.
Qed.

Lemma merge_with_script_run (fs : gmap string content) (t : list event) :
  merge_with_script run self (mk_state fs t) =
    (Return tt, mk_state (after_event run (script_merge_event self) fs)
                         (t ++ debug_events self "Merging with OCR"
                            ++ [script_merge_event self])).
Proof.
  unfold merge_with_script. unfold mbind at 1, M_bind at 1.
  rewrite debug_run, popen_wait_Some, <- app_assoc. reflexivity.
Qed.

Lemma merge_with_pdftk_run (fs : gmap string content) (t : list event) :
  merge_with_pdftk run self (mk_state fs t) =
    (Return tt, mk_state (after_event run (pdftk_merge_event self) fs)
                         (t ++ debug_events self "Merging with OCR with pdftk"
                            ++ [pdftk_merge_event self])).
Proof.
  unfold merge_with_pdftk. unfold mbind at 1, M_bind at 1.
  rewrite debug_run, popen_wait_Some, <- app_assoc. reflexivity.
Qed.

Lemma try_repair_input_and_merge_run (pdf2ps ps2pdf : string)
    (fs : gmap string content) (t : list event) :
  path_pdf2ps self = Some pdf2ps -> path_ps2pdf self = Some ps2pdf ->
  try_repair_input_and_merge run self (mk_state fs t) =
    (Return tt,
     mk_state (after_event run (retry_merge_event self)
                 (after_event run (ps2pdf_event self ps2pdf)
                    (after_event run (pdf2ps_event self pdf2ps) fs)))
              (t ++ debug_events self repair_message
                 ++ [pdf2ps_event self pdf2ps; ps2pdf_event self ps2pdf;
                     retry_merge_event self])).
Proof.
  intros H1 H2. unfold try_repair_input_and_merge. rewrite H1, H2.
  unfold mbind at 1, M_bind at 1. rewrite debug_run.
  unfold mbind at 1, M_bind at 1. rewrite popen_wait_Some.
  unfold mbind at 1, M_bind at 1. rewrite popen_wait_Some.
  rewrite popen_wait_Some. rewrite <- !app_assoc. reflexivity.
Qed.

(** The retried merge is none of the other processes. *)
Lemma retry_merge_event_script : script_merge_event self <> retry_merge_event self.
Proof.
  unfold script_merge_event, retry_merge_event. intros [= _ Hlog].
  do 3 apply string_app_inv_head in Hlog. discriminate Hlog.
Qed.

Lemma retry_merge_event_pdftk : pdftk_merge_event self <> retry_merge_event self.
Proof. unfold pdftk_merge_event, retry_merge_event. intros [= ]. Qed.

Lemma retry_merge_event_pdf2ps (pdf2ps : string) :
  pdf2ps_event self pdf2ps <> retry_merge_event self.
Proof. unfold pdf2ps_event, retry_merge_event. intros [= ]. Qed.

Lemma retry_merge_event_ps2pdf (ps2pdf : string) :
  ps2pdf_event self ps2pdf <> retry_merge_event self.
Proof. unfold ps2pdf_event, retry_merge_event. intros [= ]. Qed.

End MergeFacts.

Section FallbackFacts.

Variable run : list string -> gmap string content -> gmap string content.
Variable shlex_split : string -> option (list string).
Variable self : config.

Lemma repair_retry_count_app (l1 l2 : list event) :
  repair_retry_count self (l1 ++ l2) =
  (repair_retry_count self l1 + repair_retry_count self l2)%nat.
Proof. unfold repair_retry_count. rewrite filter_app, length_app. reflexivity. Qed.

Lemma repair_retry_count_other (e : event) (l : list event) :
  e <> retry_merge_event self ->
  repair_retry_count self (e :: l) = repair_retry_count self l.
Proof.
  intros Hne. unfold repair_retry_count. rewrite filter_cons.
  destruct (decide (e = retry_merge_event self)); [contradiction|reflexivity].
Qed.

Lemma repair_retry_count_retry (l : list event) :
  repair_retry_count self (retry_merge_event self :: l) = S (repair_retry_count self l).
Proof.
  unfold repair_retry_count. rewrite filter_cons.
  destruct (decide (retry_merge_event self = retry_merge_event self));
    [reflexivity|contradiction].
Qed.

Lemma repair_retry_count_debug (msg : string) :
  repair_retry_count self (debug_events self msg) = 0%nat.
Proof.
  unfold debug_events. destruct (verbose_mode self); [|reflexivity].
  rewrite repair_retry_count_other by discriminate. reflexivity.
Qed.

Lemma repair_retry_count_cleanup :
  repair_retry_count self (cleanup_events self) = 0%nat.
Proof.
  unfold cleanup_events. destruct (delete_temps self); [reflexivity|].
  rewrite repair_retry_count_other by discriminate. reflexivity.
Qed.

(** The direct merge by the script, when it leaves no candidate: the repair
    and the retry run, then the candidate is tested again. *)
Lemma build_final_output_script_failed (pdf2ps ps2pdf : string)
    (fs : gmap string content) (t : list event) :
  rebuild_pdf_from_images self = false -> force_rebuild_mode self = false ->
  use_pdftk self = false ->
  path_pdf2ps self = Some pdf2ps -> path_ps2pdf self = Some ps2pdf ->
  after_event run (script_merge_event self) fs !! OUTPUT_pdf self = None ->
  build_final_output run shlex_split self (mk_state fs t) =
    output_check self
      (mk_state (after_event run (retry_merge_event self)
                   (after_event run (ps2pdf_event self ps2pdf)
                      (after_event run (pdf2ps_event self pdf2ps)
                         (after_event run (script_merge_event self) fs))))
                (t ++ (debug_events self "Merging with OCR" ++ [script_merge_event self])
                   ++ debug_events self repair_message
                   ++ [pdf2ps_event self pdf2ps; ps2pdf_event self ps2pdf;
                       retry_merge_event self])).
Proof.
  intros Hrebuild Hforce Hpdftk H1 H2 Hnone.
  unfold build_final_output. rewrite Hrebuild, Hforce, Hpdftk. simpl.
  unfold mbind at 1, M_bind at 1. unfold mbind at 1, M_bind at 1.
  rewrite merge_with_script_run.
  unfold mbind at 1, M_bind at 1. rewrite isfile_run, Hnone.
  rewrite bool_decide_false by (intros [c Hc]; discriminate). simpl.
  rewrite (try_repair_input_and_merge_run run self pdf2ps ps2pdf) by assumption.
  rewrite <- !app_assoc. reflexivity.
Qed.

(** The direct merge by [pdftk]: the candidate is tested at once. *)
Lemma build_final_output_pdftk (fs : gmap string content) (t : list event) :
  rebuild_pdf_from_images self = false -> force_rebuild_mode self = false ->
  use_pdftk self = true ->
  build_final_output run shlex_split self (mk_state fs t) =
    output_check self
      (mk_state (after_event run (pdftk_merge_event self) fs)
                (t ++ debug_events self "Merging with OCR with pdftk"
                   ++ [pdftk_merge_event self])).
Proof.
  intros Hrebuild Hforce Hpdftk.
  unfold build_final_output. rewrite Hrebuild, Hforce, Hpdftk. simpl.
  unfold mbind at 1, M_bind at 1. rewrite merge_with_pdftk_run. reflexivity.
Qed.

(** A run that ends in [build_final_output] never reaches [edit_producer]. *)
Lemma ocr_from_merge_exit (s s' : state) (code : Z) :
  build_final_output run shlex_split self s = (Exit code, s') ->
  ocr_from_merge run shlex_split self s = (Exit code, s').
Proof.
  intros H. unfold ocr_from_merge. unfold mbind at 1, M_bind at 1.
  rewrite H. reflexivity.
Qed.

End FallbackFacts.

(** Counting the retried merges in a trace that is written out. *)
Ltac count_retries pdf2ps ps2pdf :=
  repeat first
    [ rewrite repair_retry_count_app
    | rewrite repair_retry_count_debug
    | rewrite repair_retry_count_cleanup
    | rewrite repair_retry_count_retry
    | rewrite (repair_retry_count_other _ (script_merge_event _))
        by apply retry_merge_event_script
    | rewrite (repair_retry_count_other _ (pdftk_merge_event _))
        by apply retry_merge_event_pdftk
    | rewrite (repair_retry_count_other _ (pdf2ps_event _ pdf2ps))
        by apply retry_merge_event_pdf2ps
    | rewrite (repair_retry_count_other _ (ps2pdf_event _ ps2pdf))
        by apply retry_merge_event_ps2pdf
    | rewrite (repair_retry_count_other _ (Eprint fatal_message)) by discriminate ];
  reflexivity.

(** With option [-p] the merge is done by [pdftk]; when it leaves no
    candidate, nothing is repaired and nothing is retried. *)
Lemma pdftk_merge_failure_not_retried :
  files (merge_with_pdftk run_nothing example_config_pdftk
           (mk_state example_before_merge [])).2
    !! OUTPUT_pdf example_config_pdftk = None /\
  new_events (mk_state example_before_merge [])
    (build_final_output run_nothing split_on_spaces example_config_pdftk
       (mk_state example_before_merge [])).2 =
    [pdftk_merge_event example_config_pdftk; Eprint fatal_message] /\
  repair_retry_count example_config_pdftk
    (new_events (mk_state example_before_merge [])
       (build_final_output run_nothing split_on_spaces example_config_pdftk
          (mk_state example_before_merge [])).2) = 0%nat.
Proof. split; [|split]; vm_compute; reflexivity. Qed.

(** C4 (as the code behaves). On the direct path, with ghostscript installed:
    when the merge is done by the built-in script and leaves no candidate, the
    repair-retry runs exactly once: after the failed merge the processes
    started are [pdf2ps] on the input, [ps2pdf] on the PostScript file it
    wrote, and the same merge on the repaired document, in this order and
    with no other process after them; and if the candidate is still absent
    the pipeline leaves through [exit(1)] before [edit_producer], so that no
    document is written. When the merge is done by [pdftk] and leaves no
    candidate, there is no repair-retry at all: after the one merge process
    the pipeline prints the fatal message and leaves through [exit(1)] at
    once, again without writing a document. *)
Theorem build_final_output_fallback
    (run : list string -> gmap string content -> gmap string content)
    (shlex_split : string -> option (list string))
    (self : config) (s : state) (pdf2ps ps2pdf : string) :
  rebuild_pdf_from_images self = false -> force_rebuild_mode self = false ->
  path_pdf2ps self = Some pdf2ps -> path_ps2pdf self = Some ps2pdf ->
  (use_pdftk self = false ->
   files (merge_with_script run self s).2 !! OUTPUT_pdf self = None ->
   (exists rest,
      new_events s (build_final_output run shlex_split self s).2 =
        debug_events self "Merging with OCR" ++ [script_merge_event self]
        ++ debug_events self repair_message
        ++ [pdf2ps_event self pdf2ps; ps2pdf_event self ps2pdf; retry_merge_event self]
        ++ rest /\
      forall argv stderr_log, Popen argv stderr_log ∉ rest) /\
   repair_retry_count self
     (new_events s (build_final_output run shlex_split self s).2) = 1%nat /\
   (files (try_repair_input_and_merge run self (merge_with_script run self s).2).2
      !! OUTPUT_pdf self = None ->
    exists s',
      ocr_from_merge run shlex_split self s = (Exit 1, s') /\
      exit_status (ocr_from_merge run shlex_split self s).1 <> 0 /\
      (forall p, WritePdf p ∉ new_events s s'))) /\
  (use_pdftk self = true ->
   files (merge_with_pdftk run self s).2 !! OUTPUT_pdf self = None ->
   new_events s (build_final_output run shlex_split self s).2 =
     debug_events self "Merging with OCR with pdftk"
     ++ [pdftk_merge_event self; Eprint fatal_message] ++ cleanup_events self /\
   repair_retry_count self
     (new_events s (build_final_output run shlex_split self s).2) = 0%nat /\
   exists s',
     ocr_from_merge run shlex_split self s = (Exit 1, s') /\
     exit_status (ocr_from_merge run shlex_split self s).1 <> 0 /\
     (forall p, WritePdf p ∉ new_events s s')).
Proof.
  intros Hrebuild Hforce H1 H2. destruct s as [fs t]. split.
  - intros Hpdftk. rewrite merge_with_script_run. cbn [snd files]. intros Hnone.
    rewrite (build_final_output_script_failed run shlex_split self pdf2ps ps2pdf)
      by assumption.
    rewrite (try_repair_input_and_merge_run run self pdf2ps ps2pdf) by assumption.
    cbn [snd files].
    set (fs4 := after_event run (retry_merge_event self) _).
    split; [|split].
    + destruct (fs4 !! OUTPUT_pdf self) as [c|] eqn:Hout.
      * rewrite output_check_present by (rewrite Hout; eauto).
        cbn [snd]. rewrite new_events_app. exists [].
        split; [rewrite <- !app_assoc; reflexivity|].
        intros argv stderr_log H. invert_elem H.
      * rewrite output_check_absent by exact Hout.
        cbn [snd]. rewrite <- app_assoc, new_events_app.
        exists ([Eprint fatal_message] ++ cleanup_events self).
        split; [rewrite <- !app_assoc; reflexivity|].
        intros argv stderr_log H. invert_elem H.
    + destruct (fs4 !! OUTPUT_pdf self) as [c|] eqn:Hout.
      * rewrite output_check_present by (rewrite Hout; eauto).
        cbn [snd]. rewrite new_events_app. count_retries pdf2ps ps2pdf.
      * rewrite output_check_absent by exact Hout.
        cbn [snd]. rewrite <- app_assoc, new_events_app. count_retries pdf2ps ps2pdf.
    + intros Hout.
      pose proof (build_final_output_script_failed run shlex_split self pdf2ps ps2pdf
                    fs t Hrebuild Hforce Hpdftk H1 H2 Hnone) as Hbuild.
      rewrite output_check_absent in Hbuild by exact Hout.
      apply ocr_from_merge_exit in Hbuild.
      eexists. split; [exact Hbuild|]. rewrite Hbuild. cbn [fst exit_status].
      split; [lia|]. rewrite <- app_assoc, new_events_app.
      intros p H. unfold script_merge_event, pdf2ps_event, ps2pdf_event,
        retry_merge_event in H. invert_elem H.
  - intros Hpdftk. rewrite merge_with_pdftk_run. cbn [snd files]. intros Hnone.
    pose proof (build_final_output_pdftk run shlex_split self fs t
                  Hrebuild Hforce Hpdftk) as Hbuild.
    rewrite output_check_absent in Hbuild by exact Hnone.
    rewrite Hbuild. cbn [snd].
    apply ocr_from_merge_exit in Hbuild.
    rewrite <- app_assoc, new_events_app. split; [|split].
    + rewrite <- !app_assoc. reflexivity.
    + count_retries pdf2ps ps2pdf.
    + eexists. split; [exact Hbuild|]. rewrite Hbuild. cbn [fst exit_status].
      split; [lia|]. rewrite <- app_assoc, new_events_app.
      intros p H. unfold pdftk_merge_event in H. invert_elem H.
Qed.

Lemma build_final_output_fallback_witness :
  (exists rest,
     new_events (mk_state example_before_merge [])
       (build_final_output run_nothing split_on_spaces example_config
          (mk_state example_before_merge [])).2 =
       [script_merge_event example_config;
        pdf2ps_event example_config "/usr/bin/pdf2ps";
        ps2pdf_event example_config "/usr/bin/ps2pdf";
        retry_merge_event example_config] ++ rest) /\
  repair_retry_count example_config
    (new_events (mk_state example_before_merge [])
       (build_final_output run_nothing split_on_spaces example_config
          (mk_state example_before_merge [])).2) = 1%nat /\
  exists s',
    ocr_from_merge run_nothing split_on_spaces example_config
      (mk_state example_before_merge []) = (Exit 1, s').
Proof.
  destruct (build_final_output_fallback run_nothing split_on_spaces example_config
              (mk_state example_before_merge []) "/usr/bin/pdf2ps" "/usr/bin/ps2pdf"
              ltac:(reflexivity) ltac:(reflexivity) ltac:(reflexivity) ltac:(reflexivity))
    as [Hscript _].
  destruct (Hscript ltac:(reflexivity) ltac:(vm_compute; reflexivity))
    as ((rest & Hevents & _) & Hcount & Hfatal).
  split; [exists rest; exact Hevents|].
  split; [exact Hcount|].
  destruct (Hfatal ltac:(vm_compute; reflexivity)) as (s' & Hexit & _).
  exists s'. exact Hexit.
Defined.

(** Without ghostscript the repair cannot start: [Popen] raises on the
    missing executable. *)
Lemma try_repair_input_and_merge_without_ghostscript
    (run : list string -> gmap string content -> gmap string content)
    (self : config) (s : state) :
  path_pdf2ps self = None ->
  (try_repair_input_and_merge run self s).1 = Raise TypeError.
Proof.
  intros Hnone. destruct s as [fs t]. unfold try_repair_input_and_merge.
  unfold mbind at 1, M_bind at 1. rewrite debug_run.
  unfold mbind at 1, M_bind at 1. rewrite Hnone. reflexivity.
Qed.

(** ** What a stage can add to the trace *)

Section Emits.

Variable P : event -> Prop.

Lemma emits_ret {A : Type} (a : A) : emits P (mret a : M A).
Proof. intros s. exists []. rewrite app_nil_r. split; [reflexivity|constructor]. Qed.

Lemma emits_raise {A : Type} (e : exn) : emits P (raise e : M A).
Proof. intros s. exists []. rewrite app_nil_r. split; [reflexivity|constructor]. Qed.

Lemma emits_exit {A : Type} (code : Z) : emits P (exit code : M A).
Proof. intros s. exists []. rewrite app_nil_r. split; [reflexivity|constructor]. Qed.

Lemma emits_get_files : emits P get_files.
Proof. intros s. exists []. rewrite app_nil_r. split; [reflexivity|constructor]. Qed.

Lemma emits_put_files (fs : gmap string content) : emits P (put_files fs).
Proof. intros s. exists []. rewrite app_nil_r. split; [reflexivity|constructor]. Qed.

Lemma emits_emit (e : event) : P e -> emits P (emit e).
Proof. intros He s. exists [e]. split; [reflexivity|]. constructor; [exact He|constructor]. Qed.

Lemma emits_bind {A B : Type} (m : M A) (k : A -> M B) :
  emits P m -> (forall a, emits P (k a)) -> emits P (m ≫= k).
Proof.
  intros Hm Hk s. destruct (Hm s) as (ev1 & Ht1 & Hp1).
  unfold mbind, M_bind. destruct (m s) as [[a|e|c] s1]; simpl in *.
  - destruct (Hk a s1) as (ev2 & Ht2 & Hp2).
    exists (ev1 ++ ev2). rewrite Ht2, Ht1, app_assoc.
    split; [reflexivity|]. apply Forall_app; split; assumption.
  - exists ev1. split; assumption.
  - exists ev1. split; assumption.
Qed.

Lemma emits_new_events {A : Type} (m : M A) (s : state) :
  emits P m -> Forall P (new_events s (m s).2).
Proof.
  intros Hm. destruct (Hm s) as (events & Ht & Hp).
  unfold new_events. rewrite Ht, drop_app_length. exact Hp.
Qed.

End Emits.

Lemma emits_trace {A : Type} (P : event -> Prop) (m : M A) (s : state) :
  emits P m -> exists events, trace (m s).2 = trace s ++ events.
Proof. intros Hm. destruct (Hm s) as (events & Ht & _). eauto. Qed.

(** One step of a proof that a method emits only events of some kind. *)
Ltac emits_step :=
  first
    [ apply emits_bind; [|intros ?]
    | apply emits_ret
    | apply emits_raise
    | apply emits_exit
    | apply emits_get_files
    | apply emits_put_files
    | apply emits_emit
    | match goal with
      | |- emits _ (if ?b then _ else _) => destruct b
      | |- emits _ (match ?x with _ => _ end) => destruct x
      end ].

Section EmitsMethods.

Variable run : list string -> gmap string content -> gmap string content.
Variable shlex_split : string -> option (list string).
Variable self : config.
Variable P : event -> Prop.

Hypothesis P_debug : forall msg, P (Debug msg).
Hypothesis P_popen : forall argv stderr_log, P (Popen argv stderr_log).

Lemma emits_debug (msg : string) : emits P (debug self msg).
Proof. unfold debug. repeat emits_step. apply P_debug. Qed.

Lemma emits_isfile (path : string) : emits P (isfile path).
Proof. unfold isfile. repeat emits_step. Qed.

Lemma emits_popen_wait (exe : option string) (args : list string)
    (stderr_log : option string) :
  emits P (popen_wait run exe args stderr_log).
Proof. unfold popen_wait, open_log. repeat emits_step. apply P_popen. Qed.

Lemma emits_cleanup :
  P (Eprint ("Temporary files kept in " +:+ tmp_dir self)) -> emits P (cleanup self).
Proof. intros Hp. unfold cleanup, eprint. repeat emits_step. exact Hp. Qed.

Lemma emits_output_check :
  P (Eprint fatal_message) ->
  P (Eprint ("Temporary files kept in " +:+ tmp_dir self)) ->
  emits P (output_check self).
Proof.
  intros Hf Hc. unfold output_check, eprint.
  apply emits_bind; [apply emits_isfile|]. intros created.
  destruct (negb created); [|apply emits_ret].
  apply emits_bind; [apply emits_emit, Hf|]. intros _.
  apply emits_bind; [apply emits_cleanup, Hc|]. intros _. apply emits_exit.
Qed.

Lemma emits_merge_with_script : emits P (merge_with_script run self).
Proof.
  unfold merge_with_script.
  apply emits_bind; [apply emits_debug|]. intros _. apply emits_popen_wait.
Qed.

Lemma emits_merge_with_pdftk : emits P (merge_with_pdftk run self).
Proof.
  unfold merge_with_pdftk.
  apply emits_bind; [apply emits_debug|]. intros _. apply emits_popen_wait.
Qed.

Lemma emits_try_repair_input_and_merge : emits P (try_repair_input_and_merge run self).
Proof.
  unfold try_repair_input_and_merge.
  apply emits_bind; [apply emits_debug|]. intros _.
  apply emits_bind; [apply emits_popen_wait|]. intros _.
  apply emits_bind; [apply emits_popen_wait|]. intros _.
  apply emits_popen_wait.
Qed.

(** The part of [rebuild_and_merge] after its warning. *)
Lemma emits_rebuild_and_merge :
  P (Eprint rebuild_warning) -> P (Log "Rebuilding PDF from images") ->
  emits P (rebuild_and_merge run shlex_split self).
Proof.
  intros Hw Hl. unfold rebuild_and_merge, eprint, log.
  apply emits_bind; [apply emits_emit, Hw|]. intros _.
  apply emits_bind; [apply emits_emit, Hl|]. intros _.
  destruct (shlex_split _); [|apply emits_raise].
  apply emits_bind; [apply emits_get_files|]. intros fs.
  apply emits_bind; [apply emits_popen_wait|]. intros _.
  apply emits_bind; [apply emits_debug|]. intros _.
  apply emits_popen_wait.
Qed.

End EmitsMethods.

(** ** Direct merge or rebuild *)

Lemma bind_assoc_run {A B C : Type} (m : M A) (k : A -> M B) (k' : B -> M C) (s : state) :
  ((m ≫= k) ≫= k') s = (m ≫= fun a => k a ≫= k') s.
Proof. unfold mbind, M_bind. destruct (m s) as [[a|e|c] s1]; reflexivity. Qed.

Lemma bind_emit_run {A : Type} (e : event) (k : unit -> M A)
    (fs : gmap string content) (t : list event) :
  (emit e ≫= k) (mk_state fs t) = k tt (mk_state fs (t ++ [e])).
Proof. reflexivity. Qed.

Lemma rebuild_warning_not_fatal : Eprint fatal_message <> Eprint rebuild_warning.
Proof. discriminate. Qed.

Lemma rebuild_warning_not_cleanup (dir : string) :
  Eprint ("Temporary files kept in " +:+ dir) <> Eprint rebuild_warning.
Proof. intros H. discriminate H. Qed.

Section RebuildFacts.

Variable run : list string -> gmap string content -> gmap string content.
Variable shlex_split : string -> option (list string).
Variable self : config.

(** On the direct path the warning of the rebuild is never printed. *)
Lemma build_final_output_direct_silent (s : state) :
  rebuild_pdf_from_images self = false -> force_rebuild_mode self = false ->
  Eprint rebuild_warning ∉ new_events s (build_final_output run shlex_split self s).2.
Proof.
  intros Hrebuild Hforce Hin.
  assert (emits (fun e => e <> Eprint rebuild_warning)
            (build_final_output run shlex_split self)) as Hemits.
  { unfold build_final_output. rewrite Hrebuild, Hforce. simpl.
    apply emits_bind.
    - destruct (use_pdftk self).
      + apply emits_merge_with_pdftk; discriminate.
      + apply emits_bind; [apply emits_merge_with_script; discriminate|].
        intros _. apply emits_bind; [apply emits_isfile|]. intros created.
        destruct (negb created); [|apply emits_ret].
        apply emits_try_repair_input_and_merge; discriminate.
    - intros _. apply emits_output_check;
        [apply rebuild_warning_not_fatal|apply rebuild_warning_not_cleanup]. }
  pose proof (emits_new_events _ _ s Hemits) as Hall.
  rewrite Forall_forall in Hall. exact (Hall _ Hin eq_refl).
Qed.

(** On the rebuild path it is the first thing printed. *)
Lemma build_final_output_rebuild_warns (s : state) :
  negb (rebuild_pdf_from_images self) && negb (force_rebuild_mode self) = false ->
  Eprint rebuild_warning ∈ new_events s (build_final_output run shlex_split self s).2.
Proof.
  intros Hcond. destruct s as [fs t].
  unfold build_final_output. rewrite Hcond.
  unfold rebuild_and_merge, eprint. rewrite bind_assoc_run, bind_emit_run.
  match goal with
  | |- _ ∈ new_events _ (?m ?s1).2 =>
      destruct (emits_trace (fun _ => True) m s1) as [events Hevents]
  end.
  - apply emits_bind.
    + unfold log. apply emits_bind; [apply emits_emit; exact I|]. intros _.
      destruct (shlex_split _); [|apply emits_raise].
      apply emits_bind; [apply emits_get_files|]. intros fs'.
      apply emits_bind; [apply emits_popen_wait; intros; exact I|]. intros _.
      apply emits_bind; [apply emits_debug; intros; exact I|]. intros _.
      apply emits_popen_wait; intros; exact I.
    + intros _. apply emits_output_check; exact I.
  - unfold new_events. rewrite Hevents. cbn [trace].
    rewrite <- app_assoc, drop_app_length. apply list_elem_of_here.
Qed.

End RebuildFacts.

(** C5. [build_final_output] rebuilds the PDF from the page images (it prints
    the warning of [rebuild_and_merge]) if and only if the input is encrypted,
    or its mime type is not application/pdf, or deskew was applied, or the
    force-rebuild flag is set; the first three are what makes
    [rebuild_pdf_from_images] true, which holds for an encrypted input with
    deskew off and force-rebuild off. *)
Theorem rebuild_from_images_iff
    (run : list string -> gmap string content -> gmap string content)
    (shlex_split : string -> option (list string))
    (self : config) (s : state) :
  (Eprint rebuild_warning ∈ new_events s (build_final_output run shlex_split self s).2 <->
   (input_file_is_encrypted self = true \/
    input_file_type self <> "application/pdf" \/
    use_deskew_mode self = true) \/
   force_rebuild_mode self = true) /\
  (rebuild_pdf_from_images self = true <->
   input_file_is_encrypted self = true \/
   input_file_type self <> "application/pdf" \/
   use_deskew_mode self = true) /\
  (input_file_is_encrypted self = true ->
   rebuild_pdf_from_images self = true /\
   Eprint rebuild_warning ∈ new_events s (build_final_output run shlex_split self s).2) /\
  (input_file_is_encrypted example_config_encrypted = true /\
   use_deskew_mode example_config_encrypted = false /\
   force_rebuild_mode example_config_encrypted = false /\
   rebuild_pdf_from_images example_config_encrypted = true).
Proof.
  assert (rebuild_pdf_from_images self = true <->
          input_file_is_encrypted self = true \/
          input_file_type self <> "application/pdf" \/
          use_deskew_mode self = true) as Hlocal.
  { unfold rebuild_pdf_from_images.
    destruct (input_file_is_encrypted self), (use_deskew_mode self),
      (String.eqb_spec (input_file_type self) "application/pdf"); simpl;
      split; auto; intros [H|[H|H]]; try discriminate; contradiction. }
  split; [|split; [exact Hlocal|split; [|repeat split]]].
  - split.
    + intros Hin.
      destruct (rebuild_pdf_from_images self) eqn:Hrebuild.
      * left. apply Hlocal. reflexivity.
      * destruct (force_rebuild_mode self) eqn:Hforce; [right; reflexivity|].
        exfalso. revert Hin. apply build_final_output_direct_silent; assumption.
    + intros Hcond. apply build_final_output_rebuild_warns.
      destruct Hcond as [Hcond|Hforce].
      * apply Hlocal in Hcond. rewrite Hcond. reflexivity.
      * rewrite Hforce. apply andb_false_r.
  - intros Henc.
    assert (rebuild_pdf_from_images self = true) as Hrebuild
      by (apply Hlocal; left; exact Henc).
    split; [exact Hrebuild|].
    apply build_final_output_rebuild_warns. rewrite Hrebuild. reflexivity.
Qed.

(** ** The presets of the rebuild *)

Lemma rebuild_and_merge_run
    (run : list string -> gmap string content -> gmap string content)
    (shlex_split : string -> option (list string))
    (self : config) (params : list string) (fs : gmap string content) (t : list event) :
  shlex_split (select_convert_params (user_convert_params self)) = Some params ->
  rebuild_and_merge run shlex_split self (mk_state fs t) =
    (Return tt,
     mk_state (after_event run (rebuild_merge_event self)
                 (after_event run (convert_event self params fs) fs))
              (t ++ [Eprint rebuild_warning; Log "Rebuilding PDF from images";
                     convert_event self params fs]
                 ++ debug_events self "Merging with OCR"
                 ++ [rebuild_merge_event self])).
Proof.
  intros Hsplit. unfold rebuild_and_merge, eprint, log.
  rewrite bind_emit_run, bind_emit_run, Hsplit.
  unfold mbind at 1, M_bind at 1. unfold get_files at 1. cbn [files].
  unfold mbind at 1, M_bind at 1. rewrite popen_wait_Some.
  unfold mbind at 1, M_bind at 1. rewrite debug_run, popen_wait_Some.
  rewrite <- !app_assoc. reflexivity.
Qed.

(** X8. What the selectors other than [grayscale] and its misspelling give:
    the documented preset for [fast], [best], [jpeg] and [jpeg2000], the best
    preset for the empty selector, and the selector itself as a literal
    otherwise. *)
Lemma select_convert_params_documented (selector : string) :
  selector <> "grayscale" -> selector <> "grasyscale" ->
  select_convert_params selector =
    match documented_preset selector with
    | Some preset => preset
    | None => if String.eqb selector "" then preset_best else selector
    end.
Proof.
  intros Hgray Htypo. unfold select_convert_params, documented_preset.
  destruct (String.eqb_spec selector "fast") as [->|_]; [reflexivity|].
  destruct (String.eqb_spec selector "best") as [->|_]; [reflexivity|].
  destruct (String.eqb_spec selector "grasyscale") as [->|_]; [contradiction|].
  destruct (String.eqb_spec selector "grayscale") as [->|_]; [contradiction|].
  destruct (String.eqb_spec selector "jpeg") as [->|_]; [reflexivity|].
  destruct (String.eqb_spec selector "jpeg2000") as [->|_]; reflexivity.
Qed.

(** C8. The selector [grayscale], documented by the help text of [-g] as the
    grayscale-dilate preset, is compared with the misspelt [grasyscale] in
    [rebuild_and_merge]: it falls through to the literal case, so that
    [convert] receives the word [grayscale] itself as its parameters, while
    the misspelt word selects the preset. *)
Theorem grayscale_selector_falls_through :
  documented_preset "grayscale" = Some preset_grayscale /\
  preset_grayscale = "-threshold 85% -morphology Dilate Diamond -compress Group4" /\
  select_convert_params "grayscale" = "grayscale" /\
  select_convert_params "grayscale" <> preset_grayscale /\
  select_convert_params "grasyscale" = preset_grayscale /\
  new_events (mk_state example_images [])
    (rebuild_and_merge run_nothing split_on_spaces example_config_grayscale
       (mk_state example_images [])).2 =
    [Eprint rebuild_warning; Log "Rebuilding PDF from images";
     Popen ["/usr/bin/convert"; "/tmp/pfx-001.jpg"; "/tmp/pfx-002.jpg"; "/tmp/pfx-003.jpg";
            "grayscale"; "/tmp/pfx-input_unprotected.pdf"] None;
     rebuild_merge_event example_config_grayscale].
Proof.
  split; [reflexivity|]. split; [reflexivity|]. split; [reflexivity|].
  split; [discriminate|]. split; [reflexivity|]. vm_compute. reflexivity.
Qed.

(** C10. Without a rebuild-preset selector (the empty string), the rebuild
    uses the best-quality bitonal preset: [convert] is run on the sorted page
    images with the words of
    [-colors 2 -colorspace gray -normalize -threshold 60% -compress Group4]. *)
Theorem rebuild_default_preset
    (run : list string -> gmap string content -> gmap string content)
    (shlex_split : string -> option (list string))
    (self : config) (s : state) (params : list string) :
  user_convert_params self = "" ->
  shlex_split "-colors 2 -colorspace gray -normalize -threshold 60% -compress Group4"
    = Some params ->
  select_convert_params (user_convert_params self) =
    "-colors 2 -colorspace gray -normalize -threshold 60% -compress Group4" /\
  exists s',
    rebuild_and_merge run shlex_split self s = (Return tt, s') /\
    new_events s s' =
      [Eprint rebuild_warning; Log "Rebuilding PDF from images";
       convert_event self params (files s)]
      ++ debug_events self "Merging with OCR"
      ++ [rebuild_merge_event self].
Proof.
  intros Huser Hsplit. rewrite Huser. split; [reflexivity|].
  destruct s as [fs t]. eexists. split.
  - apply rebuild_and_merge_run. rewrite Huser. exact Hsplit.
  - rewrite new_events_app. reflexivity.
Qed.

Lemma rebuild_default_preset_witness :
  exists s',
    rebuild_and_merge run_nothing split_on_spaces example_config_rebuild
      (mk_state example_images []) = (Return tt, s') /\
    new_events (mk_state example_images []) s' =
      [Eprint rebuild_warning; Log "Rebuilding PDF from images";
       Popen ["/usr/bin/convert"; "/tmp/pfx-001.jpg"; "/tmp/pfx-002.jpg"; "/tmp/pfx-003.jpg";
              "-colors"; "2"; "-colorspace"; "gray"; "-normalize"; "-threshold"; "60%";
              "-compress"; "Group4"; "/tmp/pfx-input_unprotected.pdf"] None;
       rebuild_merge_event example_config_rebuild].
Proof.
  destruct (rebuild_default_preset run_nothing split_on_spaces example_config_rebuild
              (mk_state example_images [])
              ["-colors"; "2"; "-colorspace"; "gray"; "-normalize"; "-threshold"; "60%";
               "-compress"; "Group4"]
              ltac:(reflexivity) ltac:(vm_compute; reflexivity))
    as [_ (s' & Hrun & Hevents)].
  exists s'. split; [exact Hrun|]. rewrite Hevents. vm_compute. reflexivity.
Defined.

(** ** The producer metadata *)

(** One turn of the loop, by the kind of entry. *)
Lemma copy_property_producer (info : gmap string pyval) (rp : bool) (text : string)
    (s : state) :
  copy_property (info, rp) (producer_key, PStr text) s =
    (Return (<[producer_key := PStr (text +:+ "; " +:+ our_name)]> info, true), s).
Proof. reflexivity. Qed.

Lemma copy_property_other (info : gmap string pyval) (rp : bool) (key : string)
    (value : pyval) (fs : gmap string content) (t : list event) :
  key <> producer_key ->
  copy_property (info, rp) (key, value) (mk_state fs t) =
    if representable value
    then (Return (<[key := value]> info, rp), mk_state fs t)
    else (Return (info, rp), mk_state fs (t ++ [not_copied_warning key])).
Proof.
  intros Hne. unfold copy_property.
  destruct (String.eqb_spec key producer_key) as [|_]; [contradiction|].
  destruct value; reflexivity.
Qed.

(** The loop over a source dictionary whose producer, if any, is text. *)
Lemma copy_properties_run (entries : list (string * pyval)) :
  forall (info : gmap string pyval) (rp : bool) (fs : gmap string content) (t : list event),
    NoDup entries.*1 ->
    (forall v, (producer_key, v) ∈ entries -> exists text, v = PStr text) ->
    exists info' events,
      copy_properties (info, rp) entries (mk_state fs t) =
        (Return (info', rp || bool_decide (producer_key ∈ entries.*1)),
         mk_state fs (t ++ events)) /\
      (forall k, k ∉ entries.*1 -> info' !! k = info !! k) /\
      (forall text, (producer_key, PStr text) ∈ entries ->
         info' !! producer_key = Some (PStr (text +:+ "; " +:+ our_name))) /\
      (forall k v, k <> producer_key -> (k, v) ∈ entries ->
         info' !! k = if representable v then Some v else info !! k) /\
      (forall k v, k <> producer_key -> (k, v) ∈ entries -> representable v = false ->
         not_copied_warning k ∈ events) /\
      Forall (fun e => exists k, e = not_copied_warning k) events.
Proof.
  induction entries as [|[key value] entries IH]; intros info rp fs t Hnodup Htext.
  - exists info, []. rewrite app_nil_r, orb_false_r.
    split; [reflexivity|]. split; [reflexivity|].
    split; [intros text H; invert_elem H|].
    split; [intros k v _ H; invert_elem H|].
    split; [intros k v _ H; invert_elem H|constructor].
  - rewrite fmap_cons in Hnodup. apply NoDup_cons in Hnodup as [Hfresh Hnodup].
    simpl in Hfresh.
    assert (forall v, (key, v) ∉ entries) as Hfresh'.
    { intros v Hin. apply Hfresh.
      apply (list_elem_of_fmap_2 fst) in Hin. exact Hin. }
    assert (forall v, (producer_key, v) ∈ entries -> exists text, v = PStr text) as Htext'.
    { intros v Hin. apply Htext. apply list_elem_of_further. exact Hin. }
    cbn [copy_properties]. unfold mbind at 1, M_bind at 1.
    destruct (decide (key = producer_key)) as [->|Hne].
    + destruct (Htext value ltac:(apply list_elem_of_here)) as [text ->].
      rewrite copy_property_producer.
      destruct (IH (<[producer_key := PStr (text +:+ "; " +:+ our_name)]> info) true fs t
                  Hnodup Htext')
        as (info' & events & Hrun & Hout & Hprod & Hother & Hwarn & Hall).
      exists info', events.
      rewrite (bool_decide_true (producer_key ∈ ((producer_key, PStr text) :: entries).*1))
        by (rewrite fmap_cons; apply list_elem_of_here).
      rewrite orb_true_r, Hrun. cbn [orb].
      split; [reflexivity|].
      split; [|split; [|split; [|split]]].
      * intros k Hk. rewrite fmap_cons, not_elem_of_cons in Hk.
        destruct Hk as [Hk1 Hk2]. simpl in Hk1.
        rewrite (Hout k Hk2). apply lookup_insert_ne. congruence.
      * intros text' Hin. apply elem_of_cons in Hin as [Heq|Hin].
        -- injection Heq as <-. rewrite (Hout _ Hfresh). apply lookup_insert_eq.
        -- exfalso. exact (Hfresh' _ Hin).
      * intros k v Hk Hin. apply elem_of_cons in Hin as [Heq|Hin]; [congruence|].
        rewrite (Hother k v Hk Hin).
        destruct (representable v); [reflexivity|].
        apply lookup_insert_ne. congruence.
      * intros k v Hk Hin Hrep. apply elem_of_cons in Hin as [Heq|Hin]; [congruence|].
        exact (Hwarn k v Hk Hin Hrep).
      * exact Hall.
    + rewrite (copy_property_other info rp key value fs t Hne).
      assert (bool_decide (producer_key ∈ ((key, value) :: entries).*1) =
              bool_decide (producer_key ∈ entries.*1)) as Hdec.
      { apply bool_decide_ext. rewrite fmap_cons, elem_of_cons. simpl.
        split; [intros [H|H]; [congruence|exact H]|auto]. }
      rewrite Hdec.
      destruct (representable value) eqn:Hrep.
      * destruct (IH (<[key := value]> info) rp fs t Hnodup Htext')
          as (info' & events & Hrun & Hout & Hprod & Hother & Hwarn & Hall).
        exists info', events. rewrite Hrun.
        split; [reflexivity|].
        split; [|split; [|split; [|split]]].
        -- intros k Hk. rewrite fmap_cons, not_elem_of_cons in Hk.
           destruct Hk as [Hk1 Hk2]. simpl in Hk1.
           rewrite (Hout k Hk2). apply lookup_insert_ne. congruence.
        -- intros text Hin. apply elem_of_cons in Hin as [Heq|Hin]; [congruence|].
           exact (Hprod text Hin).
        -- intros k v Hk Hin. apply elem_of_cons in Hin as [Heq|Hin].
           ++ injection Heq as -> ->. rewrite Hrep, (Hout _ Hfresh).
              apply lookup_insert_eq.
           ++ rewrite (Hother k v Hk Hin).
              destruct (representable v); [reflexivity|].
              apply lookup_insert_ne. intros ->. exact (Hfresh' _ Hin).
        -- intros k v Hk Hin Hrep'. apply elem_of_cons in Hin as [Heq|Hin].
           ++ injection Heq as -> ->. congruence.
           ++ exact (Hwarn k v Hk Hin Hrep').
        -- exact Hall.
      * destruct (IH info rp fs (t ++ [not_copied_warning key]) Hnodup Htext')
          as (info' & events & Hrun & Hout & Hprod & Hother & Hwarn & Hall).
        exists info', (not_copied_warning key :: events). rewrite Hrun.
        rewrite <- app_assoc.
        split; [reflexivity|].
        split; [|split; [|split; [|split]]].
        -- intros k Hk. rewrite fmap_cons, not_elem_of_cons in Hk.
           destruct Hk as [Hk1 Hk2]. exact (Hout k Hk2).
        -- intros text Hin. apply elem_of_cons in Hin as [Heq|Hin]; [congruence|].
           exact (Hprod text Hin).
        -- intros k v Hk Hin. apply elem_of_cons in Hin as [Heq|Hin].
           ++ injection Heq as -> ->. rewrite Hrep. exact (Hout _ Hfresh).
           ++ exact (Hother k v Hk Hin).
        -- intros k v Hk Hin Hrep'. apply elem_of_cons in Hin as [Heq|Hin].
           ++ injection Heq as -> ->. apply list_elem_of_here.
           ++ apply list_elem_of_further. exact (Hwarn k v Hk Hin Hrep').
        -- constructor; [eauto|exact Hall].
Qed.

(** X5. The producer policy of [edit_producer] on a source dictionary whose
    producer, if any, is a text string: the signature is appended to the
    source producer, or set alone when the source has none; every other entry
    is copied when [createStringObject] accepts its value and dropped with a
    warning otherwise; the final document is written in every case. *)
Lemma edit_producer_text_producer (self : config) (fs : gmap string content)
    (t : list event) (pages : list page) (info0 : gmap string pyval)
    (metadata : list (string * pyval)) :
  fs !! OUTPUT_pdf self = Some (Pdf pages info0) ->
  input_file_metadata self = Some metadata ->
  NoDup metadata.*1 ->
  (forall v, (producer_key, v) ∈ metadata -> exists text, v = PStr text) ->
  exists info events,
    edit_producer self (mk_state fs t) =
      (Return tt,
       mk_state (<[output_file self := Pdf pages info]> fs)
                (t ++ debug_events self "Editing producer" ++ events
                   ++ [WritePdf (output_file self)])) /\
    (forall text, (producer_key, PStr text) ∈ metadata ->
       info !! producer_key = Some (PStr (text +:+ "; " +:+ our_name))) /\
    (producer_key ∉ metadata.*1 -> info !! producer_key = Some (PStr our_name)) /\
    (forall k v, k <> producer_key -> (k, v) ∈ metadata ->
       info !! k = if representable v then Some v else None) /\
    (forall k v, k <> producer_key -> (k, v) ∈ metadata -> representable v = false ->
       not_copied_warning k ∈ events) /\
    Forall (fun e => exists k, e = not_copied_warning k) events.
Proof.
  intros Hout Hmeta Hnodup Htext.
  destruct (copy_properties_run metadata ∅ false fs
              (t ++ debug_events self "Editing producer") Hnodup Htext)
    as (info' & events & Hrun & Hkeep & Hprod & Hother & Hwarn & Hall).
  set (rp := bool_decide (producer_key ∈ metadata.*1)) in *.
  set (info_out := if negb rp then <[producer_key := PStr our_name]> info' else info').
  exists (info_out ∪ pypdf2_info), events.
  split; [|split; [|split; [|split; [|split]]]].
  - unfold edit_producer. unfold mbind at 1, M_bind at 1. rewrite debug_run.
    unfold mbind at 1, M_bind at 1. unfold get_files at 1. cbn [files].
    rewrite Hout, Hmeta. unfold mbind at 1, M_bind at 1. rewrite Hrun.
    cbn [orb]. unfold write_pdf, mbind, M_bind, get_files, put_files, emit.
    cbn [files trace]. rewrite <- !app_assoc. reflexivity.
  - intros text Hin. apply lookup_union_Some_l.
    assert (rp = true) as ->.
    { apply bool_decide_eq_true. apply (list_elem_of_fmap_2 fst) in Hin. exact Hin. }
    exact (Hprod text Hin).
  - intros Habsent. apply lookup_union_Some_l.
    assert (rp = false) as -> by (apply bool_decide_eq_false; exact Habsent).
    apply lookup_insert_eq.
  - intros k v Hk Hin.
    rewrite lookup_union_l
      by (apply lookup_singleton_ne; intros Heq; apply Hk; rewrite <- Heq; reflexivity).
    assert (info_out !! k = info' !! k) as ->.
    { unfold info_out. destruct (negb rp); [|reflexivity].
      apply lookup_insert_ne. congruence. }
    rewrite (Hother k v Hk Hin). rewrite lookup_empty. reflexivity.
  - exact Hwarn.
  - exact Hall.
Qed.

(** X6. Without source metadata (it is [None], or it was not read because the
    input is encrypted) the final document is written with the pages of the
    merged candidate and the signature alone as its producer. *)
Lemma edit_producer_no_metadata (self : config) (fs : gmap string content)
    (t : list event) (pages : list page) (info0 : gmap string pyval) :
  fs !! OUTPUT_pdf self = Some (Pdf pages info0) ->
  input_file_metadata self = None \/ input_file_metadata self = Some [] ->
  edit_producer self (mk_state fs t) =
    (Return tt,
     mk_state (<[output_file self := Pdf pages {[ producer_key := PStr our_name ]}]> fs)
              (t ++ debug_events self "Editing producer" ++ [WritePdf (output_file self)])).
Proof.
  intros Hout Hmeta.
  unfold edit_producer. unfold mbind at 1, M_bind at 1. rewrite debug_run.
  unfold mbind at 1, M_bind at 1. unfold get_files at 1. cbn [files].
  rewrite Hout.
  assert (({[ producer_key := PStr our_name ]} : gmap string pyval) =
          <[producer_key := PStr our_name]> ∅ ∪ pypdf2_info) as ->
    by (vm_compute; reflexivity).
  rewrite (app_assoc t).
  destruct Hmeta as [-> | ->]; reflexivity.
Qed.

(** A producer that is not text stops the loop with [TypeError], whatever the
    other entries are: only warnings were printed before. *)
Lemma copy_properties_non_text_producer (entries : list (string * pyval)) (value : pyval) :
  forall (info : gmap string pyval) (rp : bool) (fs : gmap string content) (t : list event),
    NoDup entries.*1 ->
    (producer_key, value) ∈ entries ->
    (forall text, value <> PStr text) ->
    exists events,
      copy_properties (info, rp) entries (mk_state fs t) =
        (Raise TypeError, mk_state fs (t ++ events)) /\
      Forall (fun e => exists k, e = not_copied_warning k) events.
Proof.
  induction entries as [|[key value'] entries IH]; intros info rp fs t Hnodup Hin Hbytes.
  - invert_elem Hin.
  - rewrite fmap_cons in Hnodup. apply NoDup_cons in Hnodup as [Hfresh Hnodup].
    simpl in Hfresh.
    cbn [copy_properties]. unfold mbind at 1, M_bind at 1.
    apply elem_of_cons in Hin as [Heq|Hin].
    + injection Heq as <- <-. exists []. rewrite app_nil_r.
      split; [|constructor].
      destruct value as [text| | |]; [contradiction (Hbytes text eq_refl)| | |];
        reflexivity.
    + assert (key <> producer_key) as Hne.
      { intros ->. apply Hfresh. apply (list_elem_of_fmap_2 fst) in Hin. exact Hin. }
      rewrite (copy_property_other info rp key value' fs t Hne).
      destruct (representable value').
      * exact (IH _ rp fs t Hnodup Hin Hbytes).
      * destruct (IH info rp fs (t ++ [not_copied_warning key]) Hnodup Hin Hbytes)
          as (events & Hrun & Hall).
        exists (not_copied_warning key :: events). rewrite Hrun, <- app_assoc.
        split; [reflexivity|]. constructor; [eauto|exact Hall].
Qed.

(** X7. Whenever the source dictionary holds a producer that is not a text
    string, [edit_producer] ends with [TypeError]: the files are left as they
    were and no document is written. *)
Lemma edit_producer_non_text_producer (self : config) (fs : gmap string content)
    (t : list event) (pages : list page) (info0 : gmap string pyval)
    (metadata : list (string * pyval)) (value : pyval) :
  fs !! OUTPUT_pdf self = Some (Pdf pages info0) ->
  input_file_metadata self = Some metadata ->
  NoDup metadata.*1 ->
  (producer_key, value) ∈ metadata ->
  (forall text, value <> PStr text) ->
  exists s',
    edit_producer self (mk_state fs t) = (Raise TypeError, s') /\
    files s' = fs /\
    (forall p, WritePdf p ∉ new_events (mk_state fs t) s').
Proof.
  intros Hout Hmeta Hnodup Hin Hbytes.
  destruct (copy_properties_non_text_producer metadata value ∅ false fs
              (t ++ debug_events self "Editing producer") Hnodup Hin Hbytes)
    as (events & Hrun & Hall).
  eexists. split; [|split].
  - unfold edit_producer. unfold mbind at 1, M_bind at 1. rewrite debug_run.
    unfold mbind at 1, M_bind at 1. unfold get_files at 1. cbn [files].
    rewrite Hout, Hmeta. unfold mbind at 1, M_bind at 1. rewrite Hrun.
    rewrite <- app_assoc. reflexivity.
  - reflexivity.
  - rewrite new_events_app. intros p H.
    apply elem_of_app in H as [H|H]; [invert_elem H|].
    rewrite Forall_forall in Hall. destruct (Hall _ H) as [k Hk]. discriminate Hk.
Qed.

(** C9. A source producer that is not a text string (here a byte string that
    PyPDF2 could not decode) makes the concatenation with the signature raise
    [TypeError] before the guarded test of the value: [edit_producer] ends
    with that exception, nothing is printed and no final document is
    written. *)
Theorem edit_producer_bytes_producer_raises :
  input_file_metadata example_config_bytes_producer =
    Some [("/Title", PStr "Report"); ("/Producer", PBytes (String "127"%char "scan"))] /\
  edit_producer example_config_bytes_producer (mk_state example_merged []) =
    (Raise TypeError, mk_state example_merged []) /\
  example_merged !! output_file example_config_bytes_producer = None.
Proof. split; [reflexivity|]. split; vm_compute; reflexivity. Qed.

(** * Further properties of the code *)

(** ** The partitioner *)

Section RangesMore.
Import Ranges.

(** X1. A document of zero pages makes [calculate_ranges] raise
    [ZeroDivisionError], whatever the worker budget: the range size is the
    ceiling of [0 / cpus], zero, and the page count is then divided by it. *)
Theorem calculate_ranges_zero_pages (cpus : Z) :
  calculate_ranges (Some 0) cpus = Raise ZeroDivisionError.
Proof.
  unfold calculate_ranges, ceil_div, truediv.
  destruct (Z.eqb_spec cpus 0) as [->|Hne]; reflexivity.
Qed.

(** X2. For a known page count and a positive worker budget, both below
    2^53, every range returned holds at least one page and at most
    [range_size] pages, and every range but the last holds exactly
    [range_size] pages. *)
Theorem calculate_ranges_sizes (pages cpus : Z) :
  1 <= pages < 2 ^ 53 -> 1 <= cpus < 2 ^ 53 ->
  exists range_size l,
    ceil_div pages cpus = Return range_size /\
    calculate_ranges (Some pages) cpus = Return (Some l) /\
    forall (i : nat) (r : page_range),
      l !! i = Some r ->
      1 <= range_length r <= range_size /\
      ((S i < length l)%nat -> range_length r = range_size).
Proof.
  intros Hp Hc.
  destruct (calculate_ranges_known pages cpus Hp Hc)
    as (rs & n & Hrs & Hn & Hrs1 & Hn1 & Hb & _ & Hcalc).
  exists rs, (build_ranges pages rs n).
  split; [exact Hrs|]. split; [exact Hcalc|].
  intros i r Hr. apply build_ranges_lookup_Some in Hr as [Hi ->].
  rewrite length_build_ranges.
  unfold range_length, make_range. simpl.
  destruct (Z.gtb_spec (rs * Z.of_nat i + rs) pages); split; nia.
Qed.

Lemma calculate_ranges_sizes_witness :
  exists l,
    calculate_ranges (Some 10) 4 = Return (Some l) /\
    forall (i : nat) (r : page_range), l !! i = Some r -> 1 <= range_length r <= 3.
Proof.
  destruct (calculate_ranges_sizes 10 4 ltac:(lia) ltac:(lia))
    as (rs & l & Hrs & Hl & Hsizes).
  vm_compute in Hrs. injection Hrs as <-.
  exists l. split; [exact Hl|].
  intros i r Hr. exact (proj1 (Hsizes i r Hr)).
Defined.

(** X3. For a known page count and a positive worker budget, both below
    2^53, every page from 1 to the page count lies in exactly one of the
    ranges returned, and the ranges hold no other page. *)
Theorem calculate_ranges_covers (pages cpus : Z) :
  1 <= pages < 2 ^ 53 -> 1 <= cpus < 2 ^ 53 ->
  exists l,
    calculate_ranges (Some pages) cpus = Return (Some l) /\
    (forall p, 1 <= p <= pages ->
       exists (i : nat) (r : page_range),
         l !! i = Some r /\ r.1 <= p <= r.2 /\
         forall (j : nat) (r' : page_range),
           l !! j = Some r' -> r'.1 <= p <= r'.2 -> j = i) /\
    (forall (i : nat) (r : page_range) p,
       l !! i = Some r -> r.1 <= p <= r.2 -> 1 <= p <= pages).
Proof.
  intros Hp Hc.
  destruct (calculate_ranges_known pages cpus Hp Hc)
    as (rs & n & Hrs & Hn & Hrs1 & Hn1 & Hb & _ & Hcalc).
  exists (build_ranges pages rs n). split; [exact Hcalc|]. split.
  - intros p Hpp.
    pose proof (Z.div_mod (p - 1) rs ltac:(lia)) as Hdm.
    pose proof (Z.mod_pos_bound (p - 1) rs ltac:(lia)) as Hmod.
    set (q := (p - 1) / rs) in *.
    assert (0 <= q) as Hq0 by (apply Z.div_pos; lia).
    assert (q < n) as Hqn by nia.
    exists (Z.to_nat q), (make_range pages rs q).
    split; [|split].
    + rewrite build_ranges_lookup by lia. rewrite Z2Nat.id by lia. reflexivity.
    + unfold make_range. simpl.
      destruct (Z.gtb_spec (rs * q + rs) pages); nia.
    + intros j r' Hr' Hin. apply build_ranges_lookup_Some in Hr' as [Hj ->].
      unfold make_range in Hin. simpl in Hin.
      destruct (Z.gtb_spec (rs * Z.of_nat j + rs) pages); nia.
  - intros i r p Hr Hin. apply build_ranges_lookup_Some in Hr as [Hi ->].
    unfold make_range in Hin. simpl in Hin.
    destruct (Z.gtb_spec (rs * Z.of_nat i + rs) pages); nia.
Qed.

Lemma calculate_ranges_covers_witness :
  exists l (i : nat) (r : page_range),
    calculate_ranges (Some 10) 4 = Return (Some l) /\
    l !! i = Some r /\ r.1 <= 7 <= r.2.
Proof.
  destruct (calculate_ranges_covers 10 4 ltac:(lia) ltac:(lia))
    as (l & Hl & Hcover & _).
  destruct (Hcover 7 ltac:(lia)) as (i & r & Hr & Hin & _).
  exists l, i, r. split; [exact Hl|]. split; [exact Hr|exact Hin].
Defined.

(** X4. For a page count and a worker budget below 2^53: with at least as
    many workers as pages every page gets a range of its own, and with one
    worker the whole document is one range. *)
Theorem calculate_ranges_extremes (pages cpus : Z) :
  1 <= pages -> pages <= cpus < 2 ^ 53 ->
  calculate_ranges (Some pages) cpus =
    Return (Some ((fun p => (p, p)) <$> seqZ 1 pages)) /\
  calculate_ranges (Some pages) 1 = Return (Some [(1, pages)]).
Proof.
  intros Hp Hc. split.
  - destruct (calculate_ranges_known pages cpus ltac:(lia) ltac:(lia))
      as (rs & n & Hrs & Hn & Hrs1 & Hn1 & Hb & Hrsb & Hcalc).
    assert (rs = 1) as -> by nia.
    assert (n = pages) as -> by lia.
    rewrite Hcalc. do 2 f_equal.
    apply list_eq. intros i. unfold build_ranges. rewrite !list_lookup_fmap.
    destruct (decide (Z.of_nat i < pages)) as [Hi|Hi].
    + rewrite !lookup_seqZ_lt by lia. simpl. unfold make_range.
      destruct (Z.gtb_spec (1 * (0 + Z.of_nat i) + 1) pages); f_equal; f_equal; lia.
    + rewrite !lookup_seqZ_ge by lia. reflexivity.
  - destruct (calculate_ranges_known pages 1 ltac:(lia) ltac:(lia))
      as (rs & n & Hrs & Hn & Hrs1 & Hn1 & Hb & Hrsb & Hcalc).
    assert (n = 1) as -> by lia.
    assert (rs = pages) as -> by lia.
    rewrite Hcalc. do 2 f_equal.
    unfold build_ranges. rewrite seqZ_cons, seqZ_nil by lia. simpl.
    unfold make_range.
    destruct (Z.gtb_spec (pages * 0 + pages) pages); f_equal; f_equal; lia.
Qed.

Lemma calculate_ranges_extremes_witness :
  calculate_ranges (Some 3) 8 = Return (Some [(1, 1); (2, 2); (3, 3)]) /\
  calculate_ranges (Some 3) 1 = Return (Some [(1, 3)]).
Proof.
  exact (calculate_ranges_extremes 3 8 ltac:(lia) ltac:(lia)).
Defined.

End RangesMore.

(** ** The producer metadata and the presets, on concrete runs *)

Lemma edit_producer_text_producer_witness :
  exists info events,
    edit_producer example_config_metadata (mk_state example_merged []) =
      (Return tt,
       mk_state (<["/home/user/scan-OCR.pdf" :=
                     Pdf ["page 1"; "page 2"; "page 3"] info]> example_merged)
                (events ++ [WritePdf "/home/user/scan-OCR.pdf"])) /\
    info !! "/Producer" =
      Some (PStr "Scanner 1.0; PDF2PDFOCR(github.com/LeoFCardoso/pdf2pdfocr)") /\
    info !! "/Title" = Some (PStr "Report") /\
    info !! "/Keywords" = None /\
    not_copied_warning "/Keywords" ∈ events.
Proof.
  destruct (edit_producer_text_producer example_config_metadata example_merged []
              ["page 1"; "page 2"; "page 3"] pypdf2_info
              [("/Title", PStr "Report"); ("/Producer", PStr "Scanner 1.0");
               ("/Keywords", PArray ["a"; "b"])])
    as (info & events & Hrun & Hprod & _ & Hother & Hwarn & _).
  - vm_compute. reflexivity.
  - reflexivity.
  - apply (bool_decide_unpack _). vm_compute. exact I.
  - intros v H. invert_elem H; inversion H; eauto.
  - exists info, events. split; [exact Hrun|].
    split; [exact (Hprod "Scanner 1.0"
                     ltac:(apply list_elem_of_further, list_elem_of_here))|].
    split; [exact (Hother "/Title" (PStr "Report") ltac:(discriminate)
                     ltac:(apply list_elem_of_here))|].
    split.
    + exact (Hother "/Keywords" (PArray ["a"; "b"]) ltac:(discriminate)
               ltac:(do 2 apply list_elem_of_further; apply list_elem_of_here)).
    + exact (Hwarn "/Keywords" (PArray ["a"; "b"]) ltac:(discriminate)
               ltac:(do 2 apply list_elem_of_further; apply list_elem_of_here)
               ltac:(reflexivity)).
Defined.

Lemma edit_producer_no_metadata_witness :
  edit_producer example_config_encrypted (mk_state example_merged []) =
    (Return tt,
     mk_state (<["/home/user/scan-OCR.pdf" :=
                   Pdf ["page 1"; "page 2"; "page 3"]
                       {[ "/Producer" :=
                            PStr "PDF2PDFOCR(github.com/LeoFCardoso/pdf2pdfocr)" ]}]>
                 example_merged)
              [WritePdf "/home/user/scan-OCR.pdf"]).
Proof.
  exact (edit_producer_no_metadata example_config_encrypted example_merged []
           ["page 1"; "page 2"; "page 3"] pypdf2_info
           ltac:(vm_compute; reflexivity) ltac:(right; reflexivity)).
Defined.

Lemma edit_producer_non_text_producer_witness :
  exists s',
    edit_producer example_config_bytes_producer (mk_state example_merged []) =
      (Raise TypeError, s') /\
    files s' = example_merged.
Proof.
  destruct (edit_producer_non_text_producer example_config_bytes_producer example_merged []
              ["page 1"; "page 2"; "page 3"] pypdf2_info
              [("/Title", PStr "Report"); ("/Producer", PBytes (String "127"%char "scan"))]
              (PBytes (String "127"%char "scan")))
    as (s' & Hrun & Hfiles & _).
  - vm_compute. reflexivity.
  - reflexivity.
  - apply (bool_decide_unpack _). vm_compute. exact I.
  - apply list_elem_of_further, list_elem_of_here.
  - discriminate.
  - exists s'. split; [exact Hrun|exact Hfiles].
Defined.

Lemma select_convert_params_documented_witness :
  select_convert_params "jpeg" =
    "-strip -interlace Plane -gaussian-blur 0.05 -quality 50% -compress JPEG" /\
  select_convert_params "-threshold 50%" = "-threshold 50%".
Proof.
  split.
  - exact (select_convert_params_documented "jpeg" ltac:(discriminate) ltac:(discriminate)).
  - exact (select_convert_params_documented "-threshold 50%"
             ltac:(discriminate) ltac:(discriminate)).
Defined.

(** ** The overlay assembler: an overlay that cannot be read *)

Lemma mapM_read_pdf_blob (l : list string) (s : state) :
  Forall (fun f => is_Some (files s !! f)) l ->
  (exists f data, f ∈ l /\ files s !! f = Some (Blob data)) ->
  mapM read_pdf l s = (Raise PdfReadError, s).
Proof.
  induction 1 as [|f l [c Hc] _ IH]; intros (g & data & Hin & Hg).
  - invert_elem Hin.
  - simpl. unfold mbind at 1, M_bind at 1. unfold read_pdf at 1.
    unfold mbind at 1, M_bind at 1. unfold get_files at 1. rewrite Hc.
    destruct c as [pages info|data']; [|reflexivity]. simpl.
    apply elem_of_cons in Hin as [->|Hin]; [congruence|].
    unfold mbind at 1, M_bind at 1. rewrite IH by eauto. reflexivity.
Qed.

(** X9. When several files match the overlay pattern and one of them is not
    a readable PDF document, [join_ocred_pdf] ends with [PdfReadError]: no
    assembled document is written and the files are left as they were. *)
Theorem join_ocred_pdf_unreadable_overlay (self : config) (s : state)
    (f data : string) :
  (1 < length (overlay_listing self (files s)))%nat ->
  f ∈ overlay_listing self (files s) ->
  files s !! f = Some (Blob data) ->
  exists s',
    join_ocred_pdf self s = (Raise PdfReadError, s') /\
    files s' = files s /\
    new_events s s' =
      debug_events self (count_message (length (overlay_listing self (files s)))).
Proof.
  destruct s as [fs t]. cbn [files]. intros Hlen Hin Hblob.
  set (l := overlay_listing self fs) in *.
  assert (Forall (fun g => is_Some (fs !! g)) (sorted l)) as Hall.
  { apply Forall_forall. intros g Hg. rewrite sorted_Permutation in Hg.
    exact (glob_is_Some _ _ _ _ _ Hg). }
  assert (exists g data', g ∈ sorted l /\ fs !! g = Some (Blob data')) as Hex.
  { exists f, data. split; [rewrite sorted_Permutation; exact Hin|exact Hblob]. }
  eexists. split; [|split].
  - unfold join_ocred_pdf. unfold mbind at 1, M_bind at 1, get_files at 1.
    cbn [files]. fold (overlay_listing self fs). fold l. rewrite sorted_length.
    rewrite bool_decide_true by exact Hlen.
    unfold mbind at 1, M_bind at 1. rewrite debug_run.
    unfold mbind at 1, M_bind at 1. unfold mbind at 1, M_bind at 1.
    rewrite mapM_read_pdf_blob by assumption. reflexivity.
  - reflexivity.
  - rewrite new_events_app. reflexivity.
Qed.

Lemma join_ocred_pdf_unreadable_overlay_witness :
  exists s',
    join_ocred_pdf example_config (mk_state example_overlays_corrupt []) =
      (Raise PdfReadError, s') /\
    files s' = example_overlays_corrupt.
Proof.
  destruct (join_ocred_pdf_unreadable_overlay example_config
              (mk_state example_overlays_corrupt []) "/tmp/pfx-004.pdf" "truncated")
    as (s' & Hrun & Hfiles & _).
  - vm_compute. lia.
  - vm_compute. do 3 apply list_elem_of_further. apply list_elem_of_here.
  - vm_compute. reflexivity.
  - exists s'. split; [exact Hrun|exact Hfiles].
Defined.

(** ** Cleanup *)

Lemma lookup_foldr_delete (l : list string) (fs : gmap string content) (p : string) :
  foldr delete fs l !! p = if decide (p ∈ l) then None else fs !! p.
Proof.
  induction l as [|q l IH]; simpl.
  - destruct (decide (p ∈ [])) as [H|_]; [invert_elem H|reflexivity].
  - destruct (decide (q = p)) as [->|Hne].
    + rewrite lookup_delete_eq.
      destruct (decide (p ∈ p :: l)) as [_|H]; [reflexivity|].
      exfalso. apply H, list_elem_of_here.
    + rewrite lookup_delete_ne by exact Hne. rewrite IH.
      destruct (decide (p ∈ l)) as [Hin|Hnin];
        destruct (decide (p ∈ q :: l)) as [Hin'|Hnin']; try reflexivity.
      * exfalso. apply Hnin'. apply list_elem_of_further. exact Hin.
      * exfalso. apply elem_of_cons in Hin' as [->|Hin']; [congruence|contradiction].
Qed.

Lemma elem_of_glob_mid_dot (dir mid : string) (fs : gmap string content) (p : string) :
  p ∈ glob_mid_dot dir mid fs <-> is_Some (fs !! p) /\ glob_mid_dot_match dir mid p = true.
Proof.
  unfold glob_mid_dot. rewrite list_elem_of_filter. split.
  - intros [Hm Hin]. split; [|exact Hm].
    apply list_elem_of_fmap in Hin as [[q c] [-> Hqc]].
    apply elem_of_map_to_list in Hqc. simpl. eauto.
  - intros [[c Hc] Hm]. split; [exact Hm|].
    apply list_elem_of_fmap. exists (p, c). split; [reflexivity|].
    apply elem_of_map_to_list. exact Hc.
Qed.

Lemma cleanup_files_lookup (self : config) (fs : gmap string content) (p : string) :
  glob_mid_dot_match (tmp_dir self) (prefix self) p = false ->
  cleanup_files self fs !! p = fs !! p.
Proof.
  intros Hp. unfold cleanup_files. destruct (delete_temps self); [|reflexivity].
  rewrite lookup_foldr_delete.
  destruct (decide (p ∈ glob_mid_dot (tmp_dir self) (prefix self) fs)) as [Hin|_];
    [|reflexivity].
  apply elem_of_glob_mid_dot in Hin as [_ Hm]. congruence.
Qed.

(** X10. For a temporary directory given with its final separator and,
    like the prefix, without pattern characters of [glob]: [cleanup] never
    touches a file outside its pattern, the files of the temporary directory
    whose name does not start with a dot and holds the run's prefix followed,
    somewhere after it, by a dot. Unless the temporary files are kept, a
    cleanup that returns has removed every file of the pattern and printed
    nothing, and a second cleanup changes nothing more. When the temporary
    files are kept it removes nothing and says where they are. *)
Theorem cleanup_removes_temporaries (self : config) (s : state) :
  ends_with "/" (tmp_dir self) = true ->
  has_magic (tmp_dir self) = false -> has_magic (prefix self) = false ->
  (forall p, glob_mid_dot_match (tmp_dir self) (prefix self) p = false ->
     files (cleanup self s).2 !! p = files s !! p) /\
  (delete_temps self = true -> (cleanup self s).1 = Return tt ->
   (forall p, glob_mid_dot_match (tmp_dir self) (prefix self) p = true ->
      files (cleanup self s).2 !! p = None) /\
   trace (cleanup self s).2 = trace s /\
   files (cleanup self (cleanup self s).2).2 = files (cleanup self s).2) /\
  (delete_temps self = false ->
   files (cleanup self s).2 = files s /\
   new_events s (cleanup self s).2 =
     [Eprint ("Temporary files kept in " +:+ tmp_dir self)]).
Proof.
  intros _ _ _.
  destruct s as [fs t]. rewrite cleanup_run. cbn [fst snd].
  rewrite cleanup_run. cbn [fst snd files trace].
  split; [intros p Hp; apply cleanup_files_lookup; exact Hp|].
  unfold cleanup_files, cleanup_events. split.
  - intros -> _.
    assert (forall fs' p,
              foldr delete fs' (glob_mid_dot (tmp_dir self) (prefix self) fs') !! p =
              if glob_mid_dot_match (tmp_dir self) (prefix self) p
              then None else fs' !! p) as Hlookup.
    { intros fs' p. rewrite lookup_foldr_delete.
      destruct (decide (p ∈ glob_mid_dot (tmp_dir self) (prefix self) fs')) as [Hin|Hnin].
      - apply elem_of_glob_mid_dot in Hin as [_ ->]. reflexivity.
      - destruct (glob_mid_dot_match (tmp_dir self) (prefix self) p) eqn:Hm;
          [|reflexivity].
        destruct (fs' !! p) as [c|] eqn:Hc; [|reflexivity].
        exfalso. apply Hnin. apply elem_of_glob_mid_dot. rewrite Hc. eauto. }
    split; [intros p Hp; rewrite Hlookup, Hp; reflexivity|].
    split; [apply app_nil_r|].
    apply map_eq. intros p. rewrite Hlookup, Hlookup.
    destruct (glob_mid_dot_match (tmp_dir self) (prefix self) p); reflexivity.
  - intros ->. split; [reflexivity|]. apply new_events_app.
Qed.

Lemma cleanup_removes_temporaries_witness :
  files (cleanup example_config (mk_state example_stale_output [])).2
    !! "/tmp/pfx-001.jpg" = None /\
  files (cleanup example_config (mk_state example_stale_output [])).2
    !! "/home/user/scan-OCR.pdf" = Some (Blob "earlier output").
Proof.
  destruct (cleanup_removes_temporaries example_config (mk_state example_stale_output [])
              ltac:(reflexivity) ltac:(reflexivity) ltac:(reflexivity))
    as (Hkept & Hdelete & _).
  destruct (Hdelete ltac:(reflexivity) ltac:(reflexivity)) as (Hgone & _).
  split.
  - apply Hgone. reflexivity.
  - rewrite Hkept by reflexivity. vm_compute. reflexivity.
Defined.

(** ** How the stages can end *)

Section FailsOnlyWith.

Variable E : exn -> Prop.

Lemma fails_only_with_ret {A : Type} (a : A) : fails_only_with E (mret a : M A).
Proof. intros s. exact I. Qed.

Lemma fails_only_with_raise {A : Type} (e : exn) : E e -> fails_only_with E (raise e : M A).
Proof. intros He s. exact He. Qed.

Lemma fails_only_with_get_files : fails_only_with E get_files.
Proof. intros s. exact I. Qed.

Lemma fails_only_with_put_files (fs : gmap string content) :
  fails_only_with E (put_files fs).
Proof. intros s. exact I. Qed.

Lemma fails_only_with_emit (e : event) : fails_only_with E (emit e).
Proof. intros s. exact I. Qed.

Lemma fails_only_with_bind {A B : Type} (m : M A) (k : A -> M B) :
  fails_only_with E m -> (forall a, fails_only_with E (k a)) ->
  fails_only_with E (m ≫= k).
Proof.
  intros Hm Hk s. specialize (Hm s). unfold mbind, M_bind.
  destruct (m s) as [[a|e|c] s1]; simpl in *; [apply Hk|exact Hm|exact Hm].
Qed.

End FailsOnlyWith.

(** One step of a proof that a method ends in a given way. *)
Ltac fails_step :=
  lazymatch goal with
  | |- fails_only_with _ (_ ≫= _) => apply fails_only_with_bind; [|intros ?]
  | |- fails_only_with _ (mret _) => apply fails_only_with_ret
  | |- fails_only_with _ get_files => apply fails_only_with_get_files
  | |- fails_only_with _ (put_files _) => apply fails_only_with_put_files
  | |- fails_only_with _ (emit _) => apply fails_only_with_emit
  | |- fails_only_with _ (raise _) => apply fails_only_with_raise
  | |- fails_only_with _ (if ?b then _ else _) => destruct b
  | |- fails_only_with _ (match ?x with _ => _ end) => destruct x
  end.

Section Endings.

Variable run : list string -> gmap string content -> gmap string content.
Variable shlex_split : string -> option (list string).
Variable self : config.

Lemma fails_only_with_popen_wait (exe : option string) (args : list string)
    (stderr_log : option string) :
  fails_only_with merge_exception (popen_wait run exe args stderr_log).
Proof.
  unfold popen_wait, open_log. repeat fails_step. left. reflexivity.
Qed.

Lemma fails_only_with_debug (E : exn -> Prop) (msg : string) :
  fails_only_with E (debug self msg).
Proof. unfold debug. repeat fails_step. Qed.

Lemma fails_only_with_merge_body :
  fails_only_with merge_exception
    (if negb (rebuild_pdf_from_images self) && negb (force_rebuild_mode self) then
       if use_pdftk self then merge_with_pdftk run self
       else
         merge_with_script run self;;
         created ← isfile (OUTPUT_pdf self);
         if negb created then try_repair_input_and_merge run self else mret tt
     else rebuild_and_merge run shlex_split self).
Proof.
  destruct (negb (rebuild_pdf_from_images self) && negb (force_rebuild_mode self)).
  - destruct (use_pdftk self).
    + unfold merge_with_pdftk.
      apply fails_only_with_bind; [apply fails_only_with_debug|]. intros _.
      apply fails_only_with_popen_wait.
    + apply fails_only_with_bind.
      * unfold merge_with_script.
        apply fails_only_with_bind; [apply fails_only_with_debug|]. intros _.
        apply fails_only_with_popen_wait.
      * intros _. unfold isfile. apply fails_only_with_bind; [repeat fails_step|].
        intros created. destruct (negb created); [|apply fails_only_with_ret].
        unfold try_repair_input_and_merge.
        apply fails_only_with_bind; [apply fails_only_with_debug|]. intros _.
        apply fails_only_with_bind; [apply fails_only_with_popen_wait|]. intros _.
        apply fails_only_with_bind; [apply fails_only_with_popen_wait|]. intros _.
        apply fails_only_with_popen_wait.
  - unfold rebuild_and_merge, eprint, log.
    apply fails_only_with_bind; [apply fails_only_with_emit|]. intros _.
    apply fails_only_with_bind; [apply fails_only_with_emit|]. intros _.
    destruct (shlex_split _); [|apply fails_only_with_raise; right; reflexivity].
    apply fails_only_with_bind; [apply fails_only_with_get_files|]. intros fs.
    apply fails_only_with_bind; [apply fails_only_with_popen_wait|]. intros _.
    apply fails_only_with_bind; [apply fails_only_with_debug|]. intros _.
    apply fails_only_with_popen_wait.
Qed.

Lemma emits_merge_body :
  emits (fun _ => True)
    (if negb (rebuild_pdf_from_images self) && negb (force_rebuild_mode self) then
       if use_pdftk self then merge_with_pdftk run self
       else
         merge_with_script run self;;
         created ← isfile (OUTPUT_pdf self);
         if negb created then try_repair_input_and_merge run self else mret tt
     else rebuild_and_merge run shlex_split self).
Proof.
  destruct (negb (rebuild_pdf_from_images self) && negb (force_rebuild_mode self)).
  - destruct (use_pdftk self).
    + apply emits_merge_with_pdftk; intros; exact I.
    + apply emits_bind; [apply emits_merge_with_script; intros; exact I|].
      intros _. apply emits_bind; [apply emits_isfile|]. intros created.
      destruct (negb created); [|apply emits_ret].
      apply emits_try_repair_input_and_merge; intros; exact I.
  - apply emits_rebuild_and_merge; intros; exact I.
Qed.

(** The ways [build_final_output] can end, with what holds in each. *)
Lemma build_final_output_cases (s : state) :
  exists events,
    trace (build_final_output run shlex_split self s).2 = trace s ++ events /\
    match (build_final_output run shlex_split self s).1 with
    | Return _ =>
        is_Some (files (build_final_output run shlex_split self s).2 !! OUTPUT_pdf self)
    | Exit code => code = 1 /\ Eprint fatal_message ∈ events
    | Raise e => merge_exception e
    end.
Proof.
  unfold build_final_output.
  pose proof (fails_only_with_merge_body s) as Hfail.
  destruct (emits_merge_body s) as (events & Htrace & _).
  match type of Hfail with
  | match (?m s).1 with _ => _ end => set (body := m) in *
  end.
  assert ((body ≫= fun _ => output_check self) s =
          match body s with
          | (Return _, s') => output_check self s'
          | (Raise e, s') => (Raise e, s')
          | (Exit c, s') => (Exit c, s')
          end) as Hrun by reflexivity.
  rewrite Hrun. clear Hrun.
  destruct (body s) as [[[]|e|c] [fs1 t1]]; cbn [fst snd trace] in Hfail, Htrace.
  - destruct (fs1 !! OUTPUT_pdf self) as [c|] eqn:Hout.
    + rewrite output_check_present by (rewrite Hout; eauto).
      exists events. cbn [fst snd files trace].
      split; [exact Htrace|]. rewrite Hout. eauto.
    + rewrite output_check_absent by exact Hout.
      exists (events ++ [Eprint fatal_message] ++ cleanup_events self).
      cbn [fst snd trace]. rewrite Htrace, <- app_assoc.
      split; [reflexivity|]. split; [reflexivity|].
      apply elem_of_app. right. apply list_elem_of_here.
  - exists events. split; [exact Htrace|exact Hfail].
  - contradiction.
Qed.

End Endings.

(** X11. [build_final_output] ends in one of three ways: it returns, and then
    the merged candidate exists; or it leaves through [exit(1)] after
    printing that the output file could not be created; or it raises
    [TypeError] (ghostscript is missing when the repair starts) or
    [ValueError] (the [convert] parameters cannot be split). It never returns
    without a candidate and never exits with another status. *)
Theorem build_final_output_endings
    (run : list string -> gmap string content -> gmap string content)
    (shlex_split : string -> option (list string))
    (self : config) (s : state) :
  match (build_final_output run shlex_split self s).1 with
  | Return _ =>
      is_Some (files (build_final_output run shlex_split self s).2 !! OUTPUT_pdf self)
  | Exit code =>
      code = 1 /\
      Eprint fatal_message
        ∈ new_events s (build_final_output run shlex_split self s).2
  | Raise e => e = TypeError \/ e = ValueError
  end.
Proof.
  destruct (build_final_output_cases run shlex_split self s) as (events & Htrace & Hcase).
  destruct (build_final_output run shlex_split self s) as [[[]|e|c] s'];
    cbn [fst snd] in *.
  - exact Hcase.
  - exact Hcase.
  - destruct Hcase as [-> Hin]. split; [reflexivity|].
    unfold new_events. rewrite Htrace, drop_app_length. exact Hin.
Qed.

(** ** The final merger: success, and failure of the rebuild *)

(** X12. On the direct path, when the merge leaves a candidate, nothing is
    repaired or retried: [build_final_output] returns in the state the merge
    left, the merge being its only process, by [pdftk] with option [-p] and by
    the built-in script without it. *)
Theorem build_final_output_direct_success
    (run : list string -> gmap string content -> gmap string content)
    (shlex_split : string -> option (list string))
    (self : config) (s : state) :
  rebuild_pdf_from_images self = false -> force_rebuild_mode self = false ->
  is_Some (files ((if use_pdftk self then merge_with_pdftk run self
                   else merge_with_script run self) s).2 !! OUTPUT_pdf self) ->
  build_final_output run shlex_split self s =
    (Return tt, ((if use_pdftk self then merge_with_pdftk run self
                  else merge_with_script run self) s).2) /\
  new_events s (build_final_output run shlex_split self s).2 =
    debug_events self (if use_pdftk self then "Merging with OCR with pdftk"
                       else "Merging with OCR")
    ++ [if use_pdftk self then pdftk_merge_event self else script_merge_event self].
Proof.
  intros Hrebuild Hforce. destruct s as [fs t].
  destruct (use_pdftk self) eqn:Hpdftk.
  - rewrite merge_with_pdftk_run. cbn [snd files]. intros Hout.
    rewrite (build_final_output_pdftk run shlex_split self fs t Hrebuild Hforce Hpdftk).
    rewrite output_check_present by exact Hout.
    split; [reflexivity|]. cbn [snd]. apply new_events_app.
  - rewrite merge_with_script_run. cbn [snd files]. intros Hout.
    assert (build_final_output run shlex_split self (mk_state fs t) =
            (Return tt,
             mk_state (after_event run (script_merge_event self) fs)
                      (t ++ debug_events self "Merging with OCR"
                         ++ [script_merge_event self]))) as Hrun.
    { unfold build_final_output. rewrite Hrebuild, Hforce, Hpdftk. simpl.
      unfold mbind at 1, M_bind at 1. unfold mbind at 1, M_bind at 1.
      rewrite merge_with_script_run.
      unfold mbind at 1, M_bind at 1. rewrite isfile_run.
      rewrite bool_decide_true by exact Hout. cbn [negb].
      unfold mret, M_ret. apply output_check_present. exact Hout. }
    rewrite Hrun. split; [reflexivity|]. cbn [snd]. apply new_events_app.
Qed.

Lemma build_final_output_direct_success_witness :
  build_final_output run_merge_ok split_on_spaces example_config
    (mk_state example_before_merge []) =
    (Return tt,
     (merge_with_script run_merge_ok example_config (mk_state example_before_merge [])).2) /\
  new_events (mk_state example_before_merge [])
    (build_final_output run_merge_ok split_on_spaces example_config
       (mk_state example_before_merge [])).2 =
    [script_merge_event example_config].
Proof.
  exact (build_final_output_direct_success run_merge_ok split_on_spaces example_config
           (mk_state example_before_merge [])
           ltac:(reflexivity) ltac:(reflexivity) ltac:(vm_compute; eauto)).
Defined.

Lemma retry_merge_event_rebuild (self : config) :
  retry_merge_event self <> rebuild_merge_event self.
Proof.
  unfold rebuild_merge_event, retry_merge_event. intros [= _ Hlog].
  do 3 apply string_app_inv_head in Hlog. discriminate Hlog.
Qed.

(** X13. On the rebuild path a merge that leaves no candidate is not
    repaired or retried: after [convert] and the merge on the rebuilt
    document, [build_final_output] prints that the output file could not be
    created, cleans up and leaves through [exit(1)]. *)
Theorem build_final_output_rebuild_failure
    (run : list string -> gmap string content -> gmap string content)
    (shlex_split : string -> option (list string))
    (self : config) (s : state) (params : list string) :
  negb (rebuild_pdf_from_images self) && negb (force_rebuild_mode self) = false ->
  shlex_split (select_convert_params (user_convert_params self)) = Some params ->
  files (rebuild_and_merge run shlex_split self s).2 !! OUTPUT_pdf self = None ->
  exists s',
    build_final_output run shlex_split self s = (Exit 1, s') /\
    new_events s s' =
      [Eprint rebuild_warning; Log "Rebuilding PDF from images";
       convert_event self params (files s)]
      ++ debug_events self "Merging with OCR"
      ++ [rebuild_merge_event self; Eprint fatal_message]
      ++ cleanup_events self /\
    retry_merge_event self ∉ new_events s s'.
Proof.
  intros Hcond Hsplit. destruct s as [fs t].
  rewrite (rebuild_and_merge_run run shlex_split self params fs t Hsplit).
  cbn [snd files]. intros Hout.
  assert (build_final_output run shlex_split self (mk_state fs t) =
          output_check self
            (mk_state (after_event run (rebuild_merge_event self)
                         (after_event run (convert_event self params fs) fs))
                      (t ++ [Eprint rebuild_warning; Log "Rebuilding PDF from images";
                             convert_event self params fs]
                         ++ debug_events self "Merging with OCR"
                         ++ [rebuild_merge_event self]))) as Hrun.
  { unfold build_final_output. rewrite Hcond.
    unfold mbind at 1, M_bind at 1.
    rewrite (rebuild_and_merge_run run shlex_split self params fs t Hsplit).
    reflexivity. }
  rewrite output_check_absent in Hrun by exact Hout.
  eexists. split; [exact Hrun|].
  assert (forall A (a b c d : list A), (a ++ b ++ c) ++ d = a ++ (b ++ c ++ d)) as Hassoc
    by (intros; rewrite <- !app_assoc; reflexivity).
  rewrite Hassoc, new_events_app.
  split.
  - rewrite <- !app_assoc. reflexivity.
  - intros Hin.
    invert_elem Hin; try (exact (retry_merge_event_rebuild self Hin));
      unfold retry_merge_event, convert_event in Hin; discriminate Hin.
Qed.

Lemma build_final_output_rebuild_failure_witness :
  exists s',
    build_final_output run_nothing split_on_spaces example_config_encrypted
      (mk_state example_before_merge []) = (Exit 1, s') /\
    retry_merge_event example_config_encrypted
      ∉ new_events (mk_state example_before_merge []) s'.
Proof.
  destruct (build_final_output_rebuild_failure run_nothing split_on_spaces
              example_config_encrypted (mk_state example_before_merge [])
              ["-colors"; "2"; "-colorspace"; "gray"; "-normalize"; "-threshold"; "60%";
               "-compress"; "Group4"]
              ltac:(reflexivity) ltac:(vm_compute; reflexivity)
              ltac:(vm_compute; reflexivity))
    as (s' & Hrun & _ & Hnone).
  exists s'. split; [exact Hrun|exact Hnone].
Defined.

(** ** From the merge to the final document *)

Lemma emits_copy_properties (P : event -> Prop) (entries : list (string * pyval)) :
  (forall key, P (not_copied_warning key)) ->
  forall acc, emits P (copy_properties acc entries).
Proof.
  intros Hwarn. induction entries as [|[key value] entries IH]; intros [info rp].
  - apply emits_ret.
  - cbn [copy_properties]. apply emits_bind; [|intros acc; apply IH].
    unfold copy_property.
    apply emits_bind.
    + destruct (String.eqb key producer_key); [|apply emits_ret].
      destruct (py_add_str value _); [apply emits_ret|apply emits_raise|apply emits_exit].
    + intros [value' rp'].
      destruct (createStringObject value') as [v|[]|c];
        try apply emits_ret; try apply emits_raise; try apply emits_exit.
      apply emits_bind; [apply emits_emit, Hwarn|]. intros _. apply emits_ret.
Qed.

Lemma fails_only_with_copy_properties (entries : list (string * pyval)) :
  forall acc, fails_only_with (fun e => e = TypeError) (copy_properties acc entries).
Proof.
  induction entries as [|[key value] entries IH]; intros [info rp].
  - apply fails_only_with_ret.
  - cbn [copy_properties]. apply fails_only_with_bind; [|intros acc; apply IH].
    unfold copy_property.
    apply fails_only_with_bind.
    + destruct (String.eqb key producer_key); [|apply fails_only_with_ret].
      destruct value; cbn [py_add_str];
        first [apply fails_only_with_ret | apply fails_only_with_raise; reflexivity].
    + intros [value' rp'].
      destruct value'; cbn [createStringObject];
        first [ apply fails_only_with_ret
              | unfold eprint; repeat fails_step ].
Qed.

(** What follows the merge, when the candidate exists. *)
Lemma edit_producer_and_cleanup_cases (self : config) (fs : gmap string content)
    (t : list event) :
  is_Some (fs !! OUTPUT_pdf self) ->
  (forall code,
     ((edit_producer self;; debug self "Output file created";; cleanup self)
        (mk_state fs t)).1 <> Exit code) /\
  (((edit_producer self;; debug self "Output file created";; cleanup self)
      (mk_state fs t)).1 = Return tt ->
   exists before after,
     trace ((edit_producer self;; debug self "Output file created";; cleanup self)
              (mk_state fs t)).2 =
       t ++ before ++ [WritePdf (output_file self)] ++ after).
Proof.
  intros [c Hc].
  set (loop := match input_file_metadata self with
               | Some metadata => copy_properties (∅, false) metadata
               | None => mret (∅, false)
               end).
  assert (emits (fun _ => True) loop) as Hemits.
  { unfold loop. destruct (input_file_metadata self);
      [apply emits_copy_properties; intros; exact I|apply emits_ret]. }
  assert (fails_only_with (fun e => e = TypeError) loop) as Hfails.
  { unfold loop. destruct (input_file_metadata self);
      [apply fails_only_with_copy_properties|apply fails_only_with_ret]. }
  assert ((edit_producer self;; debug self "Output file created";; cleanup self)
            (mk_state fs t) =
          match c with
          | Blob _ => (Raise PdfReadError,
                       mk_state fs (t ++ debug_events self "Editing producer"))
          | Pdf pages _ =>
              match loop (mk_state fs (t ++ debug_events self "Editing producer")) with
              | (Return (info, rp), s2) =>
                  (Return tt,
                   mk_state
                     (cleanup_files self
                        (<[output_file self :=
                             Pdf pages ((if negb rp
                                         then <[producer_key := PStr our_name]> info
                                         else info) ∪ pypdf2_info)]> (files s2)))
                     (((trace s2 ++ [WritePdf (output_file self)])
                         ++ debug_events self "Output file created")
                        ++ cleanup_events self))
              | (Raise e, s2) => (Raise e, s2)
              | (Exit code, s2) => (Exit code, s2)
              end
          end) as Hrun.
  { unfold mbind at 1, M_bind at 1. unfold edit_producer.
    unfold mbind at 1, M_bind at 1. rewrite debug_run.
    unfold mbind at 1, M_bind at 1. unfold get_files at 1. cbn [files].
    rewrite Hc. destruct c as [pages info0|data]; [|reflexivity].
    fold loop. unfold mbind at 1, M_bind at 1.
    destruct (loop _) as [[[info rp]|e|code] [fs2 t2]]; try reflexivity.
    unfold write_pdf, mbind, M_bind, get_files, put_files, emit. cbn [files trace].
    rewrite debug_run, cleanup_run. reflexivity. }
  rewrite Hrun. clear Hrun. destruct c as [pages info0|data].
  - specialize (Hfails (mk_state fs (t ++ debug_events self "Editing producer"))).
    destruct (Hemits (mk_state fs (t ++ debug_events self "Editing producer")))
      as (events & Htrace & _).
    destruct (loop _) as [[[info rp]|e|code] [fs2 t2]]; cbn [fst snd trace] in *.
    + split; [discriminate|]. intros _.
      exists (debug_events self "Editing producer" ++ events),
             (debug_events self "Output file created" ++ cleanup_events self).
      rewrite Htrace, <- !app_assoc. reflexivity.
    + subst e. split; discriminate.
    + contradiction.
  - split; discriminate.
Qed.

(** The merge writes no document itself: its processes do. *)
Lemma build_final_output_writes_nothing
    (run : list string -> gmap string content -> gmap string content)
    (shlex_split : string -> option (list string)) (self : config) :
  emits (fun e => forall p, e <> WritePdf p) (build_final_output run shlex_split self).
Proof.
  unfold build_final_output. apply emits_bind.
  - destruct (negb (rebuild_pdf_from_images self) && negb (force_rebuild_mode self)).
    + destruct (use_pdftk self).
      * apply emits_merge_with_pdftk; discriminate.
      * apply emits_bind; [apply emits_merge_with_script; discriminate|].
        intros _. apply emits_bind; [apply emits_isfile|]. intros created.
        destruct (negb created); [|apply emits_ret].
        apply emits_try_repair_input_and_merge; discriminate.
    + apply emits_rebuild_and_merge; discriminate.
  - intros _. apply emits_output_check; discriminate.
Qed.

(** X14. From the merge on, a run that ends normally has written the final
    document at the output path. A run that leaves through [exit] does so
    with status 1, after the message that the output file could not be
    created and before [edit_producer]: it has written no document. *)
Theorem ocr_from_merge_writes_output
    (run : list string -> gmap string content -> gmap string content)
    (shlex_split : string -> option (list string))
    (self : config) (s : state) :
  ((ocr_from_merge run shlex_split self s).1 = Return tt ->
   WritePdf (output_file self) ∈ new_events s (ocr_from_merge run shlex_split self s).2) /\
  (forall code,
     (ocr_from_merge run shlex_split self s).1 = Exit code ->
     code = 1 /\
     Eprint fatal_message ∈ new_events s (ocr_from_merge run shlex_split self s).2 /\
     forall p, WritePdf p ∉ new_events s (ocr_from_merge run shlex_split self s).2).
Proof.
  destruct (build_final_output_cases run shlex_split self s) as (events & Htrace & Hcase).
  pose proof (emits_new_events _ _ s
                (build_final_output_writes_nothing run shlex_split self)) as Hnone.
  assert (ocr_from_merge run shlex_split self s =
          match build_final_output run shlex_split self s with
          | (Return _, s1) =>
              (edit_producer self;; debug self "Output file created";; cleanup self) s1
          | (Raise e, s1) => (Raise e, s1)
          | (Exit code, s1) => (Exit code, s1)
          end) as Hrun by reflexivity.
  rewrite Hrun. clear Hrun.
  destruct (build_final_output run shlex_split self s) as [[[]|e|code] [fs1 t1]];
    cbn [fst snd files trace] in Htrace, Hcase, Hnone.
  - destruct (edit_producer_and_cleanup_cases self fs1 t1 Hcase) as [Hnot Hwrite].
    split.
    + intros Hret. destruct (Hwrite Hret) as (before & after & Hfinal).
      unfold new_events. rewrite Hfinal, Htrace, <- app_assoc, drop_app_length.
      rewrite !elem_of_app. right. right. left. apply list_elem_of_here.
    + intros code Hexit. contradiction (Hnot code Hexit).
  - split; [discriminate|]. intros code. discriminate.
  - split; [discriminate|]. cbn [fst snd]. intros code' [= <-].
    destruct Hcase as [-> Hfatal]. split; [reflexivity|].
    unfold new_events in *. cbn [trace] in *.
    rewrite Htrace, drop_app_length in *.
    split; [exact Hfatal|].
    intros p Hin. rewrite Forall_forall in Hnone. exact (Hnone _ Hin p eq_refl).
Qed.

(** ** From the input to the page images *)

Section ImageStages.

Variable run : list string -> gmap string content -> gmap string content.
Variable self : config.
Variable path_pdftoppm : string.

Lemma do_pdftoimage_range_run (page_range : Ranges.page_range)
    (fs : gmap string content) (t : list event) :
  do_pdftoimage run path_pdftoppm (Some page_range) (input_file self) (tmp_dir self)
    (prefix self) (mk_state fs t) =
    (Return tt,
     mk_state (after_event run (pdftoimage_event self path_pdftoppm page_range) fs)
              (t ++ [pdftoimage_event self path_pdftoppm page_range])).
Proof.
  destruct page_range as [first_page last_page].
  unfold do_pdftoimage. cbn [head tail app]. rewrite popen_wait_Some. reflexivity.
Qed.

Lemma do_pdftoimage_all_run (fs : gmap string content) (t : list event) :
  do_pdftoimage run path_pdftoppm None (input_file self) (tmp_dir self) (prefix self)
    (mk_state fs t) =
    (Return tt,
     mk_state (after_event run (pdftoimage_all_event self path_pdftoppm) fs)
              (t ++ [pdftoimage_all_event self path_pdftoppm])).
Proof.
  unfold do_pdftoimage. cbn [head tail app]. rewrite popen_wait_Some. reflexivity.
Qed.

Lemma starmap_do_pdftoimage_run (ranges : list Ranges.page_range) :
  forall (fs : gmap string content) (t : list event),
    starmap (fun page_range =>
               do_pdftoimage run path_pdftoppm (Some page_range) (input_file self)
                 (tmp_dir self) (prefix self))
            ranges (mk_state fs t) =
      (Return tt,
       mk_state (after_events run (pdftoimage_event self path_pdftoppm <$> ranges) fs)
                (t ++ (pdftoimage_event self path_pdftoppm <$> ranges))).
Proof.
  induction ranges as [|r ranges IH]; intros fs t.
  - simpl. rewrite app_nil_r. reflexivity.
  - cbn [starmap]. unfold mbind at 1, M_bind at 1.
    rewrite do_pdftoimage_range_run, IH, fmap_cons, <- app_assoc. reflexivity.
Qed.

Lemma starmap_do_deskew_run (path_mogrify threshold : string) (images : list string) :
  forall (fs : gmap string content) (t : list event),
    starmap (fun image_file => do_deskew run image_file threshold path_mogrify)
            images (mk_state fs t) =
      (Return tt,
       mk_state (after_events run (deskew_event path_mogrify threshold <$> images) fs)
                (t ++ (deskew_event path_mogrify threshold <$> images))).
Proof.
  induction images as [|image images IH]; intros fs t.
  - simpl. rewrite app_nil_r. reflexivity.
  - cbn [starmap]. unfold mbind at 1, M_bind at 1.
    unfold do_deskew at 1. rewrite popen_wait_Some, IH, fmap_cons, <- app_assoc.
    reflexivity.
Qed.

End ImageStages.

(** X15. For a PDF input with a known page count and a positive worker
    budget, both below 2^53, [convert_input_to_images] starts one [pdftoppm]
    process per range of [calculate_ranges], each with the flags [-f] and
    [-l] of its range and an error log named after it, and no other process;
    there are at most as many processes as workers. *)
Theorem convert_input_to_images_ranges
    (run : list string -> gmap string content -> gmap string content)
    (self : config) (path_pdftoppm : string) (pages cpus : Z) (s : state) :
  input_file_type self = "application/pdf" ->
  1 <= pages < 2 ^ 53 -> 1 <= cpus < 2 ^ 53 ->
  exists ranges started s',
    Ranges.calculate_ranges (Some pages) cpus = Return (Some ranges) /\
    convert_input_to_images run self path_pdftoppm (Some pages) cpus s = (Return tt, s') /\
    new_events s s' = Log "Converting input file to images..." :: started /\
    started ≡ₚ pdftoimage_event self path_pdftoppm <$> ranges /\
    Z.of_nat (length started) <= cpus.
Proof.
  intros Htype Hp Hc. destruct s as [fs t].
  destruct (calculate_ranges_known pages cpus Hp Hc)
    as (rs & n & _ & _ & _ & Hn & _ & _ & Hcalc).
  exists (Ranges.build_ranges pages rs n),
         (pdftoimage_event self path_pdftoppm <$> Ranges.build_ranges pages rs n).
  eexists. split; [exact Hcalc|]. split; [|split; [|split]].
  - unfold convert_input_to_images, log. rewrite bind_emit_run, Htype.
    cbn [String.eqb Ascii.eqb Bool.eqb]. rewrite Hcalc.
    apply starmap_do_pdftoimage_run.
  - rewrite <- app_assoc, new_events_app. reflexivity.
  - reflexivity.
  - rewrite length_fmap, length_build_ranges. lia.
Qed.

Lemma convert_input_to_images_ranges_witness :
  exists s',
    convert_input_to_images run_nothing example_config "/usr/bin/pdftoppm" (Some 10) 4
      (mk_state ∅ []) = (Return tt, s') /\
    length (new_events (mk_state ∅ []) s') = 5%nat.
Proof.
  destruct (convert_input_to_images_ranges run_nothing example_config "/usr/bin/pdftoppm"
              10 4 (mk_state ∅ []) ltac:(reflexivity) ltac:(lia) ltac:(lia))
    as (ranges & started & s' & Hranges & Hrun & Hevents & Hperm & _).
  exists s'. split; [exact Hrun|].
  rewrite Hevents. cbn [length]. rewrite Hperm, length_fmap.
  vm_compute in Hranges. injection Hranges as <-. reflexivity.
Defined.

(** X16. For a PDF input whose page count could not be read,
    [convert_input_to_images] starts a single [pdftoppm] process for the
    whole document, without page flags, its error log being named with the
    pages 0 and 0. *)
Theorem convert_input_to_images_unknown_pages
    (run : list string -> gmap string content -> gmap string content)
    (self : config) (path_pdftoppm : string) (cpus : Z) (s : state) :
  input_file_type self = "application/pdf" ->
  convert_input_to_images run self path_pdftoppm None cpus s =
    (Return tt,
     mk_state (after_event run (pdftoimage_all_event self path_pdftoppm) (files s))
              (trace s ++ [Log "Converting input file to images...";
                           pdftoimage_all_event self path_pdftoppm])).
Proof.
  intros Htype. destruct s as [fs t].
  unfold convert_input_to_images, log. rewrite bind_emit_run, Htype.
  cbn [String.eqb Ascii.eqb Bool.eqb Ranges.calculate_ranges].
  rewrite do_pdftoimage_all_run, <- app_assoc. reflexivity.
Qed.

Lemma convert_input_to_images_unknown_pages_witness :
  new_events (mk_state ∅ [])
    (convert_input_to_images run_nothing example_config "/usr/bin/pdftoppm" None 4
       (mk_state ∅ [])).2 =
    [Log "Converting input file to images...";
     Popen ["/usr/bin/pdftoppm"; "-r"; "300"; "-jpeg"; "/home/user/scan.pdf"; "/tmp/pfx"]
           (Some "/tmp/pdftoppm_err_pfx-0-0.log")].
Proof.
  rewrite (convert_input_to_images_unknown_pages run_nothing example_config
             "/usr/bin/pdftoppm" 4 (mk_state ∅ []) ltac:(reflexivity)).
  reflexivity.
Defined.

(** X17. For an input that is neither a PDF nor a TIFF, JPEG or PNG image,
    [convert_input_to_images] starts no process: it prints that the type is
    not supported, cleans up and leaves through [exit(1)]. *)
Theorem convert_input_to_images_unsupported
    (run : list string -> gmap string content -> gmap string content)
    (self : config) (path_pdftoppm : string) (pages : option Z) (cpus : Z) (s : state) :
  input_file_type self <> "application/pdf" ->
  input_file_type self ∉ ["image/tiff"; "image/jpeg"; "image/png"] ->
  convert_input_to_images run self path_pdftoppm pages cpus s =
    (Exit 1,
     mk_state (cleanup_files self (files s))
              (trace s ++ [Log "Converting input file to images...";
                           Eprint (input_file_type self
                                   +:+ " is not supported in this script. Exiting.")]
                 ++ cleanup_events self)).
Proof.
  intros Hpdf Himage. destruct s as [fs t].
  unfold convert_input_to_images, log. rewrite bind_emit_run.
  destruct (String.eqb_spec (input_file_type self) "application/pdf") as [|_];
    [contradiction|].
  rewrite bool_decide_false by exact Himage.
  unfold eprint. rewrite bind_emit_run.
  unfold mbind at 1, M_bind at 1. rewrite cleanup_run. cbn [files trace].
  rewrite <- !app_assoc. reflexivity.
Qed.

Lemma convert_input_to_images_unsupported_witness :
  convert_input_to_images run_nothing example_config_text_input "/usr/bin/pdftoppm"
    None 4 (mk_state example_images []) =
    (Exit 1,
     mk_state ∅ [Log "Converting input file to images...";
                 Eprint "text/plain is not supported in this script. Exiting."]).
Proof.
  rewrite (convert_input_to_images_unsupported run_nothing example_config_text_input
             "/usr/bin/pdftoppm" None 4 (mk_state example_images [])
             ltac:(discriminate)
             ltac:(intros H; invert_elem H)).
  vm_compute. reflexivity.
Defined.

(** X18. Without option [-d], [deskew] does nothing at all: no process is
    started and the page images stay as they are. With it, one
    [mogrify -deskew] process with the threshold is started for every image
    of the list, and nothing else. *)
Theorem deskew_only_when_asked
    (run : list string -> gmap string content -> gmap string content)
    (self : config) (path_mogrify deskew_threshold : string)
    (image_file_list : list string) (s : state) :
  (use_deskew_mode self = false ->
   deskew run self path_mogrify deskew_threshold image_file_list s = (Return tt, s)) /\
  (use_deskew_mode self = true ->
   exists started s',
     deskew run self path_mogrify deskew_threshold image_file_list s = (Return tt, s') /\
     new_events s s' =
       debug_events self "Applying deskew (will rebuild final PDF file)" ++ started /\
     started ≡ₚ deskew_event path_mogrify deskew_threshold <$> image_file_list).
Proof.
  unfold deskew. split; intros ->; [reflexivity|].
  destruct s as [fs t].
  exists (deskew_event path_mogrify deskew_threshold <$> image_file_list).
  eexists. split; [|split; [|reflexivity]].
  - unfold mbind at 1, M_bind at 1. rewrite debug_run.
    apply starmap_do_deskew_run.
  - rewrite <- app_assoc, new_events_app. reflexivity.
Qed.

(** ** The text output *)

Lemma mapM_read_bytes (pdf_bytes : list page -> gmap string pyval -> string)
    (l : list string) (s : state) :
  Forall (fun f => is_Some (files s !! f)) l ->
  mapM (read_bytes pdf_bytes) l s = (Return (file_bytes pdf_bytes (files s) <$> l), s).
Proof.
  induction 1 as [|f l [c Hc] _ IH]; [reflexivity|].
  assert (file_bytes pdf_bytes (files s) f =
          match c with Blob data => data | Pdf pages info => pdf_bytes pages info end)
    as Hbytes by (unfold file_bytes; rewrite Hc; reflexivity).
  rewrite fmap_cons, Hbytes.
  cbn [mapM]. unfold mbind at 1, M_bind at 1. unfold read_bytes at 1.
  unfold mbind at 1, M_bind at 1. unfold get_files at 1. rewrite Hc.
  destruct c as [pages info|data]; cbn [mret M_ret];
    unfold mbind at 1, M_bind at 1; rewrite IH; reflexivity.
Qed.

(** X19. Without option [-w], [create_text_output] does nothing. With it, the
    text output is written with the bytes of the run's text files, one after
    the other in the sorted order of their names (an empty file when there is
    none); the output is emptied before the files are read, and when it is
    not one of them the bytes are those the files held before. *)
Theorem create_text_output_sorted
    (pdf_bytes : list page -> gmap string pyval -> string)
    (self : config) (opts : options) (s : state) :
  (create_text_mode opts = false ->
   create_text_output pdf_bytes self opts s = (Return tt, s)) /\
  (create_text_mode opts = true ->
   create_text_output pdf_bytes self opts s =
     (Return tt,
      mk_state
        (<[output_file_text self :=
             Blob (concat_bytes
                     (file_bytes pdf_bytes (<[output_file_text self := Blob ""]> (files s))
                        <$> sorted (glob (tmp_dir self) (prefix self) ".txt" (files s))))]>
           (files s))
        (trace s ++ [Log "Created final text file"])) /\
   (output_file_text self ∉ sorted (glob (tmp_dir self) (prefix self) ".txt" (files s)) ->
    file_bytes pdf_bytes (<[output_file_text self := Blob ""]> (files s))
      <$> sorted (glob (tmp_dir self) (prefix self) ".txt" (files s)) =
    file_bytes pdf_bytes (files s)
      <$> sorted (glob (tmp_dir self) (prefix self) ".txt" (files s)))).
Proof.
  unfold create_text_output. split; intros ->; [reflexivity|].
  destruct s as [fs t]. cbn [files trace].
  set (text_files := sorted (glob (tmp_dir self) (prefix self) ".txt" fs)).
  assert (Forall (fun f => is_Some (fs !! f)) text_files) as Hall.
  { apply Forall_forall. intros f Hf. unfold text_files in Hf.
    rewrite sorted_Permutation in Hf. exact (glob_is_Some _ _ _ _ _ Hf). }
  split.
  - unfold mbind at 1, M_bind at 1. unfold get_files at 1. cbn [files].
    fold text_files. unfold mbind at 1, M_bind at 1. unfold put_files at 1.
    cbn [trace]. unfold mbind at 1, M_bind at 1.
    rewrite mapM_read_bytes.
    + unfold mbind, M_bind, get_files, put_files, log, emit. cbn [files trace].
      rewrite insert_insert_eq. reflexivity.
    + cbn [files]. apply Forall_forall. intros f Hf.
      rewrite Forall_forall in Hall.
      destruct (decide (output_file_text self = f)) as [<-|Hne].
      * rewrite lookup_insert_eq. eauto.
      * rewrite lookup_insert_ne by exact Hne. exact (Hall f Hf).
  - intros Hnot. apply list_fmap_ext. intros i f Hf.
    unfold file_bytes. rewrite lookup_insert_ne; [reflexivity|].
    intros <-. apply Hnot. apply list_elem_of_lookup. eauto.
Qed.

(** ** The output paths *)

(** X20. [initial_cleanup] removes an output left by an earlier run, and the
    text output as well with option [-w]; it never fails when they are
    missing, prints nothing and leaves every other file as it was. *)
Theorem initial_cleanup_removes_outputs (self : config) (opts : options) (s : state) :
  exists s',
    initial_cleanup self opts s = (Return tt, s') /\
    trace s' = trace s /\
    files s' !! output_file self = None /\
    (create_text_mode opts = true -> files s' !! output_file_text self = None) /\
    (forall p, p <> output_file self ->
       p <> output_file_text self \/ create_text_mode opts = false ->
       files s' !! p = files s !! p).
Proof.
  destruct s as [fs t]. unfold initial_cleanup, best_effort_remove.
  destruct (create_text_mode opts); eexists; (split; [reflexivity|]);
    cbn [files trace]; (split; [reflexivity|]).
  - split; [|split].
    + destruct (decide (output_file_text self = output_file self)) as [->|Hne].
      * apply lookup_delete_eq.
      * rewrite lookup_delete_ne by exact Hne. apply lookup_delete_eq.
    + intros _. apply lookup_delete_eq.
    + intros p Hp [Hq|Hq]; [|discriminate].
      rewrite !lookup_delete_ne by congruence. reflexivity.
  - split; [apply lookup_delete_eq|]. split; [discriminate|].
    intros p Hp _. apply lookup_delete_ne. congruence.
Qed.

Section OutputFiles.

Variable self : config.
Variable opts : options.

Lemma define_output_files_run (fs : gmap string content) (t : list event) :
  define_output_files self opts (mk_state fs t) =
    let out := planned_output_file self opts in
    let txt := out +:+ ".txt" in
    let pdf_exists := bool_decide (is_Some (fs !! out)) in
    let txt_exists := bool_decide (is_Some (fs !! txt)) in
    let t1 := t ++ debug_events self ("Output file: " +:+ out +:+ " for PDF and " +:+ txt
                                      +:+ " for TXT") in
    if (safe_mode opts && pdf_exists)
       || (safe_mode opts && create_text_mode opts && txt_exists)
    then (Exit 1,
          mk_state (cleanup_files self fs)
            (t1 ++ (if pdf_exists
                    then [Eprint (out +:+ " already exists and safe mode is enabled. Exiting.")]
                    else [])
                ++ (if create_text_mode opts && txt_exists
                    then [Eprint (txt +:+ " already exists and safe mode is enabled. Exiting.")]
                    else [])
                ++ cleanup_events self))
    else (Return (out, txt), mk_state fs t1).
Proof.
  unfold define_output_files. fold (planned_output_file self opts).
  cbv zeta.
  unfold mbind at 1, M_bind at 1. rewrite debug_run.
  unfold mbind at 1, M_bind at 1. rewrite isfile_run.
  unfold mbind at 1, M_bind at 1. rewrite isfile_run.
  destruct (safe_mode opts && bool_decide (is_Some (fs !! planned_output_file self opts))
            || safe_mode opts && create_text_mode opts
               && bool_decide (is_Some (fs !! (planned_output_file self opts +:+ ".txt"))));
    [|reflexivity].
  destruct (bool_decide (is_Some (fs !! planned_output_file self opts)));
    destruct (create_text_mode opts
              && bool_decide (is_Some (fs !! (planned_output_file self opts +:+ ".txt"))));
    unfold cleanup, cleanup_files, cleanup_events;
    unfold eprint, exit, emit, mbind, M_bind, mret, M_ret, get_files, put_files;
    destruct (delete_temps self); cbn [files trace];
    rewrite <- ?app_assoc; rewrite ?app_nil_r; reflexivity.
Qed.

End OutputFiles.

(** X21. In safe mode, when the output file already exists,
    [define_output_files] says so and leaves through [exit(1)] before
    anything is written: apart from the temporary files that [cleanup]
    removes, every file, the existing output among them, is left as it
    was. *)
Theorem define_output_files_safe_mode (self : config) (opts : options) (s : state) :
  safe_mode opts = true ->
  is_Some (files s !! planned_output_file self opts) ->
  exists s',
    define_output_files self opts s = (Exit 1, s') /\
    files s' = cleanup_files self (files s) /\
    Eprint (planned_output_file self opts
            +:+ " already exists and safe mode is enabled. Exiting.")
      ∈ new_events s s' /\
    (forall p, glob_mid_dot_match (tmp_dir self) (prefix self) p = false ->
       files s' !! p = files s !! p).
Proof.
  intros Hsafe Hexists. destruct s as [fs t]. cbn [files] in *.
  rewrite define_output_files_run. cbv zeta. rewrite Hsafe.
  rewrite (bool_decide_true _ Hexists). cbn [andb orb].
  eexists. split; [reflexivity|]. cbn [files].
  split; [reflexivity|]. split.
  - rewrite <- app_assoc, new_events_app.
    rewrite !elem_of_app. right. left. apply list_elem_of_here.
  - intros p Hp. apply cleanup_files_lookup. exact Hp.
Qed.

Lemma define_output_files_safe_mode_witness :
  exists s',
    define_output_files example_config example_options_safe
      (mk_state example_stale_output []) = (Exit 1, s') /\
    files s' !! "/home/user/scan-OCR.pdf" = Some (Blob "earlier output").
Proof.
  destruct (define_output_files_safe_mode example_config example_options_safe
              (mk_state example_stale_output [])
              ltac:(reflexivity) ltac:(vm_compute; eauto))
    as (s' & Hrun & _ & _ & Hkeep).
  exists s'. split; [exact Hrun|].
  rewrite (Hkeep "/home/user/scan-OCR.pdf" ltac:(vm_compute; reflexivity)).
  vm_compute. reflexivity.
Defined.

(** X22. Without safe mode [define_output_files] never stops the run: it
    returns the output path and, as text output path, the same path followed
    by [.txt], whether or not files exist there, and changes no file. *)
Theorem define_output_files_without_safe_mode (self : config) (opts : options)
    (s : state) :
  safe_mode opts = false ->
  exists s',
    define_output_files self opts s =
      (Return (planned_output_file self opts, planned_output_file self opts +:+ ".txt"),
       s') /\
    files s' = files s /\
    (forall msg, Eprint msg ∉ new_events s s').
Proof.
  intros Hsafe. destruct s as [fs t].
  rewrite define_output_files_run. cbv zeta. rewrite Hsafe. cbn [andb orb].
  eexists. split; [reflexivity|]. split; [reflexivity|].
  rewrite new_events_app. intros msg H. invert_elem H.
Qed.

Lemma define_output_files_without_safe_mode_witness :
  exists s',
    define_output_files example_config example_options_text
      (mk_state example_stale_output []) =
      (Return ("/home/user/scan-OCR.pdf", "/home/user/scan-OCR.pdf.txt"), s') /\
    files s' = example_stale_output.
Proof.
  destruct (define_output_files_without_safe_mode example_config example_options_text
              (mk_state example_stale_output []) ltac:(reflexivity))
    as (s' & Hrun & Hfiles & _).
  exists s'. split; [exact Hrun|exact Hfiles].
Defined.

(** ** Path names *)

Lemma string_length_append (a b : string) :
  String.length (a +:+ b) = (String.length a + String.length b)%nat.
Proof. induction a as [|c a IH]; simpl; [reflexivity|]. rewrite IH. reflexivity. Qed.

Lemma string_app_char (a : string) (c : ascii) (b : string) :
  (a +:+ String c EmptyString) +:+ b = a +:+ String c b.
Proof.
  induction a as [|x a IH]; [reflexivity|].
  change (String x ((a +:+ String c EmptyString) +:+ b) = String x (a +:+ String c b)).
  rewrite IH. reflexivity.
Qed.

Lemma substring_all (b : string) : substring 0 (String.length b) b = b.
Proof. induction b as [|c b IH]; simpl; [reflexivity|]. rewrite IH. reflexivity. Qed.

Lemma substring_after (a b : string) (n : nat) :
  n = String.length b -> substring (String.length a) n (a +:+ b) = b.
Proof.
  intros ->. induction a as [|c a IH]; simpl; [apply substring_all|exact IH].
Qed.

Lemma substring_before (a b : string) :
  substring 0 (String.length a) (a +:+ b) = a.
Proof.
  induction a as [|c a IH]; simpl.
  - destruct b; reflexivity.
  - rewrite IH. reflexivity.
Qed.

Lemma rfind_app_none (c : ascii) (a b : string) :
  rfind c a = None -> rfind c b = None -> rfind c (a +:+ b) = None.
Proof.
  intros Ha Hb. induction a as [|x a IH]; simpl in *; [exact Hb|].
  destruct (rfind c a); [discriminate|]. rewrite IH by reflexivity.
  destruct (Ascii.eqb x c); [discriminate|reflexivity].
Qed.

Lemma rfind_app_last (c : ascii) (a b : string) :
  rfind c b = None -> rfind c (a +:+ String c b) = Some (String.length a).
Proof.
  intros Hb. induction a as [|x a IH]; simpl.
  - rewrite Hb, Ascii.eqb_refl. reflexivity.
  - rewrite IH. reflexivity.
Qed.

Lemma all_char_app (c : ascii) (a b : string) :
  all_char c (a +:+ b) = all_char c a && all_char c b.
Proof.
  induction a as [|x a IH]; simpl; [reflexivity|].
  rewrite IH. apply andb_assoc.
Qed.

Lemma rstrip_not_last (c x : ascii) (a : string) :
  x <> c -> rstrip c (a +:+ String x EmptyString) = a +:+ String x EmptyString.
Proof.
  intros Hne. induction a as [|y a IH]; simpl.
  - destruct (Ascii.eqb_spec x c); [contradiction|reflexivity].
  - rewrite IH. destruct a; reflexivity.
Qed.

Lemma rstrip_app_last (c x : ascii) (a : string) :
  x <> c ->
  rstrip c ((a +:+ String x EmptyString) +:+ String c EmptyString) =
  a +:+ String x EmptyString.
Proof.
  intros Hne. induction a as [|y a IH]; simpl.
  - rewrite Ascii.eqb_refl. destruct (Ascii.eqb_spec x c); [contradiction|reflexivity].
  - rewrite IH. destruct a; reflexivity.
Qed.

(** The three path functions on a path made of a directory, a separator, a
    stem, a dot and an extension. *)
Lemma basename_dir_name (dir name : string) :
  rfind "/" name = None -> basename (dir +:+ String "/" name) = name.
Proof.
  intros Hname. unfold basename. rewrite rfind_app_last by exact Hname.
  rewrite string_length_append. cbn [String.length].
  replace (String.length dir + S (String.length name) - S (String.length dir))%nat
    with (String.length name) by lia.
  change (S (String.length dir)) with (String.length (String "/" EmptyString) + String.length dir)%nat.
  replace (String.length (String "/" EmptyString) + String.length dir)%nat
    with (String.length (dir +:+ String "/" EmptyString))
    by (rewrite string_length_append; simpl; lia).
  rewrite <- (string_app_char dir "/" name).
  apply substring_after. reflexivity.
Qed.

Lemma splitext_stem_ext (stem ext : string) :
  rfind "/" stem = None -> rfind "/" ext = None -> rfind "." ext = None ->
  all_char "." stem = false ->
  splitext (stem +:+ String "." ext) = (stem, String "." ext).
Proof.
  intros Hs He Hdot Hstem. unfold splitext.
  rewrite rfind_app_last by exact Hdot.
  rewrite (rfind_app_none "/" stem (String "." ext)) by (simpl; try rewrite He; auto).
  cbn [Nat.leb]. rewrite Nat.sub_0_r, substring_before, Hstem.
  f_equal. apply substring_after.
  rewrite string_length_append. lia.
Qed.

Lemma dirname_dir_name (d name : string) (x : ascii) :
  x <> "/"%char -> rfind "/" name = None ->
  dirname ((d +:+ String x EmptyString) +:+ String "/" name) = d +:+ String x EmptyString.
Proof.
  intros Hx Hname. unfold dirname.
  rewrite rfind_app_last by exact Hname.
  set (dir := d +:+ String x EmptyString).
  assert (substring 0 (S (String.length dir)) (dir +:+ String "/" name) =
          dir +:+ String "/" EmptyString) as ->.
  { replace (S (String.length dir)) with (String.length (dir +:+ String "/" EmptyString))
      by (rewrite string_length_append; simpl; lia).
    rewrite <- (string_app_char dir "/" name). apply substring_before. }
  assert (String.eqb (dir +:+ String "/" EmptyString) "" = false) as ->.
  { unfold dir. destruct d; reflexivity. }
  assert (all_char "/" (dir +:+ String "/" EmptyString) = false) as ->.
  { unfold dir. rewrite !all_char_app. simpl.
    destruct (Ascii.eqb_spec x "/"); [contradiction|].
    rewrite andb_false_r. reflexivity. }
  cbn [negb andb]. unfold dir. apply rstrip_app_last. exact Hx.
Qed.

(** X23. Without option [-o], for an input [dir/stem.ext] (the directory not
    ending with a separator, the stem not made of dots only, no separator in
    the name and no dot in the extension), the output file is [dir/stem-OCR.pdf],
    beside the input. *)
Theorem planned_output_file_beside_input (self : config) (opts : options)
    (d stem ext : string) (x : ascii) :
  force_out_file opts = None ->
  input_file self = (d +:+ String x EmptyString) +:+ String "/" (stem +:+ String "." ext) ->
  x <> "/"%char ->
  rfind "/" stem = None -> rfind "/" ext = None -> rfind "." ext = None ->
  all_char "." stem = false ->
  planned_output_file self opts =
    (d +:+ String x EmptyString) +:+ "/" +:+ stem +:+ "-OCR.pdf".
Proof.
  intros Hforce Hinput Hx Hs He Hdot Hstem.
  unfold planned_output_file. rewrite Hforce, Hinput.
  assert (rfind "/" (stem +:+ String "." ext) = None) as Hname.
  { apply rfind_app_none; [exact Hs|]. simpl. rewrite He. reflexivity. }
  rewrite basename_dir_name by exact Hname.
  rewrite splitext_stem_ext by assumption.
  rewrite dirname_dir_name by assumption. reflexivity.
Qed.

Lemma planned_output_file_beside_input_witness :
  planned_output_file example_config example_options_text = "/home/user/scan-OCR.pdf".
Proof.
  exact (planned_output_file_beside_input example_config example_options_text
           "/home/use" "scan" "pdf" "r"
           ltac:(reflexivity) ltac:(reflexivity) ltac:(discriminate)
           ltac:(reflexivity) ltac:(reflexivity) ltac:(reflexivity) ltac:(reflexivity)).
Defined.

(** ** The recognition of one page *)

Section DoOcr.

Variable run : list string -> gmap string content -> gmap string content.
Variables remove_images strip_xobject : page -> option page.
Variables image_file tess_lang tess_psm temp_dir path_tesseract : string.

Lemma pdf_file_tmp_ne : pdf_file_tmp temp_dir image_file <> pdf_file temp_dir image_file.
Proof.
  unfold pdf_file_tmp, pdf_file. intros H.
  do 2 apply string_app_inv_head in H. discriminate H.
Qed.

Lemma do_ocr_run (fs : gmap string content) (t : list event) :
  do_ocr run remove_images strip_xobject image_file tess_lang tess_psm temp_dir
      path_tesseract (mk_state fs t) =
    let tess := tesseract_event image_file tess_lang tess_psm temp_dir path_tesseract in
    let fs1 := after_event run tess fs in
    let t1 := t ++ [tess] in
    match fs1 !! pdf_file temp_dir image_file with
    | None => (Raise FileNotFoundError, mk_state fs1 t1)
    | Some c =>
        let fs2 := <[pdf_file_tmp temp_dir image_file := c]>
                     (delete (pdf_file temp_dir image_file) fs1) in
        match c with
        | Blob data =>
            (Raise (if String.eqb data "" then OSError else PdfReadError), mk_state fs2 t1)
        | Pdf pages _ =>
            match mapM remove_images pages with
            | None => (Raise KeyError, mk_state fs2 t1)
            | Some [] => (Raise IndexError, mk_state fs2 t1)
            | Some (out_page :: output_pages) =>
                match strip_xobject out_page with
                | None => (Raise KeyError, mk_state fs2 t1)
                | Some out_page =>
                    (Return tt,
                     mk_state (<[pdf_file temp_dir image_file :=
                                   Pdf (out_page :: output_pages) pypdf2_info]> fs2)
                              (t1 ++ [WritePdf (pdf_file temp_dir image_file)]))
                end
            end
        end
    end.
Proof.
  unfold do_ocr. fold (image_no_ext image_file).
  fold (pdf_file temp_dir image_file) (pdf_file_tmp temp_dir image_file).
  cbv zeta.
  unfold mbind at 1, M_bind at 1. rewrite popen_wait_Some.
  change (after_popen run _ _ fs)
    with (after_event run
            (tesseract_event image_file tess_lang tess_psm temp_dir path_tesseract) fs).
  change [Popen _ _]
    with [tesseract_event image_file tess_lang tess_psm temp_dir path_tesseract].
  generalize (after_event run
                (tesseract_event image_file tess_lang tess_psm temp_dir path_tesseract) fs).
  intros fs1.
  unfold rename, get_files, put_files, raise, write_pdf, emit, mbind, M_bind.
  cbn [files trace].
  destruct (fs1 !! pdf_file temp_dir image_file) as [c|]; [|reflexivity].
  cbn [files trace]. rewrite lookup_insert_eq.
  destruct c as [pages info|data]; [|destruct (String.eqb data ""); reflexivity].
  destruct (mapM remove_images pages) as [[|out_page output_pages]|]; try reflexivity.
  destruct (strip_xobject out_page); reflexivity.
Qed.

(** X24. A [do_ocr] that does not return normally has raised an exception
    after the one tesseract process, before the overlay is written, and
    leaves no file at the overlay's path: a page whose recognition failed has
    no overlay for the assembly to find. In particular, when tesseract leaves
    no PDF the exception is [FileNotFoundError] and the files are as the
    process left them. *)
Theorem do_ocr_failure_leaves_no_overlay (s : state) :
  let tess := tesseract_event image_file tess_lang tess_psm temp_dir path_tesseract in
  let r := do_ocr run remove_images strip_xobject image_file tess_lang tess_psm temp_dir
             path_tesseract s in
  r.1 <> Return tt ->
  (exists e, r.1 = Raise e) /\
  files r.2 !! pdf_file temp_dir image_file = None /\
  trace r.2 = trace s ++ [tess] /\
  (after_event run tess (files s) !! pdf_file temp_dir image_file = None ->
   r = (Raise FileNotFoundError,
        mk_state (after_event run tess (files s)) (trace s ++ [tess]))).
Proof.
  destruct s as [fs t]. cbv zeta. rewrite do_ocr_run. cbv zeta. cbn [files trace].
  pose proof pdf_file_tmp_ne as Hne.
  destruct (after_event run _ fs !! pdf_file temp_dir image_file) as [c|] eqn:Hpdf.
  - assert (<[pdf_file_tmp temp_dir image_file := c]>
              (delete (pdf_file temp_dir image_file)
                 (after_event run
                    (tesseract_event image_file tess_lang tess_psm temp_dir path_tesseract)
                    fs)) !! pdf_file temp_dir image_file = None) as Hgone.
    { rewrite lookup_insert_ne by exact Hne. apply lookup_delete_eq. }
    destruct c as [pages info|data].
    + destruct (mapM remove_images pages) as [[|out_page output_pages]|];
        cbn [fst snd files trace].
      * intros _. split; [eauto|]. split; [exact Hgone|]. split; [reflexivity|].
        intros H. discriminate H.
      * destruct (strip_xobject out_page); cbn [fst snd files trace]; intros Hr.
        -- contradiction Hr. reflexivity.
        -- split; [eauto|]. split; [exact Hgone|]. split; [reflexivity|].
           intros H. discriminate H.
      * intros _. split; [eauto|]. split; [exact Hgone|]. split; [reflexivity|].
        intros H. discriminate H.
    + cbn [fst snd files trace]. intros _. split; [eauto|]. split; [exact Hgone|].
      split; [reflexivity|]. intros H. discriminate H.
  - cbn [fst snd files trace]. intros _. split; [eauto|].
    split; [exact Hpdf|]. split; reflexivity.
Qed.

(** X25. When tesseract leaves a PDF document whose pages the image removal
    accepts, with at least one page, the first of which has resources,
    [do_ocr] returns after that one process and one write: the overlay holds
    the pages of the document with their images removed, the first one also
    without its [/XObject] resources, the document tesseract wrote is kept
    under the [.tmp] name, and every other file is as the process left it. *)
Theorem do_ocr_overlay (fs : gmap string content) (t : list event)
    (pages : list page) (info : gmap string pyval)
    (out_page first_page : page) (output_pages : list page) :
  let tess := tesseract_event image_file tess_lang tess_psm temp_dir path_tesseract in
  after_event run tess fs !! pdf_file temp_dir image_file = Some (Pdf pages info) ->
  mapM remove_images pages = Some (first_page :: output_pages) ->
  strip_xobject first_page = Some out_page ->
  exists fs',
    do_ocr run remove_images strip_xobject image_file tess_lang tess_psm temp_dir
        path_tesseract (mk_state fs t) =
      (Return tt, mk_state fs' (t ++ [tess; WritePdf (pdf_file temp_dir image_file)])) /\
    fs' !! pdf_file temp_dir image_file =
      Some (Pdf (out_page :: output_pages) pypdf2_info) /\
    length output_pages = Nat.pred (length pages) /\
    fs' !! pdf_file_tmp temp_dir image_file = Some (Pdf pages info) /\
    (forall path, path <> pdf_file temp_dir image_file ->
       path <> pdf_file_tmp temp_dir image_file ->
       fs' !! path = after_event run tess fs !! path).
Proof.
  cbv zeta. intros Hpdf Hpages Hfirst. rewrite do_ocr_run. cbv zeta.
  rewrite Hpdf, Hpages, Hfirst.
  eexists. split; [rewrite <- app_assoc; reflexivity|].
  pose proof pdf_file_tmp_ne as Hne.
  split; [apply lookup_insert_eq|]. split; [|split].
  - apply length_mapM in Hpages. cbn [length] in Hpages. lia.
  - rewrite lookup_insert_ne by congruence. apply lookup_insert_eq.
  - intros path H1 H2. rewrite !lookup_insert_ne by congruence.
    apply lookup_delete_ne. congruence.
Qed.

End DoOcr.

Lemma do_ocr_failure_leaves_no_overlay_witness :
  let r := do_ocr run_tesseract example_remove_images example_strip_xobject
             "/tmp/pfx-002.jpg" "por+eng" "1" "/tmp/" "/usr/bin/tesseract"
             (mk_state example_images []) in
  r.1 <> Return tt /\
  r.1 = Raise FileNotFoundError /\
  files r.2 !! "/tmp/pfx-002.pdf" = None.
Proof.
  cbv zeta.
  assert (Hr : (do_ocr run_tesseract example_remove_images example_strip_xobject
                  "/tmp/pfx-002.jpg" "por+eng" "1" "/tmp/" "/usr/bin/tesseract"
                  (mk_state example_images [])).1 <> Return tt).
  { vm_compute. intros H. discriminate H. }
  split; [exact Hr|].
  destruct (do_ocr_failure_leaves_no_overlay run_tesseract example_remove_images
              example_strip_xobject "/tmp/pfx-002.jpg" "por+eng" "1" "/tmp/"
              "/usr/bin/tesseract" (mk_state example_images []) Hr)
    as (_ & Hf & _ & Hmissing).
  split; [|exact Hf].
  rewrite (Hmissing ltac:(vm_compute; reflexivity)). reflexivity.
Defined.

Lemma do_ocr_overlay_witness :
  exists fs',
    do_ocr run_tesseract example_remove_images example_strip_xobject
        "/tmp/pfx-001.jpg" "por+eng" "1" "/tmp/" "/usr/bin/tesseract"
        (mk_state example_images []) =
      (Return tt,
       mk_state fs' [tesseract_event "/tmp/pfx-001.jpg" "por+eng" "1" "/tmp/"
                       "/usr/bin/tesseract";
                     WritePdf "/tmp/pfx-001.pdf"]) /\
    fs' !! "/tmp/pfx-001.pdf" =
      Some (Pdf ["no xobject: no image: scan of /tmp/pfx-001.jpg"] pypdf2_info) /\
    fs' !! "/tmp/pfx-001.tmp" = Some (Pdf ["scan of /tmp/pfx-001.jpg"] pypdf2_info).
Proof.
  destruct (do_ocr_overlay run_tesseract example_remove_images example_strip_xobject
              "/tmp/pfx-001.jpg" "por+eng" "1" "/tmp/" "/usr/bin/tesseract"
              example_images [] ["scan of /tmp/pfx-001.jpg"] pypdf2_info
              "no xobject: no image: scan of /tmp/pfx-001.jpg"
              "no image: scan of /tmp/pfx-001.jpg" [])
    as (fs' & Hrun & Hpdf & _ & Htmp & _).
  - vm_compute. reflexivity.
  - reflexivity.
  - reflexivity.
  - exists fs'. split; [exact Hrun|]. split; [exact Hpdf|exact Htmp].
Defined.
